(** * Mobile authentication mock API: the abuse-mitigation core of
      [docker/mock-api/app.py]

    A shallow embedding of the authentication service: the ephemeral
    key-value store with expiring keys, the rate limiter, the CAPTCHA
    gate, the token service, the risk scorer and the login flow with its
    failed-attempt / lockout bookkeeping.

    Conventions.
    - Time is an integer number of microseconds since the epoch, the
      resolution of [datetime.utcnow()].  A service function takes the
      instant of its store commands as an argument;
      [generate_jwt_token], which calls [datetime.utcnow()] twice, takes
      the two readings; a request carries the instant at which it is
      served together with the two readings of the token it may issue.
    - Text is [string], read as a sequence of code points below 256, one
      character each; white space, letter case and decimal digits are
      those of Python's [str] on that range.  [str(n)] is the decimal
      printer of the standard library.
    - Python exceptions are a result type threaded through a state
      monad over the two external stores. *)

From Stdlib Require Import ZArith Lia Bool List Ascii String.
From Stdlib Require Import DecimalString DecimalZ.
From stdpp Require Import base option gmap strings list fin_maps.

Local Open Scope string_scope.
Local Open Scope Z_scope.

(** ** Text helpers *)

(** [str(n)] for an integer. *)
Definition py_str (z : Z) : string := NilZero.string_of_int (Z.to_int z).

(** The white space of [str.strip()] among the code points below 256:
    U+0009 to U+000D, U+001C to U+0020, U+0085 and U+00A0. *)
Definition is_space (a : ascii) : bool :=
  let n := Z.of_nat (nat_of_ascii a) in
  ((9 <=? n) && (n <=? 13)) || ((28 <=? n) && (n <=? 32))
  || (n =? 133) || (n =? 160).

Fixpoint lstrip (s : string) : string :=
  match s with
  | EmptyString => EmptyString
  | String a s' => if is_space a then lstrip s' else s
  end.

Fixpoint rstrip (s : string) : string :=
  match s with
  | EmptyString => EmptyString
  | String a s' =>
      match rstrip s' with
      | EmptyString => if is_space a then EmptyString else String a EmptyString
      | r => String a r
      end
  end.

(** [s.strip()] *)
Definition strip (s : string) : string := rstrip (lstrip s).

(** The lower-case mapping of [str.lower()] on one code point below
    256: the capitals A to Z, U+00C0 to U+00D6 and U+00D8 to U+00DE move
    up by 32. *)
Definition lower_char (a : ascii) : ascii :=
  let n := nat_of_ascii a in
  if (((65 <=? n) && (n <=? 90))
      || ((192 <=? n) && (n <=? 222) && negb (n =? 215)))%nat
  then ascii_of_nat (n + 32) else a.

(** [s.lower()] *)
Fixpoint lower (s : string) : string :=
  match s with
  | EmptyString => EmptyString
  | String a s' => String (lower_char a) (lower s')
  end.

Definition is_digit (a : ascii) : bool :=
  let n := nat_of_ascii a in ((48 <=? n) && (n <=? 57))%nat.

(** The digits of a numeral of [int()], [digit (["_"] digit)*], with the
    underscores taken out; [None] for any other text.  [after_digit]
    says that the character before was a digit. *)
Fixpoint int_digits (after_digit : bool) (s : string) : option string :=
  match s with
  | EmptyString => if after_digit then Some EmptyString else None
  | String a s' =>
      if is_digit a then option_map (String a) (int_digits true s')
      else if Ascii.eqb a "_" && after_digit then int_digits false s'
      else None
  end.

(** The sign in front of a numeral and the rest of the text. *)
Definition int_sign (t : string) : bool * string :=
  match t with
  | String a r =>
      if Ascii.eqb a "-" then (true, r)
      else if Ascii.eqb a "+" then (false, r)
      else (false, t)
  | EmptyString => (false, t)
  end.

(** The white space that [int()] skips around a numeral: that of
    [str.strip()] without the separators U+001C to U+001F. *)
Definition is_int_space (a : ascii) : bool :=
  let n := Z.of_nat (nat_of_ascii a) in
  ((9 <=? n) && (n <=? 13)) || (n =? 32) || (n =? 133) || (n =? 160).

Fixpoint int_lstrip (s : string) : string :=
  match s with
  | EmptyString => EmptyString
  | String a s' => if is_int_space a then int_lstrip s' else s
  end.

Fixpoint int_rstrip (s : string) : string :=
  match s with
  | EmptyString => EmptyString
  | String a s' =>
      match int_rstrip s' with
      | EmptyString => if is_int_space a then EmptyString else String a EmptyString
      | r => String a r
      end
  end.

(** [int(s)] for a text: white space around the numeral is skipped, a
    sign may come first, the digits may be grouped by single underscores
    and may start with zeros; anything else is a [ValueError], rendered
    as [None]. *)
Definition py_int (s : string) : option Z :=
  let '(negative, body) := int_sign (int_rstrip (int_lstrip s)) in
  match int_digits false body with
  | Some d =>
      match NilZero.uint_of_string d with
      | Some u => Some (if negative then - Z.of_uint u else Z.of_uint u)
      | None => None
      end
  | None => None
  end.
Arguments py_int : simpl never.

(** [s.startswith(p)] *)
Definition startswith (s p : string) : bool := String.prefix p s.

(** Python truthiness of an optional text: [None] and [''] are falsy. *)
Definition truthy (o : option string) : bool :=
  match o with
  | Some s => negb (String.eqb s EmptyString)
  | None => false
  end.

(** ** Exceptions and the state monad *)

Inductive exn : Type :=
  | ValueError             (* int() on text that is not a number *)
  | ResponseError          (* the store refused a command *)
  | ExpiredSignatureError
  | ImmatureSignatureError (* an InvalidTokenError: 'iat' is after the clock *)
  | InvalidTokenError
  | BadRequest             (* request.json on a body that is not JSON *)
  | AttributeError.        (* .get on a JSON value that is not an object *)

Inductive result (A : Type) : Type :=
  | Ok (a : A)
  | Raise (e : exn).
Arguments Ok {A} a.
Arguments Raise {A} e.

(** ** The two external stores *)

(** One key of the ephemeral store: its text and, when it has one, the
    instant at which it expires. *)
Record entry : Type := Entry {
  value : string;
  expire_at : option Z
}.

(** One row of [test_users], with the columns the login flow selects or
    updates. *)
Record user_row : Type := UserRow {
  id : Z;
  username : string;
  email : string;
  password_hash : string;
  salt : string;
  is_active : bool;
  is_locked : bool;
  failed_login_attempts : Z;
  biometric_enabled : bool;
  two_factor_enabled : bool;
  user_role : string;
  last_login_attempt : option Z
}.

(** What [get_client_info] extracts from a request; [timestamp] is the
    clock reading that the dictionary holds as ISO text. *)
Record client_info : Type := ClientInfo {
  ip_address : string;
  user_agent : string;
  timestamp : Z;
  device_id : option string;
  app_version : option string;
  platform : option string;
  device_fingerprint : option string
}.

(** One row of [auth_events_log]. *)
Record auth_event : Type := AuthEvent {
  ev_user_id : string;
  ev_event_type : string;
  ev_ip_address : string;
  ev_user_agent : string;
  ev_device_fingerprint : option string;
  ev_additional_data : option client_info;
  ev_risk_score : Z
}.

Record world : Type := World {
  redis : gmap string entry;
  test_users : list user_row;
  auth_events_log : list auth_event
}.

Definition set_redis (f : gmap string entry -> gmap string entry) (w : world) : world :=
  {| redis := f (redis w); test_users := test_users w;
     auth_events_log := auth_events_log w |}.

Definition set_users (f : list user_row -> list user_row) (w : world) : world :=
  {| redis := redis w; test_users := f (test_users w);
     auth_events_log := auth_events_log w |}.

Definition add_event (e : auth_event) (w : world) : world :=
  {| redis := redis w; test_users := test_users w;
     auth_events_log := auth_events_log w ++ [e] |}.

Definition M (A : Type) : Type := world -> result A * world.

Definition ret {A} (a : A) : M A := fun w => (Ok a, w).

Definition raise {A} (e : exn) : M A := fun w => (Raise e, w).

Definition bind {A B} (m : M A) (k : A -> M B) : M B :=
  fun w =>
    match m w with
    | (Ok a, w') => k a w'
    | (Raise e, w') => (Raise e, w')
    end.

(** [try: m except Exception: h] -- the writes made before the exception
    stay in the stores. *)
Definition try_except {A} (m : M A) (h : exn -> M A) : M A :=
  fun w =>
    match m w with
    | (Ok a, w') => (Ok a, w')
    | (Raise e, w') => h e w'
    end.

Notation "'do' x <- m ; k" := (bind m (fun x => k))
  (at level 10, x name, m at level 100, k at level 200).
Notation "'run' m ; k" := (bind m (fun _ => k))
  (at level 10, m at level 100, k at level 200).

(** ** The ephemeral store (Redis) *)

Definition us_per_second : Z := 1000000.

(** A key is live until its expiry instant. *)
Definition live (now : Z) (e : entry) : bool :=
  match expire_at e with
  | Some t => now <? t
  | None => true
  end.

Definition live_entry (now : Z) (key : string) (r : gmap string entry) : option entry :=
  match r !! key with
  | Some e => if live now e then Some e else None
  | None => None
  end.

(** GET *)
Definition redis_get (now : Z) (key : string) : M (option string) :=
  fun w => (Ok (value <$> live_entry now key (redis w)), w).

(** SETEX: the store refuses a time to live that is not positive. *)
Definition redis_setex (now : Z) (key : string) (ttl : Z) (v : string) : M unit :=
  fun w =>
    if ttl <=? 0 then (Raise ResponseError, w)
    else (Ok tt, set_redis (insert key (Entry v (Some (now + ttl * us_per_second)))) w).

(** The integer a stored text stands for in the store's own reading:
    the text has to be the canonical decimal of the number, without
    white space, without a sign [+] and without leading zeros.  The
    store keeps integers in 64 bits; that range is left out here, a
    counter is unbounded. *)
Definition redis_int (s : string) : option Z :=
  match NilZero.int_of_string s with
  | Some d =>
      let z := Z.of_int d in
      if String.eqb (py_str z) s then Some z else None
  | None => None
  end.
Arguments redis_int : simpl never.

(** INCR: a missing key counts from zero and gets no expiry; an existing
    one keeps its expiry; a value that is not an integer is refused. *)
Definition redis_incr (now : Z) (key : string) : M Z :=
  fun w =>
    match live_entry now key (redis w) with
    | None => (Ok 1, set_redis (insert key (Entry (py_str 1) None)) w)
    | Some e =>
        match redis_int (value e) with
        | Some n => (Ok (n + 1), set_redis (insert key (Entry (py_str (n + 1)) (expire_at e))) w)
        | None => (Raise ResponseError, w)
        end
    end.

(** DEL *)
Definition redis_delete (key : string) : M unit :=
  fun w => (Ok tt, set_redis (delete key) w).

(** ** Configuration *)

Definition JWT_EXPIRATION_HOURS : Z := 24.
Definition MAX_LOGIN_ATTEMPTS : Z := 5.
Definition ACCOUNT_LOCKOUT_DURATION : Z := 30.
Definition CAPTCHA_THRESHOLD : Z := 3.
Definition SESSION_TIMEOUT : Z := 30.

(** ** Tokens *)

(** The claims [generate_jwt_token] puts in a token; [exp] and [iat] are
    whole seconds, as the encoder writes them. *)
Record jwt_payload : Type := JwtPayload {
  p_user_id : string;
  p_username : string;
  p_email : string;
  p_role : string;
  p_exp : Z;
  p_iat : Z;
  p_jti : string
}.

(** A token is its claims and the signature over them; the textual
    encoding of the two is not modelled. *)
Record token : Type := Token {
  tk_payload : jwt_payload;
  tk_signature : string
}.

(** The entries of [user_data] that [generate_jwt_token] reads;
    [ud_user_role] is [None] when the dictionary has no ['user_role']. *)
Record user_data : Type := UserData {
  ud_id : Z;
  ud_username : string;
  ud_email : string;
  ud_user_role : option string
}.

(** [calendar.timegm(t.utctimetuple())]: whole seconds, the fraction
    dropped. *)
Definition timegm (t : Z) : Z := t / us_per_second.

(** [t + timedelta(hours=h)] *)
Definition plus_hours (t h : Z) : Z := t + h * 3600 * us_per_second.

(** [t + timedelta(minutes=m)] *)
Definition plus_minutes (t m : Z) : Z := t + m * 60 * us_per_second.

(** ** Time stamps and JSON text *)

(** [n] as decimal text of at least [width] digits, for [n >= 0]. *)
Definition zero_padded (width : nat) (n : Z) : string :=
  let d := py_str n in
  string_of_list_ascii (List.repeat "0"%char (width - String.length d)) +:+ d.

(** Year, month and day of a day number counted from 1970-01-01 in the
    proleptic Gregorian calendar. *)
Definition civil_from_days (days : Z) : Z * Z * Z :=
  let z := days + 719468 in
  let era := z / 146097 in
  let doe := z - era * 146097 in
  let yoe := (doe - doe / 1460 + doe / 36524 - doe / 146096) / 365 in
  let doy := doe - (365 * yoe + yoe / 4 - yoe / 100) in
  let mp := (5 * doy + 2) / 153 in
  let d := doy - (153 * mp + 2) / 5 + 1 in
  let m := if mp <? 10 then mp + 3 else mp - 9 in
  let y := yoe + era * 400 + (if m <=? 2 then 1 else 0) in
  (y, m, d).

(** [t.isoformat()] of the naive datetime [t], for the instants a
    datetime can hold (the years 1 to 9999); the fraction is left out
    when it is zero. *)
Definition isoformat (t : Z) : string :=
  let day := 86400 * us_per_second in
  let '(y, m, d) := civil_from_days (t / day) in
  let r := t mod day in
  let s := r / us_per_second in
  let us := r mod us_per_second in
  zero_padded 4 y +:+ "-" +:+ zero_padded 2 m +:+ "-" +:+ zero_padded 2 d
  +:+ "T" +:+ zero_padded 2 (s / 3600) +:+ ":" +:+ zero_padded 2 (s / 60 mod 60)
  +:+ ":" +:+ zero_padded 2 (s mod 60)
  +:+ (if us =? 0 then EmptyString else "." +:+ zero_padded 6 us).

Definition hex_digit (n : nat) : ascii :=
  default "0"%char (String.get n "0123456789abcdef").

(** One character inside a JSON string as [json.dumps] writes it: the
    quote and the backslash behind a backslash, the printable ASCII
    characters as they are, the others escaped. *)
Definition json_char (a : ascii) : string :=
  let n := nat_of_ascii a in
  let backslash := String (ascii_of_nat 92) EmptyString in
  if (n =? 34)%nat then backslash +:+ String a EmptyString
  else if (n =? 92)%nat then backslash +:+ backslash
  else if (n =? 10)%nat then backslash +:+ "n"
  else if (n =? 13)%nat then backslash +:+ "r"
  else if (n =? 9)%nat then backslash +:+ "t"
  else if (n =? 8)%nat then backslash +:+ "b"
  else if (n =? 12)%nat then backslash +:+ "f"
  else if ((32 <=? n) && (n <=? 126))%nat then String a EmptyString
  else backslash +:+ "u00"
       +:+ String (hex_digit (n / 16)) (String (hex_digit (n mod 16)) EmptyString).

Fixpoint json_chars (s : string) : string :=
  match s with
  | EmptyString => EmptyString
  | String a s' => json_char a +:+ json_chars s'
  end.

(** [json.dumps] of a text and of a text that may be [None]. *)
Definition json_text (s : string) : string :=
  let q := String (ascii_of_nat 34) EmptyString in
  q +:+ json_chars s +:+ q.

Definition json_optional (o : option string) : string :=
  match o with
  | Some s => json_text s
  | None => "null"
  end.

(** [json.dumps] of a dictionary with the given keys and dumped values. *)
Fixpoint json_fields (fields : list (string * string)) : string :=
  match fields with
  | [] => EmptyString
  | [(k, v)] => json_text k +:+ ": " +:+ v
  | (k, v) :: rest => json_text k +:+ ": " +:+ v +:+ ", " +:+ json_fields rest
  end.

Definition json_object (fields : list (string * string)) : string :=
  "{" +:+ json_fields fields +:+ "}".

(** [json.dumps] of the dictionary of [get_client_info]. *)
Definition client_info_json (ci : client_info) : string :=
  json_object
    [("ip_address", json_text (ip_address ci));
     ("user_agent", json_text (user_agent ci));
     ("timestamp", json_text (isoformat (timestamp ci)));
     ("device_id", json_optional (device_id ci));
     ("app_version", json_optional (app_version ci));
     ("platform", json_optional (platform ci));
     ("device_fingerprint", json_optional (device_fingerprint ci))].

(** ** CAPTCHA challenges and login messages *)

Record captcha_challenge : Type := CaptchaChallenge {
  ch_captcha_id : string;
  ch_question : string;
  ch_expires_in : Z
}.

(** The JSON body of a login request. *)
Record login_request : Type := LoginRequest {
  rq_username : option string;
  rq_password : option string;
  rq_captcha_id : option string;
  rq_captcha_answer : option string
}.

Record user_summary : Type := UserSummary {
  us_id : string;
  us_username : string;
  us_email : string;
  us_role : string;
  us_biometric_enabled : bool;
  us_two_factor_enabled : bool
}.

(** The HTTP status and the JSON body of a login response; a key the
    body does not have is [None]. *)
Record response : Type := Response {
  rs_status : Z;
  rs_success : bool;
  rs_message : string;
  rs_error_code : option string;
  rs_unlock_time : option Z;
  rs_captcha : option captcha_challenge;
  rs_remaining_attempts : option Z;
  rs_token : option token;
  rs_session_id : option string;
  rs_user : option user_summary;
  rs_expires_in : option Z;
  rs_requires_2fa : option bool
}.

(** A response that carries only a message and an error code. *)
Definition rejection (status : Z) (message error_code : string) : response :=
  {| rs_status := status; rs_success := false; rs_message := message;
     rs_error_code := Some error_code; rs_unlock_time := None;
     rs_captcha := None; rs_remaining_attempts := None; rs_token := None;
     rs_session_id := None; rs_user := None; rs_expires_in := None;
     rs_requires_2fa := None |}.

(** What one request brings besides its body: the client's headers, the
    clock readings taken while it is served and the random values drawn
    for it. *)
Record request_env : Type := RequestEnv {
  e_client : client_info;
  e_now : Z;            (* the instant of the store commands and of the
                           flow's own time stamps *)
  e_hour : Z;           (* datetime.now().hour *)
  e_num1 : Z;           (* secrets.randbelow(10) *)
  e_num2 : Z;           (* secrets.randbelow(10) *)
  e_captcha_uuid : string;
  e_utc_exp : Z;        (* first utcnow() of generate_jwt_token *)
  e_utc_iat : Z;        (* second utcnow() of generate_jwt_token *)
  e_jti : string;
  e_session_uuid : string
}.

(** ** AuthenticationService *)

(** The second half of [check_rate_limit]: the branch on the value read. *)
Definition rate_limit_decide (key : string) (limit window : Z) (now : Z)
    (current : option string) : M bool :=
  match current with
  | None => run redis_setex now key window (py_str 1); ret true
  | Some c =>
      match py_int c with
      | None => raise ValueError
      | Some n =>
          if n <? limit then run redis_incr now key; ret true
          else ret false
      end
  end.

(** [check_rate_limit(identifier, limit, window)] *)
Definition check_rate_limit (identifier : string) (limit window : Z) (now : Z) : M bool :=
  let key := "rate_limit:" +:+ identifier in
  do current <- redis_get now key;
  rate_limit_decide key limit window now current.

(** [generate_captcha()], with the two operands and the identifier drawn
    by the caller. *)
Definition generate_captcha (num1 num2 : Z) (uuid : string) (now : Z) : M captcha_challenge :=
  let captcha_id := uuid in
  let answer := py_str (num1 + num2) in
  run redis_setex now ("captcha:" +:+ captcha_id) 300 answer;
  ret {| ch_captcha_id := captcha_id;
         ch_question := py_str num1 +:+ " + " +:+ py_str num2 +:+ " = ?";
         ch_expires_in := 300 |}.

(** [verify_captcha(captcha_id, user_answer)] *)
Definition verify_captcha (captcha_id user_answer : string) (now : Z) : M bool :=
  do correct_answer <- redis_get now ("captcha:" +:+ captcha_id);
  match correct_answer with
  | Some c =>
      if negb (String.eqb c EmptyString) && String.eqb (strip user_answer) c then
        run redis_delete ("captcha:" +:+ captcha_id); ret true
      else ret false
  | None => ret false
  end.

(** [calculate_risk_score(client_info, success)], with the local hour of
    the call. *)
Definition calculate_risk_score (ci : client_info) (success : bool) (hour : Z) : Z :=
  let risk_score := 0 in
  let ip := ip_address ci in
  let risk_score :=
    if startswith ip "127." || startswith ip "192.168." then risk_score + 10
    else risk_score in
  let risk_score :=
    if negb (truthy (device_fingerprint ci)) then risk_score + 20
    else risk_score in
  let risk_score := if negb success then risk_score + 30 else risk_score in
  let risk_score :=
    if (hour <? 6) || (hour >? 22) then risk_score + 15 else risk_score in
  Z.min risk_score 100.

(** [log_auth_event]: one more row in [auth_events_log]. *)
Definition log_auth_event (user_id event_type : string) (success : bool)
    (additional_data : option client_info) (env : request_env) : M unit :=
  fun w =>
    let ci := e_client env in
    (Ok tt,
     add_event {| ev_user_id := user_id; ev_event_type := event_type;
                  ev_ip_address := ip_address ci;
                  ev_user_agent := user_agent ci;
                  ev_device_fingerprint := device_fingerprint ci;
                  ev_additional_data := additional_data;
                  ev_risk_score := calculate_risk_score ci success (e_hour env) |} w).


(** ** The account table *)

(** [SELECT ... FROM test_users WHERE username = %s OR email = %s]
    followed by [fetchone()].  The query has no ORDER BY: when several
    rows answer to the name the database may return any of them, and
    another one after an UPDATE.  The table is a list here and the row
    returned the first that answers in the order of the list, which
    [update_rows] keeps; the statements that follow one account through
    several requests assume [one_account], under which the row found
    does not depend on that order. *)
Definition find_user (name : string) (rows : list user_row) : option user_row :=
  List.find (fun u => String.eqb (username u) name || String.eqb (email u) name) rows.

Definition select_user (name : string) : M (option user_row) :=
  fun w => (Ok (find_user name (test_users w)), w).

(** The row after [SET failed_login_attempts = failed_login_attempts + 1,
    last_login_attempt = CURRENT_TIMESTAMP, is_locked = CASE WHEN
    failed_login_attempts + 1 >= %s THEN true ELSE false END]; the right
    hand sides read the row as it was. *)
Definition failed_row (max_attempts now : Z) (u : user_row) : user_row :=
  {| id := id u; username := username u; email := email u;
     password_hash := password_hash u; salt := salt u;
     is_active := is_active u;
     is_locked := failed_login_attempts u + 1 >=? max_attempts;
     failed_login_attempts := failed_login_attempts u + 1;
     biometric_enabled := biometric_enabled u;
     two_factor_enabled := two_factor_enabled u;
     user_role := user_role u;
     last_login_attempt := Some now |}.

(** The row after [SET failed_login_attempts = 0, last_login_attempt =
    CURRENT_TIMESTAMP, is_locked = false]. *)
Definition reset_row (now : Z) (u : user_row) : user_row :=
  {| id := id u; username := username u; email := email u;
     password_hash := password_hash u; salt := salt u;
     is_active := is_active u;
     is_locked := false;
     failed_login_attempts := 0;
     biometric_enabled := biometric_enabled u;
     two_factor_enabled := two_factor_enabled u;
     user_role := user_role u;
     last_login_attempt := Some now |}.

(** The table after [UPDATE test_users SET ... WHERE id = %s]. *)
Definition update_rows (uid : Z) (f : user_row -> user_row) (rows : list user_row)
    : list user_row :=
  List.map (fun u => if id u =? uid then f u else u) rows.

(** The update and its commit. *)
Definition update_where_id (uid : Z) (f : user_row -> user_row) : M unit :=
  fun w => (Ok tt, set_users (update_rows uid f) w).

(** ** Concurrent callers of the rate limiter *)

(** A caller of [check_rate_limit] as the store sees it: before its GET,
    between its GET and its write, and returned. *)
Inductive limiter_thread : Type :=
  | Fresh
  | HasRead (current : option string)
  | Returned (r : result bool).

(** One store command of one caller. *)
Definition limiter_step (identifier : string) (limit window : Z) (now : Z)
    (th : limiter_thread) (w : world) : limiter_thread * world :=
  let key := "rate_limit:" +:+ identifier in
  match th with
  | Fresh =>
      match redis_get now key w with
      | (Ok current, w') => (HasRead current, w')
      | (Raise e, w') => (Returned (Raise e), w')
      end
  | HasRead current =>
      let '(r, w') := rate_limit_decide key limit window now current w in
      (Returned r, w')
  | Returned r => (Returned r, w)
  end.

(** A schedule names, command by command, the caller that moves and the
    instant at which it does. *)
Fixpoint run_schedule (identifier : string) (limit window : Z)
    (schedule : list (nat * Z)) (threads : list limiter_thread) (w : world)
    : list limiter_thread * world :=
  match schedule with
  | [] => (threads, w)
  | (i, now) :: rest =>
      match threads !! i with
      | Some th =>
          let '(th', w') := limiter_step identifier limit window now th w in
          run_schedule identifier limit window rest (<[i := th']> threads) w'
      | None => run_schedule identifier limit window rest threads w
      end
  end.

(** The schedule in which the callers run one after the other, caller
    [i], [i+1], ... doing both of its commands at its own instant. *)
Fixpoint serial_from (i : nat) (times : list Z) : list (nat * Z) :=
  match times with
  | [] => []
  | t :: rest => (i, t) :: (i, t) :: serial_from (S i) rest
  end.

Definition serial_schedule (times : list Z) : list (nat * Z) :=
  serial_from 0 times.

Definition was_admitted (th : limiter_thread) : bool :=
  match th with
  | Returned (Ok true) => true
  | _ => false
  end.

Definition admitted_count (threads : list limiter_thread) : nat :=
  length (List.filter was_admitted threads).

(** Calls of [check_rate_limit] made one after the other. *)
Fixpoint check_rate_limit_calls (identifier : string) (limit window : Z)
    (times : list Z) (w : world) : list (result bool) * world :=
  match times with
  | [] => ([], w)
  | t :: rest =>
      let '(r, w') := check_rate_limit identifier limit window t w in
      let '(rs, w'') := check_rate_limit_calls identifier limit window rest w' in
      (r :: rs, w'')
  end.

(** ** The risk score as the specification words it *)

(** Loopback and the private ranges 10/8, 172.16/12 and 192.168/16, by
    their dotted prefixes. *)
Definition loopback_or_private (ip : string) : bool :=
  startswith ip "127." || startswith ip "10." || startswith ip "192.168."
  || existsb (fun n => startswith ip ("172." +:+ py_str n +:+ "."))
       [16; 17; 18; 19; 20; 21; 22; 23; 24; 25; 26; 27; 28; 29; 30; 31].

(** +10 for a loopback or private address, +20 without a device
    fingerprint, +30 for a failed attempt, +15 when the hour is outside
    [6,22), capped at 100. *)
Definition spec_risk_score (ci : client_info) (success : bool) (hour : Z) : Z :=
  Z.min
    ((if loopback_or_private (ip_address ci) then 10 else 0)
     + (if truthy (device_fingerprint ci) then 0 else 20)
     + (if success then 0 else 30)
     + (if (6 <=? hour) && (hour <? 22) then 0 else 15))
    100.

(** ** Token service and login flow *)

Section Service.

(** The HS256 signature of a set of claims under a secret, the server's
    secret, and werkzeug's password check. *)
Variable hs256 : string -> jwt_payload -> string.
Variable JWT_SECRET : string.
Variable check_password_hash : string -> string -> bool.

(** [jwt.encode(payload, secret, algorithm='HS256')] *)
Definition jwt_encode (payload : jwt_payload) (secret : string) : token :=
  {| tk_payload := payload; tk_signature := hs256 secret payload |}.

(** [jwt.decode(token, secret, algorithms=['HS256'])]: the signature is
    checked first; then the claims, ['iat'] before ['exp'].  A token
    whose ['iat'] is after the clock is refused as not yet valid, also
    when [verify_exp] is off; unless [verify_exp] is off, a token whose
    ['exp'] is not after the clock is expired.  Both claims are whole
    seconds, so comparing them with the clock and with its whole seconds
    is the same. *)
Definition jwt_decode (tk : token) (secret : string) (verify_exp : bool)
    (now : Z) : result jwt_payload :=
  if String.eqb (tk_signature tk) (hs256 secret (tk_payload tk)) then
    if timegm now <? p_iat (tk_payload tk)
    then Raise ImmatureSignatureError
    else if verify_exp && (p_exp (tk_payload tk) <=? timegm now)
    then Raise ExpiredSignatureError
    else Ok (tk_payload tk)
  else Raise InvalidTokenError.

Definition lift {A} (r : result A) : M A := fun w => (r, w).

(** The signature of a token is valid under the server's secret. *)
Definition signed (tk : token) : bool :=
  String.eqb (tk_signature tk) (hs256 JWT_SECRET (tk_payload tk)).

(** [generate_jwt_token(user_data)]: [utc_exp] is the clock reading in
    the ['exp'] entry, [utc_iat] the later one in the ['iat'] entry. *)
Definition generate_jwt_token (ud : user_data) (utc_exp utc_iat : Z)
    (uuid : string) : token :=
  let payload :=
    {| p_user_id := py_str (ud_id ud);
       p_username := ud_username ud;
       p_email := ud_email ud;
       p_role := default "user" (ud_user_role ud);
       p_exp := timegm (plus_hours utc_exp JWT_EXPIRATION_HOURS);
       p_iat := timegm utc_iat;
       p_jti := uuid |} in
  jwt_encode payload JWT_SECRET.

(** [verify_jwt_token(token)] *)
Definition verify_jwt_token (tk : token) (now : Z) : M (option jwt_payload) :=
  try_except
    (do payload <- lift (jwt_decode tk JWT_SECRET true now);
     do listed <- redis_get now ("blacklist:" +:+ p_jti payload);
     if truthy listed then ret None else ret (Some payload))
    (fun e =>
       match e with
       | ExpiredSignatureError => ret None
       | ImmatureSignatureError | InvalidTokenError => ret None
       | _ => raise e
       end).

(** [blacklist_token(token)] *)
Definition blacklist_token (tk : token) (now : Z) : M unit :=
  try_except
    (do payload <- lift (jwt_decode tk JWT_SECRET false now);
     redis_setex now ("blacklist:" +:+ p_jti payload) 86400 "blacklisted")
    (fun _ => ret tt).

(** The dictionary [login] builds from the selected row. *)
Definition user_data_of_row (u : user_row) : user_data :=
  {| ud_id := id u; ud_username := username u; ud_email := email u;
     ud_user_role := Some (user_role u) |}.

(** [json.dumps(session_data)] *)
Definition session_json (u : user_row) (env : request_env) : string :=
  json_object
    [("user_id", json_text (py_str (id u)));
     ("username", json_text (username u));
     ("login_time", json_text (isoformat (e_now env)));
     ("client_info", client_info_json (e_client env))].

Definition captcha_rejection (message error_code : string)
    (captcha : captcha_challenge) : response :=
  {| rs_status := 400; rs_success := false; rs_message := message;
     rs_error_code := Some error_code; rs_unlock_time := None;
     rs_captcha := Some captcha; rs_remaining_attempts := None;
     rs_token := None; rs_session_id := None; rs_user := None;
     rs_expires_in := None; rs_requires_2fa := None |}.

(** The CAPTCHA block of [login]: the response it returns early, or
    [None] when the flow goes on to the password. *)
Definition captcha_gate (u : user_row) (captcha_id captcha_answer : option string)
    (env : request_env) : M (option response) :=
  let failed_attempts := failed_login_attempts u in
  if failed_attempts >=? CAPTCHA_THRESHOLD then
    if negb (truthy captcha_id) || negb (truthy captcha_answer) then
      do captcha <- generate_captcha (e_num1 env) (e_num2 env)
                      (e_captcha_uuid env) (e_now env);
      ret (Some (captcha_rejection "CAPTCHA verification required"
                   "CAPTCHA_REQUIRED" captcha))
    else
      do passed <- verify_captcha (default EmptyString captcha_id)
                     (default EmptyString captcha_answer) (e_now env);
      if negb passed then
        run log_auth_event (py_str (id u)) "login_failed_captcha" false
              (Some (e_client env)) env;
        do captcha <- generate_captcha (e_num1 env) (e_num2 env)
                        (e_captcha_uuid env) (e_now env);
        ret (Some (captcha_rejection "Invalid CAPTCHA" "INVALID_CAPTCHA" captcha))
      else ret None
  else ret None.

(** The password block of [login] and what follows it. *)
Definition credential_check (u : user_row) (password : string)
    (env : request_env) : M response :=
  let failed_attempts := failed_login_attempts u in
  if negb (check_password_hash (password_hash u) password) then
    run update_where_id (id u) (failed_row MAX_LOGIN_ATTEMPTS (e_now env));
    run log_auth_event (py_str (id u)) "login_failed_password" false
          (Some (e_client env)) env;
    if failed_attempts + 1 >=? MAX_LOGIN_ATTEMPTS then
      ret (rejection 401 "Account locked due to too many failed attempts"
             "ACCOUNT_LOCKED")
    else
      ret {| rs_status := 401; rs_success := false;
             rs_message := "Invalid credentials";
             rs_error_code := Some "INVALID_CREDENTIALS";
             rs_unlock_time := None; rs_captcha := None;
             rs_remaining_attempts :=
               Some (MAX_LOGIN_ATTEMPTS - (failed_attempts + 1));
             rs_token := None; rs_session_id := None; rs_user := None;
             rs_expires_in := None; rs_requires_2fa := None |}
  else
    run update_where_id (id u) (reset_row (e_now env));
    let tk := generate_jwt_token (user_data_of_row u) (e_utc_exp env)
                (e_utc_iat env) (e_jti env) in
    let session_id := e_session_uuid env in
    run redis_setex (e_now env) ("session:" +:+ session_id)
          (SESSION_TIMEOUT * 60) (session_json u env);
    run log_auth_event (py_str (id u)) "login_success" true
          (Some (e_client env)) env;
    ret {| rs_status := 200; rs_success := true;
           rs_message :=
             if two_factor_enabled u
             then "Two-factor authentication required"
             else "Login successful";
           rs_error_code := None; rs_unlock_time := None;
           rs_captcha := None; rs_remaining_attempts := None;
           rs_token := Some tk; rs_session_id := Some session_id;
           rs_user :=
             Some {| us_id := py_str (id u); us_username := username u;
                     us_email := email u; us_role := user_role u;
                     us_biometric_enabled := biometric_enabled u;
                     us_two_factor_enabled := two_factor_enabled u |};
           rs_expires_in := Some (JWT_EXPIRATION_HOURS * 3600);
           rs_requires_2fa :=
             if two_factor_enabled u then Some true else None |}.

(** The body of [login] inside its [try].  The [time.sleep(0.1)] on the
    path of an unknown name changes neither store and is left out. *)
Definition login_body (body : option login_request) (env : request_env) : M response :=
  let missing :=
    rejection 400 "Username and password are required" "MISSING_CREDENTIALS" in
  match body with
  | None => ret missing
  | Some data =>
      if negb (truthy (rq_username data)) || negb (truthy (rq_password data))
      then ret missing
      else
        let name := lower (strip (default EmptyString (rq_username data))) in
        let password := default EmptyString (rq_password data) in
        let ci := e_client env in
        let client_id := ip_address ci +:+ ":" +:+ name in
        do admitted <- check_rate_limit client_id 10 300 (e_now env);
        if negb admitted then
          run log_auth_event name "login_rate_limited" false (Some ci) env;
          ret (rejection 429 "Too many login attempts. Please try again later."
                 "RATE_LIMITED")
        else
          do user <- select_user name;
          match user with
          | None =>
              run log_auth_event name "login_failed_user_not_found" false
                    (Some ci) env;
              ret (rejection 401 "Invalid credentials" "INVALID_CREDENTIALS")
          | Some u =>
              if negb (is_active u) then
                run log_auth_event (py_str (id u)) "login_failed_inactive"
                      false (Some ci) env;
                ret (rejection 401 "Account is inactive" "ACCOUNT_INACTIVE")
              else if is_locked u then
                run log_auth_event (py_str (id u)) "login_failed_locked"
                      false (Some ci) env;
                ret {| rs_status := 401; rs_success := false;
                       rs_message := "Account is temporarily locked due to too many failed attempts";
                       rs_error_code := Some "ACCOUNT_LOCKED";
                       rs_unlock_time :=
                         Some (plus_minutes (e_now env) ACCOUNT_LOCKOUT_DURATION);
                       rs_captcha := None; rs_remaining_attempts := None;
                       rs_token := None; rs_session_id := None;
                       rs_user := None; rs_expires_in := None;
                       rs_requires_2fa := None |}
              else
                do early <- captcha_gate u (rq_captcha_id data)
                              (rq_captcha_answer data) env;
                match early with
                | Some r => ret r
                | None => credential_check u password env
                end
          end
  end.

(** [login()]: any exception becomes the 500 response. *)
Definition login (body : option login_request) (env : request_env) : M response :=
  try_except (login_body body env)
    (fun _ => ret (rejection 500 "Internal server error" "INTERNAL_ERROR")).

(** Login requests served one after the other. *)
Fixpoint logins (calls : list (option login_request * request_env)) (w : world)
    : list (result response) * world :=
  match calls with
  | [] => ([], w)
  | (body, env) :: rest =>
      let '(r, w') := login body env w in
      let '(rs, w'') := logins rest w' in
      (r :: rs, w'')
  end.

End Service.

(** ** The other endpoints *)

(** [s.split(' ')] *)
Fixpoint split_space (s : string) : list string :=
  match s with
  | EmptyString => [EmptyString]
  | String a s' =>
      if Ascii.eqb a " "%char then EmptyString :: split_space s'
      else match split_space s' with
           | [] => [String a EmptyString]
           | p :: ps => String a p :: ps
           end
  end.

(** [auth_header.split(' ')[1]]; the header starts with ['Bearer '], so
    the second piece exists. *)
Definition bearer_text (auth_header : string) : string :=
  default EmptyString (split_space auth_header !! 1%nat).

(** The header is missing, empty or not a bearer header. *)
Definition no_bearer (authorization : option string) : bool :=
  negb (truthy authorization)
  || negb (startswith (default EmptyString authorization) "Bearer ").

(** The answer of [GET /api/captcha]. *)
Record captcha_response : Type := CaptchaResponse {
  cr_status : Z;
  cr_success : bool;
  cr_captcha : option captcha_challenge;
  cr_message : option string
}.

(** [get_captcha()] *)
Definition get_captcha (env : request_env) : M captcha_response :=
  try_except
    (do captcha <- generate_captcha (e_num1 env) (e_num2 env)
                     (e_captcha_uuid env) (e_now env);
     ret {| cr_status := 200; cr_success := true; cr_captcha := Some captcha;
            cr_message := None |})
    (fun _ =>
       ret {| cr_status := 500; cr_success := false; cr_captcha := None;
              cr_message := Some "Failed to generate CAPTCHA" |}).

(** The ['user'] object of the token endpoints. *)
Record token_user : Type := TokenUser {
  tu_id : string;
  tu_username : string;
  tu_email : string;
  tu_role : string
}.

(** The answer of [POST /api/auth/verify-token]. *)
Record verify_response : Type := VerifyResponse {
  vr_status : Z;
  vr_valid : bool;
  vr_message : option string;
  vr_user : option token_user;
  vr_expires_at : option Z
}.

(** What [request.json] is for a logout request: it raises on a body
    that does not parse as JSON (and, since Flask 2.1, on a request
    whose content type is not JSON); otherwise it is the parsed value,
    which is falsy, or truthy without being an object, or an object
    whose ['session_id'], a text, is [None] when the key is absent. *)
Inductive logout_body : Type :=
  | NoJson
  | JsonFalsy
  | JsonNotObject
  | JsonObject (session_id : option string).

(** The request and the answer of [POST /api/auth/logout]. *)
Record logout_request : Type := LogoutRequest {
  lo_authorization : option string;
  lo_body : logout_body
}.

(** [request.json.get('session_id') if request.json else None] *)
Definition logout_session_id (b : logout_body) : M (option string) :=
  match b with
  | NoJson => raise BadRequest
  | JsonFalsy => ret None
  | JsonNotObject => raise AttributeError
  | JsonObject session_id => ret session_id
  end.

Record logout_response : Type := LogoutResponse {
  lr_status : Z;
  lr_success : bool;
  lr_message : string;
  lr_error_code : option string
}.

(** The body and the answer of [POST /api/auth/password-reset];
    [pr_email] is [None] when the body has no such key. *)
Record reset_request : Type := ResetRequest {
  pr_email : option string
}.

Record reset_response : Type := ResetResponse {
  pw_status : Z;
  pw_success : bool;
  pw_message : string;
  pw_error_code : option string;
  pw_reset_token : option string
}.

(** [SELECT id, username, email FROM test_users WHERE email = %s] and
    [fetchone()]. *)
Definition find_user_by_email (address : string) (rows : list user_row) : option user_row :=
  List.find (fun u => String.eqb (email u) address) rows.

(** [json.dumps] of the record kept for a reset token. *)
Definition reset_json (u : user_row) (expires : Z) : string :=
  json_object
    [("user_id", json_text (py_str (id u)));
     ("email", json_text (email u));
     ("expires", json_text (isoformat expires))].

(** [password_reset()], with the token drawn by
    [secrets.token_urlsafe(32)].  A request without a JSON body fails on
    [data.get] and is answered by the handler of the [try]. *)
Definition password_reset (body : option reset_request) (env : request_env)
    (reset_token : string) : M reset_response :=
  let internal_error :=
    {| pw_status := 500; pw_success := false; pw_message := "Internal server error";
       pw_error_code := Some "INTERNAL_ERROR"; pw_reset_token := None |} in
  try_except
    (match body with
     | None => ret internal_error
     | Some data =>
         let address := lower (strip (default EmptyString (pr_email data))) in
         if String.eqb address EmptyString then
           ret {| pw_status := 400; pw_success := false;
                  pw_message := "Email address is required";
                  pw_error_code := Some "MISSING_EMAIL"; pw_reset_token := None |}
         else
           let ci := e_client env in
           do user <- (fun w => (Ok (find_user_by_email address (test_users w)), w));
           run match user with
               | Some u =>
                   let reset_expires := plus_hours (e_now env) 1 in
                   run redis_setex (e_now env) ("password_reset:" +:+ reset_token)
                         3600 (reset_json u reset_expires);
                   log_auth_event (py_str (id u)) "password_reset_requested" true
                     (Some ci) env
               | None => ret tt
               end;
           ret {| pw_status := 200; pw_success := true;
                  pw_message := "If the email address exists in our system, a password reset link has been sent.";
                  pw_error_code := None;
                  pw_reset_token :=
                    match user with Some _ => Some reset_token | None => None end |}
     end)
    (fun _ => ret internal_error).

(** *** Base64 *)

Definition b64_alphabet : string :=
  "ABCDEFGHIJKLMNOPQRSTUVWXYZabcdefghijklmnopqrstuvwxyz0123456789+/".

Definition b64_char (n : N) : ascii :=
  default "A"%char (String.get (N.to_nat n) b64_alphabet).

(** [base64.b64encode(data).decode('utf-8')] *)
Fixpoint b64encode (s : string) : string :=
  match s with
  | EmptyString => EmptyString
  | String a EmptyString =>
      let x := N_of_ascii a in
      String (b64_char (x / 4))
        (String (b64_char ((x mod 4) * 16)) "==")
  | String a (String b EmptyString) =>
      let x := N_of_ascii a in
      let y := N_of_ascii b in
      String (b64_char (x / 4))
        (String (b64_char ((x mod 4) * 16 + y / 16))
           (String (b64_char ((y mod 16) * 4)) "="))
  | String a (String b (String c rest)) =>
      let x := N_of_ascii a in
      let y := N_of_ascii b in
      let z := N_of_ascii c in
      String (b64_char (x / 4))
        (String (b64_char ((x mod 4) * 16 + y / 16))
           (String (b64_char ((y mod 16) * 4 + z / 64))
              (String (b64_char (z mod 64)) (b64encode rest))))
  end%N.

(** *** Biometric login *)

(** One row of [biometric_test_data]. *)
Record biometric_row : Type := BiometricRow {
  b_user_id : Z;
  b_biometric_type : string;
  b_template_data : option string;
  b_is_enrolled : bool;
  b_is_active : bool;
  b_last_used : option Z
}.

(** The stores as the biometric endpoint sees them: the ones of [world]
    and the biometric table. *)
Record bio_world : Type := BioWorld {
  bw_world : world;
  biometric_test_data : list biometric_row
}.

(** The JSON body of a biometric login. *)
Record biometric_request : Type := BiometricRequest {
  bq_username : option string;
  bq_biometric_type : option string;
  bq_biometric_data : option string
}.

Record biometric_response : Type := BiometricResponse {
  br_status : Z;
  br_success : bool;
  br_message : string;
  br_error_code : option string;
  br_token : option token;
  br_session_id : option string;
  br_user : option token_user;
  br_auth_method : option string;
  br_biometric_type : option string;
  br_expires_in : option Z
}.

Definition biometric_rejection (status : Z) (message error_code : string)
    : biometric_response :=
  {| br_status := status; br_success := false; br_message := message;
     br_error_code := Some error_code; br_token := None; br_session_id := None;
     br_user := None; br_auth_method := None; br_biometric_type := None;
     br_expires_in := None |}.

(** The first row of [test_users u LEFT JOIN biometric_test_data b ON
    u.id = b.user_id AND b.biometric_type = %s AND b.is_active = true
    WHERE u.username = %s OR u.email = %s]. *)
Definition biometric_join (biometric_type name : string) (users : list user_row)
    (rows : list biometric_row) : option (user_row * option biometric_row) :=
  match find_user name users with
  | Some u =>
      Some (u, List.find (fun b => (b_user_id b =? id u)
                                   && String.eqb (b_biometric_type b) biometric_type
                                   && b_is_active b) rows)
  | None => None
  end.

(** [UPDATE biometric_test_data SET last_used = CURRENT_TIMESTAMP WHERE
    user_id = %s AND biometric_type = %s] *)
Definition touch_biometric (uid : Z) (biometric_type : string) (now : Z)
    (rows : list biometric_row) : list biometric_row :=
  List.map
    (fun b =>
       if (b_user_id b =? uid) && String.eqb (b_biometric_type b) biometric_type
       then {| b_user_id := b_user_id b; b_biometric_type := b_biometric_type b;
               b_template_data := b_template_data b;
               b_is_enrolled := b_is_enrolled b; b_is_active := b_is_active b;
               b_last_used := Some now |}
       else b)
    rows.

(** [json.dumps(session_data)] of the biometric flow. *)
Definition biometric_session_json (u : user_row) (biometric_type : string)
    (env : request_env) : string :=
  json_object
    [("user_id", json_text (py_str (id u)));
     ("username", json_text (username u));
     ("auth_method", json_text "biometric");
     ("biometric_type", json_text biometric_type);
     ("login_time", json_text (isoformat (e_now env)));
     ("client_info", client_info_json (e_client env))].

(** A command on the stores of [world], run within [bio_world]. *)
Definition in_world {A} (m : M A) (bw : bio_world) : result A * bio_world :=
  let '(r, w') := m (bw_world bw) in
  (r, {| bw_world := w'; biometric_test_data := biometric_test_data bw |}).


(** ** Endpoints that handle tokens *)

Section Endpoints.

Variable hs256 : string -> jwt_payload -> string.
Variable JWT_SECRET : string.

(** The reading of a token's text -- its three base64url segments -- as
    claims and signature; [None] for text that is no such thing, on which
    [jwt.decode] raises a [DecodeError], an [InvalidTokenError]. *)
Variable decode_compact : string -> option token.

(** [verify_jwt_token] on the text of a token. *)
Definition verify_jwt_text (text : string) (now : Z) : M (option jwt_payload) :=
  match decode_compact text with
  | Some tk => verify_jwt_token hs256 JWT_SECRET tk now
  | None => ret None
  end.

(** [blacklist_token] on the text of a token. *)
Definition blacklist_text (text : string) (now : Z) : M unit :=
  match decode_compact text with
  | Some tk => blacklist_token hs256 JWT_SECRET tk now
  | None => ret tt
  end.

(** [verify_token()] *)
Definition verify_token (authorization : option string) (env : request_env)
    : M verify_response :=
  try_except
    (if no_bearer authorization then
       ret {| vr_status := 401; vr_valid := false;
              vr_message := Some "Authorization token required";
              vr_user := None; vr_expires_at := None |}
     else
       let text := bearer_text (default EmptyString authorization) in
       do payload <- verify_jwt_text text (e_now env);
       match payload with
       | Some p =>
           ret {| vr_status := 200; vr_valid := true; vr_message := None;
                  vr_user := Some {| tu_id := p_user_id p;
                                     tu_username := p_username p;
                                     tu_email := p_email p;
                                     tu_role := p_role p |};
                  vr_expires_at := Some (p_exp p) |}
       | None =>
           ret {| vr_status := 401; vr_valid := false;
                  vr_message := Some "Invalid or expired token";
                  vr_user := None; vr_expires_at := None |}
       end)
    (fun _ =>
       ret {| vr_status := 500; vr_valid := false;
              vr_message := Some "Token verification failed";
              vr_user := None; vr_expires_at := None |}).

(** [logout()]: the token is put on the revocation list before the body
    of the request is looked at, so a body that cannot be read is
    answered 500 with the revocation already written. *)
Definition logout (rq : logout_request) (env : request_env) : M logout_response :=
  try_except
    (if no_bearer (lo_authorization rq) then
       ret {| lr_status := 401; lr_success := false;
              lr_message := "Authorization token required";
              lr_error_code := Some "MISSING_TOKEN" |}
     else
       let text := bearer_text (default EmptyString (lo_authorization rq)) in
       do payload <- verify_jwt_text text (e_now env);
       match payload with
       | None =>
           ret {| lr_status := 401; lr_success := false;
                  lr_message := "Invalid or expired token";
                  lr_error_code := Some "INVALID_TOKEN" |}
       | Some p =>
           run blacklist_text text (e_now env);
           do session_id <- logout_session_id (lo_body rq);
           run (if truthy session_id
                then redis_delete ("session:" +:+ default EmptyString session_id)
                else ret tt);
           run log_auth_event (p_user_id p) "logout" true (Some (e_client env)) env;
           ret {| lr_status := 200; lr_success := true;
                  lr_message := "Logout successful"; lr_error_code := None |}
       end)
    (fun _ =>
       ret {| lr_status := 500; lr_success := false;
              lr_message := "Internal server error";
              lr_error_code := Some "INTERNAL_ERROR" |}).

(** [biometric_auth()].  A request without a JSON body fails on
    [data.get] and is answered by the handler of the [try]. *)
Definition biometric_auth (body : option biometric_request) (env : request_env)
    (bw : bio_world) : result biometric_response * bio_world :=
  match body with
  | None => (Ok (biometric_rejection 500 "Internal server error" "INTERNAL_ERROR"), bw)
  | Some data =>
      if negb (truthy (bq_username data) && truthy (bq_biometric_type data)
               && truthy (bq_biometric_data data)) then
        (Ok (biometric_rejection 400
               "Username, biometric type, and biometric data are required"
               "MISSING_BIOMETRIC_DATA"), bw)
      else
        let name := default EmptyString (bq_username data) in
        let biometric_type := default EmptyString (bq_biometric_type data) in
        let biometric_data := default EmptyString (bq_biometric_data data) in
        let ci := e_client env in
        let not_found :=
          let '(_, bw') :=
            in_world (log_auth_event name "biometric_failed_user_not_found" false
                        (Some ci) env) bw in
          (Ok (biometric_rejection 401 "User not found or biometric not enrolled"
                 "BIOMETRIC_NOT_ENROLLED"), bw') in
        match biometric_join biometric_type name (test_users (bw_world bw))
                (biometric_test_data bw) with
        | None => not_found
        | Some (u, joined) =>
            if id u =? 0 then not_found
            else if negb (is_active u) then
              (Ok (biometric_rejection 401 "Account is inactive" "ACCOUNT_INACTIVE"), bw)
            else if is_locked u then
              (Ok (biometric_rejection 401 "Account is locked" "ACCOUNT_LOCKED"), bw)
            else
              let is_enrolled :=
                match joined with Some b => b_is_enrolled b | None => false end in
              let template_data :=
                match joined with Some b => b_template_data b | None => None end in
              if negb is_enrolled || negb (truthy template_data) then
                (Ok (biometric_rejection 401
                       "Biometric authentication not enrolled for this user"
                       "BIOMETRIC_NOT_ENROLLED"), bw)
              else
                let stored_template :=
                  b64encode (default EmptyString template_data) in
                if String.eqb biometric_data stored_template then
                  let bw1 :=
                    {| bw_world := bw_world bw;
                       biometric_test_data :=
                         touch_biometric (id u) biometric_type (e_now env)
                           (biometric_test_data bw) |} in
                  let tk := generate_jwt_token hs256 JWT_SECRET (user_data_of_row u)
                              (e_utc_exp env) (e_utc_iat env) (e_jti env) in
                  let session_id := e_session_uuid env in
                  match in_world
                          (run redis_setex (e_now env) ("session:" +:+ session_id)
                                 (SESSION_TIMEOUT * 60)
                                 (biometric_session_json u biometric_type env);
                           log_auth_event (py_str (id u))
                             ("biometric_success_" +:+ biometric_type) true
                             (Some ci) env) bw1 with
                  | (Ok _, bw2) =>
                      (Ok {| br_status := 200; br_success := true;
                             br_message := "Biometric authentication successful";
                             br_error_code := None; br_token := Some tk;
                             br_session_id := Some session_id;
                             br_user :=
                               Some {| tu_id := py_str (id u);
                                       tu_username := username u;
                                       tu_email := email u;
                                       tu_role := user_role u |};
                             br_auth_method := Some "biometric";
                             br_biometric_type := Some biometric_type;
                             br_expires_in := Some (JWT_EXPIRATION_HOURS * 3600) |},
                       bw2)
                  | (Raise _, bw2) =>
                      (Ok (biometric_rejection 500 "Internal server error"
                             "INTERNAL_ERROR"), bw2)
                  end
                else
                  let '(_, bw') :=
                    in_world (log_auth_event (py_str (id u))
                                ("biometric_failed_" +:+ biometric_type) false
                                (Some ci) env) bw in
                  (Ok (biometric_rejection 401 "Biometric verification failed"
                         "BIOMETRIC_MISMATCH"), bw')
        end
  end.

(** Biometric logins served one after the other. *)
Fixpoint biometric_logins (calls : list (option biometric_request * request_env))
    (bw : bio_world) : list (result biometric_response) * bio_world :=
  match calls with
  | [] => ([], bw)
  | (body, env) :: rest =>
      let '(r, bw') := biometric_auth body env bw in
      let '(rs, bw'') := biometric_logins rest bw' in
      (r :: rs, bw'')
  end.

End Endpoints.

(** ** Further helpers for statements *)

(** No character of the text is white space. *)
Fixpoint no_space (s : string) : bool :=
  match s with
  | EmptyString => true
  | String a s' => negb (is_space a) && no_space s'
  end.

(** ** Predicates used in the statements *)

(** Call number [k+1] of a run is admitted exactly when [k < limit]. *)
Definition admits_first (limit : Z) (rs : list (result bool)) : Prop :=
  forall (k : nat) (r : result bool),
    rs !! k = Some r -> r = Ok (Z.of_nat k <? limit).

(** No more than [limit] of the callers of a schedule are admitted. *)
Definition at_most_limit_admitted (identifier : string) (limit window : Z)
    (schedule : list (nat * Z)) (threads : list limiter_thread) (w : world) : Prop :=
  Z.of_nat (admitted_count (fst (run_schedule identifier limit window schedule threads w)))
  <= limit.

(** The two responses of the password block when the password is wrong:
    the one with [remaining_attempts] and the one that announces the
    lock. *)
Definition password_failed (r : response) : bool :=
  match rs_remaining_attempts r with
  | Some _ => true
  | None =>
      String.eqb (rs_message r) "Account locked due to too many failed attempts"
  end.

(** The name under which [login] looks an account up. *)
Definition login_name (data : login_request) : string :=
  lower (strip (default EmptyString (rq_username data))).

(** A request whose body names the account [name]. *)
Definition targets (name : string) (call : option login_request * request_env) : Prop :=
  exists data, fst call = Some data /\ login_name data = name.

(** A served request that ended in one of the wrong-password responses. *)
Definition failed_password_login (r : result response) : Prop :=
  exists resp, r = Ok resp /\ password_failed resp = true.

(** The row answers to the name: [username = %s OR email = %s]. *)
Definition answers_to (name : string) (u : user_row) : bool :=
  String.eqb (username u) name || String.eqb (email u) name.

(** No two different rows of the table answer to the name. *)
Definition one_account (name : string) (rows : list user_row) : Prop :=
  forall v v',
    In v rows -> In v' rows ->
    answers_to name v = true -> answers_to name v' = true -> v = v'.

(** The body of a request carries a username and a password. *)
Definition has_credentials (data : login_request) : bool :=
  truthy (rq_username data) && truthy (rq_password data).

(** The key under which [login] counts the requests of a client. *)
Definition login_client_id (data : login_request) (env : request_env) : string :=
  ip_address (e_client env) +:+ ":" +:+ login_name data.

(** The answer to a login for an unknown name and the answer to a login
    with a wrong password both carry the error code INVALID_CREDENTIALS. *)
Definition collapse_to_invalid_credentials (unknown wrong : result response) : Prop :=
  exists a b,
    unknown = Ok a /\ wrong = Ok b
    /\ rs_error_code a = Some "INVALID_CREDENTIALS"
    /\ rs_error_code b = Some "INVALID_CREDENTIALS".

(** ** The branches of the login flow *)

(** The challenge a request stores when [login] asks for a CAPTCHA. *)
Definition issued_challenge (env : request_env) : captcha_challenge :=
  {| ch_captcha_id := e_captcha_uuid env;
     ch_question := py_str (e_num1 env) +:+ " + " +:+ py_str (e_num2 env) +:+ " = ?";
     ch_expires_in := 300 |}.

(** The answer to a wrong password on the account [u]. *)
Definition wrong_password_response (u : user_row) : response :=
  if failed_login_attempts u + 1 >=? MAX_LOGIN_ATTEMPTS then
    rejection 401 "Account locked due to too many failed attempts" "ACCOUNT_LOCKED"
  else
    {| rs_status := 401; rs_success := false;
       rs_message := "Invalid credentials";
       rs_error_code := Some "INVALID_CREDENTIALS";
       rs_unlock_time := None; rs_captcha := None;
       rs_remaining_attempts :=
         Some (MAX_LOGIN_ATTEMPTS - (failed_login_attempts u + 1));
       rs_token := None; rs_session_id := None; rs_user := None;
       rs_expires_in := None; rs_requires_2fa := None |}.

(** The answer to a locked account. *)
Definition locked_response (env : request_env) : response :=
  {| rs_status := 401; rs_success := false;
     rs_message := "Account is temporarily locked due to too many failed attempts";
     rs_error_code := Some "ACCOUNT_LOCKED";
     rs_unlock_time := Some (plus_minutes (e_now env) ACCOUNT_LOCKOUT_DURATION);
     rs_captcha := None; rs_remaining_attempts := None;
     rs_token := None; rs_session_id := None;
     rs_user := None; rs_expires_in := None;
     rs_requires_2fa := None |}.

(** The ways through the CAPTCHA block of [login], from the world [w]:
    the early response, if any, and the world left behind. *)
Inductive gate_branch (u : user_row) (captcha_id captcha_answer : option string)
    (env : request_env) (w : world) : option response -> world -> Prop :=
  | GateBelow :
      failed_login_attempts u < CAPTCHA_THRESHOLD ->
      gate_branch u captcha_id captcha_answer env w None w
  | GateRequired :
      CAPTCHA_THRESHOLD <= failed_login_attempts u ->
      truthy captcha_id && truthy captcha_answer = false ->
      gate_branch u captcha_id captcha_answer env w
        (Some (captcha_rejection "CAPTCHA verification required" "CAPTCHA_REQUIRED"
                 (issued_challenge env)))
        (snd (generate_captcha (e_num1 env) (e_num2 env) (e_captcha_uuid env)
                (e_now env) w))
  | GateInvalid :
      CAPTCHA_THRESHOLD <= failed_login_attempts u ->
      truthy captcha_id = true ->
      truthy captcha_answer = true ->
      verify_captcha (default EmptyString captcha_id)
        (default EmptyString captcha_answer) (e_now env) w = (Ok false, w) ->
      gate_branch u captcha_id captcha_answer env w
        (Some (captcha_rejection "Invalid CAPTCHA" "INVALID_CAPTCHA"
                 (issued_challenge env)))
        (snd (generate_captcha (e_num1 env) (e_num2 env) (e_captcha_uuid env)
                (e_now env)
                (snd (log_auth_event (py_str (id u)) "login_failed_captcha" false
                        (Some (e_client env)) env w))))
  | GatePassed :
      CAPTCHA_THRESHOLD <= failed_login_attempts u ->
      truthy captcha_id = true ->
      truthy captcha_answer = true ->
      verify_captcha (default EmptyString captcha_id)
        (default EmptyString captcha_answer) (e_now env) w
      = (Ok true,
         set_redis (delete ("captcha:" +:+ default EmptyString captcha_id)) w) ->
      gate_branch u captcha_id captcha_answer env w None
        (set_redis (delete ("captcha:" +:+ default EmptyString captcha_id)) w).

Section LoginBranches.

Variable hs256 : string -> jwt_payload -> string.
Variable JWT_SECRET : string.
Variable check_password_hash : string -> string -> bool.

(** The answer to a right password on the account [u]. *)
Definition success_response (u : user_row) (env : request_env) : response :=
  {| rs_status := 200; rs_success := true;
     rs_message :=
       if two_factor_enabled u
       then "Two-factor authentication required"
       else "Login successful";
     rs_error_code := None; rs_unlock_time := None;
     rs_captcha := None; rs_remaining_attempts := None;
     rs_token :=
       Some (generate_jwt_token hs256 JWT_SECRET (user_data_of_row u)
               (e_utc_exp env) (e_utc_iat env) (e_jti env));
     rs_session_id := Some (e_session_uuid env);
     rs_user :=
       Some {| us_id := py_str (id u); us_username := username u;
               us_email := email u; us_role := user_role u;
               us_biometric_enabled := biometric_enabled u;
               us_two_factor_enabled := two_factor_enabled u |};
     rs_expires_in := Some (JWT_EXPIRATION_HOURS * 3600);
     rs_requires_2fa :=
       if two_factor_enabled u then Some true else None |}.

(** The ways through [login]: the response and the world left behind. *)
Inductive login_branch (body : option login_request) (env : request_env) (w : world)
    : response -> world -> Prop :=
  | LoginMissing :
      (body = None \/ exists data, body = Some data /\ has_credentials data = false) ->
      login_branch body env w
        (rejection 400 "Username and password are required" "MISSING_CREDENTIALS") w
  | LoginError data e w1 :
      body = Some data -> has_credentials data = true ->
      check_rate_limit (login_client_id data env) 10 300 (e_now env) w = (Raise e, w1) ->
      login_branch body env w
        (rejection 500 "Internal server error" "INTERNAL_ERROR") w1
  | LoginLimited data w1 :
      body = Some data -> has_credentials data = true ->
      check_rate_limit (login_client_id data env) 10 300 (e_now env) w = (Ok false, w1) ->
      login_branch body env w
        (rejection 429 "Too many login attempts. Please try again later." "RATE_LIMITED")
        (snd (log_auth_event (login_name data) "login_rate_limited" false
                (Some (e_client env)) env w1))
  | LoginUnknown data w1 :
      body = Some data -> has_credentials data = true ->
      check_rate_limit (login_client_id data env) 10 300 (e_now env) w = (Ok true, w1) ->
      find_user (login_name data) (test_users w) = None ->
      login_branch body env w
        (rejection 401 "Invalid credentials" "INVALID_CREDENTIALS")
        (snd (log_auth_event (login_name data) "login_failed_user_not_found" false
                (Some (e_client env)) env w1))
  | LoginInactive data w1 u :
      body = Some data -> has_credentials data = true ->
      check_rate_limit (login_client_id data env) 10 300 (e_now env) w = (Ok true, w1) ->
      find_user (login_name data) (test_users w) = Some u ->
      is_active u = false ->
      login_branch body env w
        (rejection 401 "Account is inactive" "ACCOUNT_INACTIVE")
        (snd (log_auth_event (py_str (id u)) "login_failed_inactive" false
                (Some (e_client env)) env w1))
  | LoginLocked data w1 u :
      body = Some data -> has_credentials data = true ->
      check_rate_limit (login_client_id data env) 10 300 (e_now env) w = (Ok true, w1) ->
      find_user (login_name data) (test_users w) = Some u ->
      is_active u = true -> is_locked u = true ->
      login_branch body env w (locked_response env)
        (snd (log_auth_event (py_str (id u)) "login_failed_locked" false
                (Some (e_client env)) env w1))
  | LoginGate data w1 u r w2 :
      body = Some data -> has_credentials data = true ->
      check_rate_limit (login_client_id data env) 10 300 (e_now env) w = (Ok true, w1) ->
      find_user (login_name data) (test_users w) = Some u ->
      is_active u = true -> is_locked u = false ->
      gate_branch u (rq_captcha_id data) (rq_captcha_answer data) env w1 (Some r) w2 ->
      login_branch body env w r w2
  | LoginWrongPassword data w1 u w2 :
      body = Some data -> has_credentials data = true ->
      check_rate_limit (login_client_id data env) 10 300 (e_now env) w = (Ok true, w1) ->
      find_user (login_name data) (test_users w) = Some u ->
      is_active u = true -> is_locked u = false ->
      gate_branch u (rq_captcha_id data) (rq_captcha_answer data) env w1 None w2 ->
      check_password_hash (password_hash u) (default EmptyString (rq_password data))
      = false ->
      login_branch body env w (wrong_password_response u)
        (snd (log_auth_event (py_str (id u)) "login_failed_password" false
                (Some (e_client env)) env
                (set_users (update_rows (id u)
                              (failed_row MAX_LOGIN_ATTEMPTS (e_now env))) w2)))
  | LoginSuccess data w1 u w2 :
      body = Some data -> has_credentials data = true ->
      check_rate_limit (login_client_id data env) 10 300 (e_now env) w = (Ok true, w1) ->
      find_user (login_name data) (test_users w) = Some u ->
      is_active u = true -> is_locked u = false ->
      gate_branch u (rq_captcha_id data) (rq_captcha_answer data) env w1 None w2 ->
      check_password_hash (password_hash u) (default EmptyString (rq_password data))
      = true ->
      login_branch body env w (success_response u env)
        (snd (log_auth_event (py_str (id u)) "login_success" true
                (Some (e_client env)) env
                (set_redis
                   (insert ("session:" +:+ e_session_uuid env)
                      (Entry (session_json u env)
                         (Some (e_now env + SESSION_TIMEOUT * 60 * us_per_second))))
                   (set_users (update_rows (id u) (reset_row (e_now env))) w2)))).

End LoginBranches.

(** In every row the lock flag is set only at or above the lockout
    threshold. *)
Definition lock_consistent (rows : list user_row) : Prop :=
  Forall (fun v => is_locked v = true -> MAX_LOGIN_ATTEMPTS <= failed_login_attempts v)
    rows.

(** The answer to a served request is the 429 of the rate limiter. *)
Definition rate_limited_answer (res : result response) : bool :=
  match res with
  | Ok r => rs_status r =? 429
  | Raise _ => false
  end.

(** A request with credentials that the rate limiter counts under the
    client identifier [cid]. *)
Definition same_client (cid : string) (call : option login_request * request_env) : Prop :=
  exists data,
    fst call = Some data /\ has_credentials data = true
    /\ login_client_id data (snd call) = cid.

(** Two rows of the biometric table that differ at most in
    [last_used]. *)
Definition same_template (b b' : biometric_row) : Prop :=
  b_user_id b' = b_user_id b
  /\ b_biometric_type b' = b_biometric_type b
  /\ b_template_data b' = b_template_data b
  /\ b_is_enrolled b' = b_is_enrolled b
  /\ b_is_active b' = b_is_active b.

(** The conditions under which the code lets a biometric request in:
    the account found by the name as given, with a non-zero id, active
    and not locked; the first active row of the wanted type for it,
    enrolled and with a template; and [biometric_data] the base64 text of
    that template. *)
Definition biometric_match (data : biometric_request) (bw : bio_world)
    (u : user_row) (b : biometric_row) : Prop :=
  exists name biometric_type template,
    bq_username data = Some name /\ name <> EmptyString
    /\ bq_biometric_type data = Some biometric_type /\ biometric_type <> EmptyString
    /\ find_user name (test_users (bw_world bw)) = Some u
    /\ id u <> 0 /\ is_active u = true /\ is_locked u = false
    /\ List.find (fun b => (b_user_id b =? id u)
                           && String.eqb (b_biometric_type b) biometric_type
                           && b_is_active b) (biometric_test_data bw) = Some b
    /\ b_is_enrolled b = true
    /\ b_template_data b = Some template /\ template <> EmptyString
    /\ bq_biometric_data data = Some (b64encode template).

(** The risk score with the two conditions as the code tests them. *)
Definition prefix_risk_score (ci : client_info) (success : bool) (hour : Z) : Z :=
  Z.min
    ((if startswith (ip_address ci) "127." || startswith (ip_address ci) "192.168."
      then 10 else 0)
     + (if truthy (device_fingerprint ci) then 0 else 20)
     + (if success then 0 else 30)
     + (if (6 <=? hour) && (hour <=? 22) then 0 else 15))
    100.

(** ** Sample data *)

Definition sample_hs256 (secret : string) (p : jwt_payload) : string :=
  secret +:+ "/" +:+ p_user_id p +:+ "/" +:+ p_username p +:+ "/" +:+ p_email p
  +:+ "/" +:+ p_role p +:+ "/" +:+ py_str (p_exp p) +:+ "/" +:+ py_str (p_iat p)
  +:+ "/" +:+ p_jti p.

Definition sample_secret : string := "jwt-secret-for-testing".

(** A stand-in for the password check: the stored hash is the password
    behind a fixed prefix. *)
Definition sample_check_password_hash (pwhash password : string) : bool :=
  String.eqb pwhash ("plain$" +:+ password).

Definition empty_world : world :=
  {| redis := ∅; test_users := []; auth_events_log := [] |}.

Definition alice (attempts : Z) (locked : bool) : user_row :=
  {| id := 7; username := "alice"; email := "alice@example.com";
     password_hash := "plain$correct horse"; salt := "s";
     is_active := true; is_locked := locked;
     failed_login_attempts := attempts;
     biometric_enabled := false; two_factor_enabled := false;
     user_role := "user"; last_login_attempt := None |}.

Definition sample_client : client_info :=
  {| ip_address := "8.8.8.8"; user_agent := "test-agent"; timestamp := 0;
     device_id := None; app_version := None; platform := None;
     device_fingerprint := Some "fp-1" |}.

Definition sample_env (now : Z) : request_env :=
  {| e_client := sample_client; e_now := now; e_hour := 12;
     e_num1 := 3; e_num2 := 4; e_captcha_uuid := "captcha-new";
     e_utc_exp := now; e_utc_iat := now; e_jti := "jti-1";
     e_session_uuid := "session-1" |}.

Definition sample_request (password : string) (captcha : option (string * string))
    : option login_request :=
  Some {| rq_username := Some " Alice "; rq_password := Some password;
          rq_captcha_id := fst <$> captcha;
          rq_captcha_answer := snd <$> captcha |}.

(** A world with one account and two CAPTCHA challenges already issued
    at instant 0. *)
Definition alice_world (attempts : Z) (locked : bool) : world :=
  {| redis :=
       <["captcha:c1" := Entry "7" (Some (300 * us_per_second))]>
         (<["captcha:c2" := Entry "9" (Some (300 * us_per_second))]> ∅);
     test_users := [alice attempts locked];
     auth_events_log := [] |}.

(** Five requests for alice with a wrong password; the last two answer
    the challenges of [alice_world]. *)
Definition five_failures : list (option login_request * request_env) :=
  [(sample_request "wrong" None, sample_env 1);
   (sample_request "wrong" None, sample_env 2);
   (sample_request "wrong" None, sample_env 3);
   (sample_request "wrong" (Some ("c1", "7")), sample_env 4);
   (sample_request "wrong" (Some ("c2", " 9 ")), sample_env 5)].

(** A request for a name no account has. *)
Definition unknown_request : option login_request :=
  Some {| rq_username := Some "bob"; rq_password := Some "wrong";
          rq_captcha_id := None; rq_captcha_answer := None |}.

(** The token issued to alice at instant 0, its text, and a reader of
    token texts that knows this one token. *)
Definition alice_token : token :=
  generate_jwt_token sample_hs256 sample_secret (user_data_of_row (alice 0 false))
    0 0 "jti-1".

Definition alice_token_text : string := "alice.token.text".

Definition sample_decode (text : string) : option token :=
  if String.eqb text alice_token_text then Some alice_token else None.

(** alice with one enrolled fingerprint whose template is the three
    bytes of "Man". *)
Definition alice_bio_world (attempts : Z) (locked : bool) : bio_world :=
  {| bw_world := alice_world attempts locked;
     biometric_test_data :=
       [{| b_user_id := 7; b_biometric_type := "fingerprint";
           b_template_data := Some "Man"; b_is_enrolled := true;
           b_is_active := true; b_last_used := None |}] |}.

Definition fingerprint_request (template : string) : option biometric_request :=
  Some {| bq_username := Some "alice"; bq_biometric_type := Some "fingerprint";
          bq_biometric_data := Some template |}.

(** A request for alice that answers the challenge [captcha-new] with
    7, the sum of the operands of [sample_env]. *)
Definition answering_request : login_request :=
  {| rq_username := Some "alice"; rq_password := Some "wrong";
     rq_captcha_id := Some "captcha-new"; rq_captcha_answer := Some "7" |}.

(** A world in which the client of [sample_env] asking for alice has
    used up its ten requests of the window. *)
Definition exhausted_world : world :=
  set_redis (insert "rate_limit:8.8.8.8:alice"
               (Entry "10" (Some (300 * us_per_second))))
    (alice_world 0 false).

(** The fingerprint request that presents the base64 text of alice's
    template. *)
Definition matching_fingerprint : biometric_request :=
  {| bq_username := Some "alice"; bq_biometric_type := Some "fingerprint";
     bq_biometric_data := Some "TWFu" |}.

(** Ten further requests of the client of [sample_env] for alice, at
    the instants 2 to 11. *)
Definition ten_more_requests : list (option login_request * request_env) :=
  List.map (fun t => (sample_request "wrong" None, sample_env t))
    [2; 3; 4; 5; 6; 7; 8; 9; 10; 11].

(** A token issued for alice under a clock that reads 10 s, and a token
    signed by the server that expires 48 hours after the epoch. *)
Definition late_token : token :=
  generate_jwt_token sample_hs256 sample_secret (user_data_of_row (alice 0 false))
    (10 * us_per_second) (10 * us_per_second) "jti-2".

Definition long_token : token :=
  jwt_encode sample_hs256
    {| p_user_id := "7"; p_username := "alice"; p_email := "alice@example.com";
       p_role := "user"; p_exp := 172800; p_iat := 0; p_jti := "jti-9" |}
    sample_secret.

(** * Properties *)

(** ** Decimal text *)

Lemma rstrip_no_space s : no_space s = true -> rstrip s = s.
Proof.
  induction s as [|a s IH]; [reflexivity|].
  cbn [no_space rstrip]. intros H. apply andb_true_iff in H as [Ha Hs].
  rewrite (IH Hs). destruct s; [|reflexivity].
  destruct (is_space a); [discriminate Ha|reflexivity].
Qed.

Lemma strip_no_space s : no_space s = true -> strip s = s.
Proof.
  intros H. unfold strip.
  assert (Hl : lstrip s = s).
  { destruct s as [|a s]; [reflexivity|]. cbn [no_space] in H. cbn [lstrip].
    apply andb_true_iff in H as [Ha _]. destruct (is_space a); [discriminate Ha|reflexivity]. }
  rewrite Hl. now apply rstrip_no_space.
Qed.

Lemma digits_no_space d : no_space (NilEmpty.string_of_uint d) = true.
Proof. induction d; cbn [NilEmpty.string_of_uint no_space]; try rewrite IHd; reflexivity. Qed.

Lemma py_str_no_space z : no_space (py_str z) = true.
Proof.
  unfold py_str, NilZero.string_of_int, NilZero.string_of_uint.
  destruct (Z.to_int z) as [d|d].
  - destruct d; try reflexivity; apply digits_no_space.
  - cbn [no_space]. destruct d; try reflexivity;
      rewrite digits_no_space; reflexivity.
Qed.

Lemma py_str_nonempty z : py_str z <> EmptyString.
Proof.
  unfold py_str, NilZero.string_of_int, NilZero.string_of_uint.
  destruct (Z.to_int z) as [d|d]; [|discriminate].
  destruct d; discriminate.
Qed.

Lemma strip_py_str z : strip (py_str z) = py_str z.
Proof. apply strip_no_space, py_str_no_space. Qed.

Lemma int_space_is_space a : is_int_space a = true -> is_space a = true.
Proof. destruct a as [[] [] [] [] [] [] [] []]; vm_compute; congruence. Qed.

Lemma int_strip_no_space s : no_space s = true -> int_rstrip (int_lstrip s) = s.
Proof.
  intros H.
  assert (Hno : forall a, is_space a = false -> is_int_space a = false).
  { intros a Ha. destruct (is_int_space a) eqn:E; [|reflexivity].
    apply int_space_is_space in E. congruence. }
  assert (Hl : int_lstrip s = s).
  { destruct s as [|a s]; [reflexivity|]. cbn [no_space] in H. cbn [int_lstrip].
    apply andb_true_iff in H as [Ha _]. apply negb_true_iff in Ha.
    now rewrite (Hno a Ha). }
  rewrite Hl. clear Hl.
  induction s as [|a s IH]; [reflexivity|].
  cbn [no_space] in H. apply andb_true_iff in H as [Ha Hs].
  apply negb_true_iff in Ha. cbn [int_rstrip]. rewrite (IH Hs).
  destruct s; [|reflexivity]. now rewrite (Hno a Ha).
Qed.


Lemma int_digits_uint d :
  int_digits true (NilEmpty.string_of_uint d) = Some (NilEmpty.string_of_uint d).
Proof. induction d; cbn; rewrite ?IHd; reflexivity. Qed.

Lemma int_digits_numeral d :
  d <> Decimal.Nil ->
  int_digits false (NilEmpty.string_of_uint d) = Some (NilEmpty.string_of_uint d)
  /\ int_sign (NilEmpty.string_of_uint d) = (false, NilEmpty.string_of_uint d).
Proof.
  destruct d; [congruence|..]; intros _; cbn; rewrite int_digits_uint;
    split; reflexivity.
Qed.

Lemma numeral_value (p : positive) :
  let d := NilEmpty.string_of_uint (Pos.to_uint p) in
  py_str (Z.pos p) = d
  /\ py_str (Z.neg p) = String "-" d
  /\ int_digits false d = Some d
  /\ int_sign d = (false, d)
  /\ NilZero.uint_of_string d = Some (Pos.to_uint p)
  /\ Z.of_uint (Pos.to_uint p) = Z.pos p.
Proof.
  intros d. subst d.
  assert (Hnil : Pos.to_uint p <> Decimal.Nil)
    by (intros H; now apply DecimalPos.Unsigned.to_uint_nonnil in H).
  assert (Hstr : NilZero.string_of_uint (Pos.to_uint p)
                 = NilEmpty.string_of_uint (Pos.to_uint p))
    by (destruct (Pos.to_uint p); [congruence|reflexivity..]).
  destruct (int_digits_numeral _ Hnil) as [Hd Hs].
  repeat split; auto.
  - unfold py_str. cbn [Z.to_int NilZero.string_of_int]. now rewrite Hstr.
  - rewrite <- Hstr. now apply NilZero.usu.
  - unfold Z.of_uint. now rewrite DecimalPos.Unsigned.of_to.
Qed.

Lemma py_int_str (z : Z) : py_int (py_str z) = Some z.
Proof.
  unfold py_int. rewrite int_strip_no_space by apply py_str_no_space.
  destruct z as [|p|p]; [reflexivity| |];
    destruct (numeral_value p) as (Hpos & Hneg & Hd & Hs & Hu & Hz).
  - now rewrite Hpos, Hs, Hd, Hu, Hz.
  - rewrite Hneg. cbn [int_sign]. rewrite Ascii.eqb_refl, Hd, Hu, Hz. reflexivity.
Qed.

(** The store reads the decimal text of an integer as that integer. *)
Lemma redis_int_str (z : Z) : redis_int (py_str z) = Some z.
Proof.
  unfold redis_int.
  assert (H : NilZero.int_of_string (py_str z) = Some (Z.to_int z)).
  { unfold py_str. apply NilZero.isi.
    - destruct z; simpl; try discriminate.
      intros [= H]. now apply DecimalPos.Unsigned.to_uint_nonnil in H.
    - destruct z; simpl; try discriminate.
      intros [= H]. now apply DecimalPos.Unsigned.to_uint_nonnil in H. }
  rewrite H, DecimalZ.of_to. now rewrite String.eqb_refl.
Qed.

(** ** Time stamps and JSON text *)

Example isoformat_examples :
  isoformat 0 = "1970-01-01T00:00:00"
  /\ isoformat (1700000000 * us_per_second + 123456) = "2023-11-14T22:13:20.123456"
  /\ isoformat (951782400 * us_per_second + 5) = "2000-02-29T00:00:00.000005"
  /\ isoformat (- (400 * 86400 * us_per_second) - 1) = "1968-11-26T23:59:59.999999".
Proof. vm_compute. repeat split; reflexivity. Qed.

Example session_json_example :
  session_json (alice 0 false) (sample_env 5)
  = json_object
      [("user_id", json_text "7"); ("username", json_text "alice");
       ("login_time", json_text "1970-01-01T00:00:00.000005");
       ("client_info",
        json_object
          [("ip_address", json_text "8.8.8.8"); ("user_agent", json_text "test-agent");
           ("timestamp", json_text "1970-01-01T00:00:00");
           ("device_id", "null"); ("app_version", "null"); ("platform", "null");
           ("device_fingerprint", json_text "fp-1")])]
  /\ json_chars (String (ascii_of_nat 34)
                   (String (ascii_of_nat 10) (String (ascii_of_nat 233) "a")))
     = String (ascii_of_nat 92)
         (String (ascii_of_nat 34)
            (String (ascii_of_nat 92) ("n" +:+ String (ascii_of_nat 92) "u00e9a"))).
Proof. vm_compute. split; reflexivity. Qed.

(** ** The store *)

Lemma live_entry_insert_eq now key e (r : gmap string entry) :
  live_entry now key (<[key := e]> r) = if live now e then Some e else None.
Proof. unfold live_entry. now rewrite lookup_insert_eq. Qed.

Lemma live_entry_insert_ne now key key' e (r : gmap string entry) :
  key <> key' -> live_entry now key' (<[key := e]> r) = live_entry now key' r.
Proof. intros H. unfold live_entry. now rewrite lookup_insert_ne. Qed.

Lemma live_entry_delete_eq now key (r : gmap string entry) :
  live_entry now key (delete key r) = None.
Proof. unfold live_entry. now rewrite lookup_delete_eq. Qed.

Lemma world_eq (w1 w2 : world) :
  redis w1 = redis w2 -> test_users w1 = test_users w2 ->
  auth_events_log w1 = auth_events_log w2 -> w1 = w2.
Proof. destruct w1, w2; simpl; congruence. Qed.

(** ** Rate limiter *)

Section RateLimiter.

Variable identifier : string.
Variables limit window : Z.

Local Notation key := ("rate_limit:" +:+ identifier).

(** The first call of a window creates the counter. *)
Lemma check_rate_limit_first now w :
  0 < window ->
  live_entry now key (redis w) = None ->
  check_rate_limit identifier limit window now w
  = (Ok true,
     set_redis (insert key (Entry (py_str 1) (Some (now + window * us_per_second)))) w).
Proof.
  intros Hw Hnone.
  unfold check_rate_limit, bind, redis_get. rewrite Hnone. simpl.
  unfold bind, redis_setex.
  destruct (window <=? 0) eqn:E; [lia|]. reflexivity.
Qed.

(** A call that finds the counter at [c]. *)
Lemma check_rate_limit_counted now w c expiry :
  redis w !! key = Some (Entry (py_str c) (Some expiry)) ->
  now < expiry ->
  check_rate_limit identifier limit window now w
  = if c <? limit
    then (Ok true, set_redis (insert key (Entry (py_str (c + 1)) (Some expiry))) w)
    else (Ok false, w).
Proof.
  intros Hk Hlt.
  assert (Hlive : live_entry now key (redis w) = Some (Entry (py_str c) (Some expiry))).
  { unfold live_entry. rewrite Hk. unfold live. simpl.
    destruct (now <? expiry) eqn:E; [reflexivity|lia]. }
  unfold check_rate_limit, bind, redis_get. rewrite Hlive. simpl.
  rewrite py_int_str.
  destruct (c <? limit); [|reflexivity].
  unfold bind, redis_incr. rewrite Hlive. simpl. now rewrite redis_int_str.
Qed.

(** A refused call writes nothing. *)
Lemma check_rate_limit_refused now w w' :
  check_rate_limit identifier limit window now w = (Ok false, w') -> w' = w.
Proof.
  unfold check_rate_limit, bind, redis_get, rate_limit_decide.
  destruct (live_entry now key (redis w)) as [e|]; simpl.
  - destruct (py_int (value e)) as [n|]; [|discriminate].
    destruct (n <? limit).
    + unfold bind, redis_incr.
      destruct (live_entry now key (redis w)) as [e'|]; simpl.
      * destruct (redis_int (value e')); discriminate.
      * discriminate.
    + unfold ret. congruence.
  - unfold bind, redis_setex. destruct (window <=? 0); discriminate.
Qed.

(** Calls made while the counter stands at [c] and has not expired. *)
Lemma check_rate_limit_calls_counted times :
  forall w c expiry,
    redis w !! key = Some (Entry (py_str c) (Some expiry)) ->
    c <= limit ->
    Forall (fun t => t < expiry) times ->
    exists w',
      check_rate_limit_calls identifier limit window times w
      = ((fun k => Ok (c + Z.of_nat k <? limit)) <$> seq 0 (length times), w')
      /\ redis w'
         = <[key := Entry (py_str (Z.min (c + Z.of_nat (length times)) limit))
                      (Some expiry)]> (redis w)
      /\ test_users w' = test_users w
      /\ auth_events_log w' = auth_events_log w.
Proof.
  induction times as [|t times IH]; intros w c expiry Hk Hc Hall.
  - exists w. simpl. repeat split.
    rewrite Z.add_0_r, Z.min_l by lia. symmetry. now apply insert_id.
  - inversion Hall as [|? ? Ht Hrest]; subst.
    simpl. rewrite (check_rate_limit_counted t w c expiry Hk Ht).
    destruct (c <? limit) eqn:E.
    + destruct (IH (set_redis (insert key (Entry (py_str (c + 1)) (Some expiry))) w)
                  (c + 1) expiry) as (w' & Hrun & Hred & Hus & Hev); auto.
      { simpl. apply lookup_insert_eq. }
      { lia. }
      exists w'. rewrite Hrun. repeat split; auto.
      * f_equal. rewrite Z.add_0_r, E. f_equal.
        rewrite <- fmap_S_seq, <- list_fmap_compose. apply list_fmap_ext.
        intros _ k _. simpl. do 2 f_equal. lia.
      * rewrite Hred. simpl. rewrite insert_insert_eq. do 3 f_equal. lia.
    + destruct (IH w c expiry) as (w' & Hrun & Hred & Hus & Hev); auto.
      exists w'. rewrite Hrun. repeat split; auto.
      * f_equal. rewrite Z.add_0_r, E. f_equal.
        rewrite <- fmap_S_seq, <- list_fmap_compose. apply list_fmap_ext.
        intros _ k _. simpl.
        assert ((c + Z.of_nat k <? limit) = false) as Hk0
          by (apply Z.ltb_ge; apply Z.ltb_ge in E; lia).
        rewrite Hk0. symmetry. f_equal. apply Z.ltb_ge. apply Z.ltb_ge in E. lia.
      * rewrite Hred. apply Z.ltb_ge in E. do 3 f_equal. lia.
Qed.

End RateLimiter.

(** Calls made one after the other within one window. *)
Lemma check_rate_limit_calls_window
    (identifier : string) (limit window t0 : Z) (later : list Z) (w : world) :
  1 <= limit ->
  0 < window ->
  live_entry t0 ("rate_limit:" +:+ identifier) (redis w) = None ->
  Forall (fun t => t < t0 + window * us_per_second) later ->
  exists rs w',
    check_rate_limit_calls identifier limit window (t0 :: later) w = (rs, w')
    /\ length rs = S (length later)
    /\ admits_first limit rs
    /\ redis w'
       = <["rate_limit:" +:+ identifier :=
             Entry (py_str (Z.min (Z.of_nat (S (length later))) limit))
                   (Some (t0 + window * us_per_second))]> (redis w)
    /\ test_users w' = test_users w
    /\ auth_events_log w' = auth_events_log w.
Proof.
  intros Hlimit Hwindow Hfresh Hlater.
  set (key := "rate_limit:" +:+ identifier).
  set (expiry := t0 + window * us_per_second).
  set (w1 := set_redis (insert key (Entry (py_str 1) (Some expiry))) w).
  destruct (check_rate_limit_calls_counted identifier limit window later w1 1 expiry)
    as (w' & Hrun & Hred & Hus & Hev); auto.
  { apply lookup_insert_eq. }
  exists (Ok true :: ((fun k => Ok (1 + Z.of_nat k <? limit)) <$> seq 0 (length later))), w'.
  repeat split.
  - simpl. rewrite (check_rate_limit_first identifier limit window t0 w Hwindow Hfresh).
    fold key expiry w1. now rewrite Hrun.
  - simpl. now rewrite length_fmap, length_seq.
  - intros k r Hk. destruct k as [|k]; simpl in Hk.
    + injection Hk as <-. f_equal. symmetry. apply Z.ltb_lt. lia.
    + rewrite list_lookup_fmap in Hk.
      destruct (seq 0 (length later) !! k) as [j|] eqn:Hj; [|discriminate].
      apply lookup_seq in Hj as [-> _]. simpl in Hk. injection Hk as <-.
      do 2 f_equal. lia.
  - rewrite Hred. unfold w1. simpl. rewrite insert_insert_eq.
    do 3 f_equal. lia.
  - exact Hus.
  - exact Hev.
Qed.

(** C2 (amended): for a fixed identifier, a limit of at least 1 and a
    positive window, calls made one after the other within one window
    (the first creates the counter at [t0], the later ones come before
    [t0 + window]) admit exactly the first [limit] of them; from then on
    the counter stays at [limit] with the expiry the first call gave it,
    and a call that returns false leaves the store as it found it. *)
Theorem rate_limit_admits_first_limit_calls
    (identifier : string) (limit window t0 : Z) (later : list Z) (w : world) :
  1 <= limit ->
  0 < window ->
  live_entry t0 ("rate_limit:" +:+ identifier) (redis w) = None ->
  Forall (fun t => t < t0 + window * us_per_second) later ->
  exists rs w',
    check_rate_limit_calls identifier limit window (t0 :: later) w = (rs, w')
    /\ length rs = S (length later)
    /\ admits_first limit rs
    /\ redis w'
       = <["rate_limit:" +:+ identifier :=
             Entry (py_str (Z.min (Z.of_nat (S (length later))) limit))
                   (Some (t0 + window * us_per_second))]> (redis w)
    /\ test_users w' = test_users w
    /\ auth_events_log w' = auth_events_log w
    /\ (forall t w1 w2,
          check_rate_limit identifier limit window t w1 = (Ok false, w2) ->
          w2 = w1).
Proof.
  intros Hlimit Hwindow Hfresh Hlater.
  destruct (check_rate_limit_calls_window identifier limit window t0 later w)
    as (rs & w' & Hrun & Hlen & Hadm & Hred & Hus & Hev); auto.
  exists rs, w'. repeat split; auto.
  intros t wa wb. apply check_rate_limit_refused.
Qed.

(** The theorem at limit 2: four calls in a five-minute window. *)
Lemma rate_limit_admits_first_limit_calls_witness :
  exists rs w',
    check_rate_limit_calls "10.0.0.9:alice" 2 300 [0; 1000000; 2000000; 3000000]
      empty_world = (rs, w')
    /\ length rs = 4%nat
    /\ admits_first 2 rs
    /\ redis w'
       = <["rate_limit:10.0.0.9:alice" :=
             Entry (py_str 2) (Some (300 * us_per_second))]> (redis empty_world)
    /\ test_users w' = test_users empty_world
    /\ auth_events_log w' = auth_events_log empty_world
    /\ (forall t w1 w2,
          check_rate_limit "10.0.0.9:alice" 2 300 t w1 = (Ok false, w2) ->
          w2 = w1).
Proof.
  apply (rate_limit_admits_first_limit_calls "10.0.0.9:alice" 2 300 0
           [1000000; 2000000; 3000000] empty_world).
  - lia.
  - lia.
  - reflexivity.
  - repeat constructor.
Defined.

(** C2 as worded fails at limit 0: the call that creates the counter is
    admitted whatever the limit. *)
Lemma rate_limit_zero_limit_admits_one :
  ~ admits_first 0 (fst (check_rate_limit_calls "10.0.0.9:alice" 0 300 [0] empty_world)).
Proof.
  intros H. specialize (H 0%nat (Ok true) eq_refl). discriminate H.
Qed.

(** ** Interleaved callers of the rate limiter *)

(** The two commands of one caller, run back to back, are one call of
    [check_rate_limit]. *)
Lemma limiter_steps_are_a_call identifier limit window now w :
  let '(th1, w1) := limiter_step identifier limit window now Fresh w in
  let '(th2, w2) := limiter_step identifier limit window now th1 w1 in
  let '(r, w') := check_rate_limit identifier limit window now w in
  th2 = Returned r /\ w2 = w'.
Proof.
  unfold limiter_step, check_rate_limit, bind, redis_get. simpl.
  destruct (rate_limit_decide _ limit window now _ w) as [r w']. now split.
Qed.

(** A serial schedule computes what the calls made one after the other
    compute. *)
Lemma run_serial_schedule identifier limit window times :
  forall (returned : list limiter_thread) (w : world),
    run_schedule identifier limit window (serial_from (length returned) times)
      ((returned ++ replicate (length times) Fresh)%list) w
    = ((returned
        ++ (Returned <$> fst (check_rate_limit_calls identifier limit window times w)))%list,
       snd (check_rate_limit_calls identifier limit window times w)).
Proof.
  induction times as [|t times IH]; intros returned w.
  - reflexivity.
  - cbn [serial_from run_schedule length replicate check_rate_limit_calls].
    pose proof (limiter_steps_are_a_call identifier limit window t w) as Hcall.
    rewrite lookup_app_r, Nat.sub_diag by lia. cbn [lookup list_lookup].
    destruct (limiter_step identifier limit window t Fresh w) as [th1 w1] eqn:E1.
    rewrite insert_app_r_alt, Nat.sub_diag by lia. cbn [insert list_insert].
    rewrite lookup_app_r, Nat.sub_diag by lia. cbn [lookup list_lookup].
    destruct (limiter_step identifier limit window t th1 w1) as [th2 w2] eqn:E2.
    destruct (check_rate_limit identifier limit window t w) as [r w'] eqn:E3.
    destruct Hcall as [-> ->].
    rewrite insert_app_r_alt, Nat.sub_diag by lia. cbn [insert list_insert].
    specialize (IH ((returned ++ [Returned r])%list) w').
    rewrite length_app in IH. cbn [length] in IH.
    replace (length returned + 1)%nat with (S (length returned)) in IH by lia.
    rewrite <- app_assoc in IH. cbn [app] in IH. rewrite IH.
    destruct (check_rate_limit_calls identifier limit window times w') as [rs w''].
    cbn [fst snd fmap list_fmap]. now rewrite <- app_assoc.
Qed.

Lemma admitted_count_bound limit rs :
  forall offset : nat,
    (forall (k : nat) (r : result bool),
        rs !! k = Some r -> r = Ok (Z.of_nat (offset + k) <? limit)) ->
    Z.of_nat (admitted_count (Returned <$> rs)) <= Z.max 0 (limit - Z.of_nat offset).
Proof.
  unfold admitted_count.
  induction rs as [|r rs IH]; intros offset H.
  - simpl. lia.
  - assert (Hr : r = Ok (Z.of_nat offset <? limit)).
    { rewrite (H 0%nat r eq_refl). now rewrite Nat.add_0_r. }
    assert (IH' := IH (S offset)).
    assert (Htail : forall (k : nat) (r' : result bool),
               rs !! k = Some r' -> r' = Ok (Z.of_nat (S offset + k) <? limit)).
    { intros k r' Hk. rewrite (H (S k) r' Hk). do 3 f_equal. lia. }
    specialize (IH' Htail). subst r.
    cbn [fmap list_fmap List.filter was_admitted].
    destruct (Z.of_nat offset <? limit) eqn:E; cbn [length].
    + apply Z.ltb_lt in E. rewrite Nat2Z.inj_succ. lia.
    + apply Z.ltb_ge in E. lia.
Qed.

(** C9 (amended): [check_rate_limit] compares and increments in two
    separate store commands.  When the callers of one window run one
    after the other (limit at least 1, positive window, the first call
    creating the counter), the schedule computes the same results as the
    sequential calls and admits no more than [limit] of them. *)
Theorem serial_callers_admitted_at_most_limit
    (identifier : string) (limit window t0 : Z) (later : list Z) (w : world) :
  1 <= limit ->
  0 < window ->
  live_entry t0 ("rate_limit:" +:+ identifier) (redis w) = None ->
  Forall (fun t => t < t0 + window * us_per_second) later ->
  run_schedule identifier limit window (serial_schedule (t0 :: later))
    (replicate (S (length later)) Fresh) w
  = (Returned <$> fst (check_rate_limit_calls identifier limit window (t0 :: later) w),
     snd (check_rate_limit_calls identifier limit window (t0 :: later) w))
  /\ at_most_limit_admitted identifier limit window (serial_schedule (t0 :: later))
       (replicate (S (length later)) Fresh) w.
Proof.
  intros Hlimit Hwindow Hfresh Hlater.
  pose proof (run_serial_schedule identifier limit window (t0 :: later) [] w) as Hrun.
  change (serial_from (length []) (t0 :: later)) with (serial_schedule (t0 :: later)) in Hrun.
  change (([] ++ replicate (length (t0 :: later)) Fresh)%list)
    with (replicate (S (length later)) Fresh) in Hrun.
  rewrite app_nil_l in Hrun.
  split; [exact Hrun|].
  unfold at_most_limit_admitted. rewrite Hrun. cbn [fst].
  destruct (check_rate_limit_calls_window identifier limit window t0 later w)
    as (rs & w' & Hcalls & _ & Hadm & _); auto.
  rewrite Hcalls. cbn [fst].
  pose proof (admitted_count_bound limit rs 0%nat) as Hb.
  rewrite Z.sub_0_r in Hb. rewrite Z.max_r in Hb by lia.
  apply Hb. intros k r Hk. now apply Hadm.
Qed.

(** The theorem for three callers under limit 2. *)
Lemma serial_callers_admitted_at_most_limit_witness :
  run_schedule "10.0.0.9:alice" 2 300 (serial_schedule [0; 5; 9])
    (replicate 3 Fresh) empty_world
  = (Returned <$> fst (check_rate_limit_calls "10.0.0.9:alice" 2 300 [0; 5; 9] empty_world),
     snd (check_rate_limit_calls "10.0.0.9:alice" 2 300 [0; 5; 9] empty_world))
  /\ at_most_limit_admitted "10.0.0.9:alice" 2 300 (serial_schedule [0; 5; 9])
       (replicate 3 Fresh) empty_world.
Proof.
  apply (serial_callers_admitted_at_most_limit "10.0.0.9:alice" 2 300 0 [5; 9] empty_world).
  - lia.
  - lia.
  - reflexivity.
  - repeat constructor.
Defined.

(** C9 as worded fails: two callers that both read the store before
    either writes are both admitted under limit 1. *)
Lemma interleaved_callers_exceed_limit :
  ~ at_most_limit_admitted "10.0.0.9:alice" 1 300
      [(0%nat, 0); (1%nat, 0); (0%nat, 0); (1%nat, 0)] [Fresh; Fresh] empty_world.
Proof.
  unfold at_most_limit_admitted.
  assert (H : admitted_count
                (fst (run_schedule "10.0.0.9:alice" 1 300
                        [(0%nat, 0); (1%nat, 0); (0%nat, 0); (1%nat, 0)]
                        [Fresh; Fresh] empty_world)) = 2%nat)
    by (vm_compute; reflexivity).
  rewrite H. lia.
Qed.

(** ** CAPTCHA gate *)

(** [verify_captcha] never raises, and it writes only when it accepts. *)
Lemma verify_captcha_cases captcha_id answer now w :
  verify_captcha captcha_id answer now w
  = (Ok true, set_redis (delete ("captcha:" +:+ captcha_id)) w)
  \/ verify_captcha captcha_id answer now w = (Ok false, w).
Proof.
  unfold verify_captcha, bind, redis_get. simpl.
  destruct (live_entry now _ (redis w)) as [e|]; simpl; [|now right].
  destruct (negb (String.eqb (value e) EmptyString)
            && String.eqb (strip answer) (value e)); [now left|now right].
Qed.

Lemma verify_captcha_deleted captcha_id answer now w :
  redis w !! ("captcha:" +:+ captcha_id) = None ->
  verify_captcha captcha_id answer now w = (Ok false, w).
Proof.
  intros H. unfold verify_captcha, bind, redis_get, live_entry. now rewrite H.
Qed.

(** C3: a verification that succeeds deletes the stored answer, after
    which every verification of the same identifier -- with the same or
    any other answer, at any instant -- returns false; a verification
    that returns false leaves the stores unchanged; no verification
    raises. *)
Theorem verify_captcha_succeeds_at_most_once
    (captcha_id answer : string) (now : Z) (w : world) :
  match verify_captcha captcha_id answer now w with
  | (Ok true, w') =>
      w' = set_redis (delete ("captcha:" +:+ captcha_id)) w
      /\ forall answer' now',
           verify_captcha captcha_id answer' now' w' = (Ok false, w')
  | (Ok false, w') => w' = w
  | (Raise _, _) => False
  end.
Proof.
  destruct (verify_captcha_cases captcha_id answer now w) as [H|H]; rewrite H.
  - split; [reflexivity|]. intros answer' now'.
    apply verify_captcha_deleted. simpl. apply lookup_delete_eq.
  - reflexivity.
Qed.

(** An issued challenge, answered correctly (white space around the
    answer is ignored) before its five minutes are over, is accepted
    once and refused the second time. *)
Example issued_captcha_is_single_use :
  let w1 := snd (generate_captcha 3 4 "c-42" 0 empty_world) in
  let '(first, w2) := verify_captcha "c-42" " 7 " (299 * us_per_second) w1 in
  let '(second, w3) := verify_captcha "c-42" " 7 " (299 * us_per_second) w2 in
  first = Ok true /\ second = Ok false /\ redis w2 = ∅ /\ w3 = w2.
Proof. vm_compute. repeat split. Qed.

(** An expired challenge and a wrong answer are refused, the store
    untouched. *)
Example refused_captcha_leaves_store :
  let w1 := snd (generate_captcha 3 4 "c-42" 0 empty_world) in
  verify_captcha "c-42" "7" (300 * us_per_second) w1 = (Ok false, w1)
  /\ verify_captcha "c-42" "8" 1 w1 = (Ok false, w1)
  /\ verify_captcha "c-43" "7" 1 w1 = (Ok false, w1).
Proof. vm_compute. repeat split. Qed.

(** ** Risk score *)

Lemma hour_test (hour : Z) :
  (hour <? 6) || (hour >? 22) = negb ((6 <=? hour) && (hour <=? 22)).
Proof.
  destruct (hour <? 6) eqn:A, (hour >? 22) eqn:B, (6 <=? hour) eqn:C,
    (hour <=? 22) eqn:D; try reflexivity; exfalso;
    rewrite ?Z.ltb_lt, ?Z.ltb_ge, ?Z.gtb_gt, ?Z.leb_le, ?Z.leb_gt in *;
    try lia.
Qed.

(** C6 (amended): the score is the capped sum of +10 when the address
    text starts with "127." or "192.168." (the other private ranges do
    not count), +20 when no non-empty device fingerprint was supplied,
    +30 when the attempt failed and +15 when the hour is below 6 or above
    22 (hour 22 itself does not count); it lies in [0,100] -- it never
    exceeds 75 -- and it agrees with the score as the specification words
    it whenever the hour is not 22 and the address is outside 10/8 and
    172.16/12. *)
Theorem calculate_risk_score_is_prefix_sum
    (ci : client_info) (success : bool) (hour : Z) :
  calculate_risk_score ci success hour = prefix_risk_score ci success hour
  /\ 0 <= calculate_risk_score ci success hour <= 75
  /\ calculate_risk_score ci success hour <= 100
  /\ (hour <> 22 ->
      loopback_or_private (ip_address ci)
      = startswith (ip_address ci) "127." || startswith (ip_address ci) "192.168." ->
      calculate_risk_score ci success hour = spec_risk_score ci success hour).
Proof.
  assert (Heq : calculate_risk_score ci success hour = prefix_risk_score ci success hour).
  { unfold calculate_risk_score, prefix_risk_score. rewrite hour_test.
    destruct (startswith (ip_address ci) "127." || startswith (ip_address ci) "192.168."),
      (truthy (device_fingerprint ci)), success,
      ((6 <=? hour) && (hour <=? 22)); reflexivity. }
  assert (Hbound : 0 <= prefix_risk_score ci success hour <= 75).
  { unfold prefix_risk_score.
    destruct (startswith (ip_address ci) "127." || startswith (ip_address ci) "192.168."),
      (truthy (device_fingerprint ci)), success,
      ((6 <=? hour) && (hour <=? 22)); simpl; lia. }
  rewrite Heq. repeat split; try lia.
  intros Hhour Hip. unfold prefix_risk_score, spec_risk_score. rewrite Hip.
  assert ((hour <=? 22) = (hour <? 22)) as ->; [|reflexivity].
  destruct (hour <=? 22) eqn:A, (hour <? 22) eqn:B; try reflexivity; exfalso;
    rewrite ?Z.ltb_lt, ?Z.ltb_ge, ?Z.leb_le, ?Z.leb_gt in *; lia.
Qed.

(** The theorem at a loopback caller in the small hours. *)
Lemma calculate_risk_score_is_prefix_sum_witness :
  let ci := {| ip_address := "127.0.0.1"; user_agent := "ua"; timestamp := 0;
               device_id := None; app_version := None; platform := None;
               device_fingerprint := None |} in
  calculate_risk_score ci false 3 = spec_risk_score ci false 3.
Proof.
  intros ci.
  apply (calculate_risk_score_is_prefix_sum ci false 3).
  - lia.
  - reflexivity.
Defined.

(** C6 as worded fails at hour 22, which is outside [6,22) but earns
    nothing in the code. *)
Lemma risk_score_hour_22 :
  calculate_risk_score sample_client true 22 = 0
  /\ spec_risk_score sample_client true 22 = 15
  /\ calculate_risk_score sample_client true 22 <> spec_risk_score sample_client true 22.
Proof. vm_compute. repeat split; discriminate. Qed.

(** It also fails at a private address outside 192.168/16. *)
Example risk_score_private_10 :
  let ci := {| ip_address := "10.0.0.5"; user_agent := "ua"; timestamp := 0;
               device_id := None; app_version := None; platform := None;
               device_fingerprint := Some "fp" |} in
  calculate_risk_score ci true 12 = 0 /\ spec_risk_score ci true 12 = 10.
Proof. vm_compute. split; reflexivity. Qed.

(** ** Token service *)

Lemma timegm_plus_hours t h : timegm (plus_hours t h) = timegm t + h * 3600.
Proof.
  unfold timegm, plus_hours, us_per_second.
  replace (t + h * 3600 * 1000000) with (t + (h * 3600) * 1000000) by lia.
  now rewrite Z.div_add by lia.
Qed.

Lemma timegm_mono t t' : t <= t' -> timegm t <= timegm t'.
Proof. intros H. unfold timegm, us_per_second. apply Z.div_le_mono; lia. Qed.

Lemma timegm_lt_seconds t t' n :
  timegm t < timegm t' + n -> t < t' + n * us_per_second.
Proof.
  intros H.
  destruct (Z_lt_ge_dec t (t' + n * us_per_second)) as [|Hge]; [assumption|].
  exfalso. apply Z.ge_le, timegm_mono in Hge. unfold timegm in *.
  rewrite Z.div_add in Hge by (unfold us_per_second; lia). lia.
Qed.

Section TokenProperties.

Variable hs256 : string -> jwt_payload -> string.
Variable JWT_SECRET : string.

Lemma generated_signed ud utc_exp utc_iat uuid :
  signed hs256 JWT_SECRET (generate_jwt_token hs256 JWT_SECRET ud utc_exp utc_iat uuid) = true.
Proof. unfold signed. simpl. apply String.eqb_refl. Qed.

(** Seconds between the two time claims of an issued token. *)
Lemma generated_lifetime ud utc_exp utc_iat uuid :
  let p := tk_payload (generate_jwt_token hs256 JWT_SECRET ud utc_exp utc_iat uuid) in
  p_exp p - p_iat p
  = JWT_EXPIRATION_HOURS * 3600 + (timegm utc_exp - timegm utc_iat).
Proof. simpl. rewrite timegm_plus_hours. lia. Qed.

(** A token has at most 24 hours left at any instant after its issue. *)
Lemma generated_remaining_lifetime ud utc_exp utc_iat uuid t :
  utc_exp <= t ->
  p_exp (tk_payload (generate_jwt_token hs256 JWT_SECRET ud utc_exp utc_iat uuid))
  <= timegm t + JWT_EXPIRATION_HOURS * 3600.
Proof.
  intros H. simpl. rewrite timegm_plus_hours. apply timegm_mono in H. lia.
Qed.

(** A token that is signed, issued, not expired and not listed verifies
    to its own claims. *)
Lemma verify_jwt_token_accepts tk now w :
  signed hs256 JWT_SECRET tk = true ->
  p_iat (tk_payload tk) <= timegm now ->
  timegm now < p_exp (tk_payload tk) ->
  truthy (value <$> live_entry now ("blacklist:" +:+ p_jti (tk_payload tk)) (redis w))
  = false ->
  verify_jwt_token hs256 JWT_SECRET tk now w = (Ok (Some (tk_payload tk)), w).
Proof.
  unfold signed. intros Hs Hi He Hl.
  unfold verify_jwt_token, try_except, bind, lift, jwt_decode.
  rewrite Hs.
  destruct (timegm now <? p_iat (tk_payload tk)) eqn:I;
    [apply Z.ltb_lt in I; lia|].
  destruct (p_exp (tk_payload tk) <=? timegm now) eqn:E;
    [apply Z.leb_le in E; lia|].
  simpl. unfold redis_get. now rewrite Hl.
Qed.

(** What [blacklist_token] does: it writes when the signature is valid
    and the token's ['iat'] is not after the clock, and not otherwise. *)
Lemma blacklist_token_cases tk now w :
  blacklist_token hs256 JWT_SECRET tk now w
  = (Ok tt,
     if signed hs256 JWT_SECRET tk && (p_iat (tk_payload tk) <=? timegm now)
     then set_redis
            (insert ("blacklist:" +:+ p_jti (tk_payload tk))
               (Entry "blacklisted" (Some (now + 86400 * us_per_second)))) w
     else w).
Proof.
  unfold blacklist_token, try_except, bind, lift, jwt_decode, signed.
  destruct (String.eqb (tk_signature tk) (hs256 JWT_SECRET (tk_payload tk)));
    [|reflexivity].
  rewrite (Z.leb_antisym (timegm now) (p_iat (tk_payload tk))).
  destruct (timegm now <? p_iat (tk_payload tk)); reflexivity.
Qed.

(** A token listed by an entry that is still live is refused. *)
Lemma verify_jwt_token_listed tk now w e :
  redis w !! ("blacklist:" +:+ p_jti (tk_payload tk)) = Some e ->
  value e <> EmptyString ->
  (timegm now < p_exp (tk_payload tk) -> live now e = true) ->
  verify_jwt_token hs256 JWT_SECRET tk now w = (Ok None, w).
Proof.
  intros Hk Hv Hlive.
  unfold verify_jwt_token, try_except, bind, lift, jwt_decode.
  destruct (String.eqb (tk_signature tk) (hs256 JWT_SECRET (tk_payload tk)));
    [|reflexivity].
  destruct (timegm now <? p_iat (tk_payload tk)); [reflexivity|].
  destruct (p_exp (tk_payload tk) <=? timegm now) eqn:E; [reflexivity|].
  apply Z.leb_gt in E. simpl. unfold redis_get, live_entry.
  rewrite Hk, (Hlive E). simpl.
  destruct (String.eqb_spec (value e) EmptyString); [contradiction|reflexivity].
Qed.

Lemma verify_jwt_token_unsigned tk now w :
  signed hs256 JWT_SECRET tk = false -> verify_jwt_token hs256 JWT_SECRET tk now w = (Ok None, w).
Proof.
  unfold signed. intros Hs.
  unfold verify_jwt_token, try_except, bind, lift, jwt_decode.
  now rewrite Hs.
Qed.

(** C4: for every token whose ['iat'] is not after the clock of the
    revocation and that has no more than its maximum lifetime of 24
    hours left then -- every token issued before the revocation under
    the same clock has both -- [blacklist_token] returns normally and,
    when the signature is valid, whether the token has expired or not,
    stores the token's jti in the revocation list for 86400 seconds;
    from then on [verify_jwt_token] refuses the token at every instant,
    also while its signature is valid and it is unexpired. *)
Theorem revoked_token_is_refused
    (tk : token) (t_revoke t_verify : Z) (w : world) :
  p_iat (tk_payload tk) <= timegm t_revoke ->
  p_exp (tk_payload tk) <= timegm t_revoke + JWT_EXPIRATION_HOURS * 3600 ->
  let w' := snd (blacklist_token hs256 JWT_SECRET tk t_revoke w) in
  fst (blacklist_token hs256 JWT_SECRET tk t_revoke w) = Ok tt
  /\ (signed hs256 JWT_SECRET tk = true ->
      w' = set_redis
             (insert ("blacklist:" +:+ p_jti (tk_payload tk))
                (Entry "blacklisted"
                   (Some (t_revoke + JWT_EXPIRATION_HOURS * 3600 * us_per_second)))) w)
  /\ verify_jwt_token hs256 JWT_SECRET tk t_verify w' = (Ok None, w').
Proof.
  intros Hiat Hlife. rewrite blacklist_token_cases. cbn [fst snd].
  split; [reflexivity|].
  apply Z.leb_le in Hiat. rewrite Hiat, andb_true_r.
  destruct (signed hs256 JWT_SECRET tk) eqn:Hs.
  - split; [reflexivity|].
    eapply verify_jwt_token_listed.
    + simpl. apply lookup_insert_eq.
    + discriminate.
    + intros Hexp. unfold live. simpl. apply Z.ltb_lt.
      apply (timegm_lt_seconds t_verify t_revoke 86400).
      unfold JWT_EXPIRATION_HOURS in Hlife. lia.
  - split; [discriminate|]. now apply verify_jwt_token_unsigned.
Qed.

End TokenProperties.

(** The theorem at a token issued at instant 0, revoked one hour later
    and presented again two hours after its issue. *)
Lemma revoked_token_is_refused_witness :
  let tk := generate_jwt_token sample_hs256 sample_secret
              (user_data_of_row (alice 0 false)) 0 0 "jti-1" in
  let w' := snd (blacklist_token sample_hs256 sample_secret tk
                   (3600 * us_per_second) empty_world) in
  fst (blacklist_token sample_hs256 sample_secret tk (3600 * us_per_second) empty_world)
  = Ok tt
  /\ (signed sample_hs256 sample_secret tk = true ->
      w' = set_redis
             (insert ("blacklist:" +:+ p_jti (tk_payload tk))
                (Entry "blacklisted"
                   (Some (3600 * us_per_second
                          + JWT_EXPIRATION_HOURS * 3600 * us_per_second))))
             empty_world)
  /\ verify_jwt_token sample_hs256 sample_secret tk (7200 * us_per_second) w'
     = (Ok None, w').
Proof.
  intros tk.
  apply (revoked_token_is_refused sample_hs256 sample_secret tk
           (3600 * us_per_second) (7200 * us_per_second) empty_world).
  - vm_compute. discriminate.
  - vm_compute. discriminate.
Defined.

(** Two signed tokens that a revocation does not keep out.  [late_token]
    carries an ['iat'] of 10 s and is revoked under a clock that reads
    5 s: [blacklist_token] writes nothing and the token verifies as soon
    as the clock reaches its ['iat'].  [long_token] has 48 hours left
    when it is revoked: 24 hours later its entry has left the revocation
    list and the token verifies again. *)
Lemma revocation_misses_tokens :
  let w1 := snd (blacklist_token sample_hs256 sample_secret late_token
                   (5 * us_per_second) empty_world) in
  let w2 := snd (blacklist_token sample_hs256 sample_secret long_token 0
                   empty_world) in
  signed sample_hs256 sample_secret late_token = true
  /\ w1 = empty_world
  /\ verify_jwt_token sample_hs256 sample_secret late_token (10 * us_per_second) w1
     = (Ok (Some (tk_payload late_token)), w1)
  /\ signed sample_hs256 sample_secret long_token = true
  /\ redis w2 !! "blacklist:jti-9"
     = Some (Entry "blacklisted" (Some (86400 * us_per_second)))
  /\ verify_jwt_token sample_hs256 sample_secret long_token (86400 * us_per_second) w2
     = (Ok (Some (tk_payload long_token)), w2).
Proof. vm_compute. repeat split; reflexivity. Qed.

(** Before the revocation the same token is accepted. *)
Example unrevoked_token_is_accepted :
  let tk := generate_jwt_token sample_hs256 sample_secret
              (user_data_of_row (alice 0 false)) 0 0 "jti-1" in
  verify_jwt_token sample_hs256 sample_secret tk (7200 * us_per_second) empty_world
  = (Ok (Some (tk_payload tk)), empty_world).
Proof. vm_compute. reflexivity. Qed.

Section TokenRoundTrip.

Variable hs256 : string -> jwt_payload -> string.
Variable JWT_SECRET : string.

(** X27: verifying a token of [generate_jwt_token] from the second of
    its ['iat'] on, before its expiry and while it is not listed, yields
    the claims of the account it was issued for. *)
Lemma token_round_trip (u : user_row) (utc_exp utc_iat : Z) (uuid : string)
    (now : Z) (w : world) :
  timegm utc_iat <= timegm now ->
  timegm now < timegm utc_exp + JWT_EXPIRATION_HOURS * 3600 ->
  truthy (value <$> live_entry now ("blacklist:" +:+ uuid) (redis w)) = false ->
  exists p,
    verify_jwt_token hs256 JWT_SECRET
      (generate_jwt_token hs256 JWT_SECRET (user_data_of_row u) utc_exp utc_iat uuid)
      now w
    = (Ok (Some p), w)
    /\ p_user_id p = py_str (id u)
    /\ p_username p = username u
    /\ p_email p = email u
    /\ p_role p = user_role u
    /\ p_exp p - p_iat p
       = JWT_EXPIRATION_HOURS * 3600 + (timegm utc_exp - timegm utc_iat).
Proof.
  intros Hiat Hexp Hlisted.
  eexists. split.
  - apply verify_jwt_token_accepts.
    + apply generated_signed.
    + exact Hiat.
    + simpl. rewrite timegm_plus_hours. lia.
    + exact Hlisted.
  - simpl. rewrite timegm_plus_hours. repeat split. lia.
Qed.

(** When both clock readings of [generate_jwt_token] fall in the same
    second the two time claims are 24 hours apart. *)
Lemma generated_lifetime_same_second ud utc_exp utc_iat uuid :
  timegm utc_exp = timegm utc_iat ->
  let p := tk_payload (generate_jwt_token hs256 JWT_SECRET ud utc_exp utc_iat uuid) in
  p_exp p - p_iat p = 24 * 3600.
Proof.
  intros H p. unfold p. rewrite generated_lifetime. unfold JWT_EXPIRATION_HOURS. lia.
Qed.

(** C5: [generate_jwt_token] reads the clock once for ['exp'] and once
    more for ['iat'].  With the first reading in the last microsecond
    of a second and the next in the following second, the issued token
    verifies and carries the account's id, username, email and role,
    but its expiry is 86399 seconds, not 24 hours, after its issue
    time. *)
Theorem token_lifetime_across_second_boundary (u : user_row) (uuid : string) (w : world) :
  let tk := generate_jwt_token hs256 JWT_SECRET (user_data_of_row u)
              999999 1000000 uuid in
  let p := tk_payload tk in
  (truthy (value <$> live_entry 1000001 ("blacklist:" +:+ uuid) (redis w)) = false ->
   verify_jwt_token hs256 JWT_SECRET tk 1000001 w = (Ok (Some p), w))
  /\ p_user_id p = py_str (id u)
  /\ p_username p = username u
  /\ p_email p = email u
  /\ p_role p = user_role u
  /\ p_exp p - p_iat p = 86399
  /\ p_exp p - p_iat p <> 24 * 3600.
Proof.
  intros tk p. split.
  - intros Hl. apply verify_jwt_token_accepts.
    + apply generated_signed.
    + vm_compute. discriminate.
    + vm_compute. reflexivity.
    + exact Hl.
  - assert (H : p_exp p - p_iat p = 86399) by (vm_compute; reflexivity).
    rewrite H. repeat split. lia.
Qed.

End TokenRoundTrip.

(** The theorem for the sample account and an empty revocation list. *)
Lemma token_lifetime_across_second_boundary_witness :
  let tk := generate_jwt_token sample_hs256 sample_secret
              (user_data_of_row (alice 0 false)) 999999 1000000 "jti-1" in
  verify_jwt_token sample_hs256 sample_secret tk 1000001 empty_world
  = (Ok (Some (tk_payload tk)), empty_world)
  /\ p_exp (tk_payload tk) - p_iat (tk_payload tk) = 86399.
Proof.
  intros tk.
  pose proof (token_lifetime_across_second_boundary sample_hs256 sample_secret
                (alice 0 false) "jti-1" empty_world) as H.
  destruct H as (Hv & _ & _ & _ & _ & Hl & _).
  split; [apply Hv; reflexivity|exact Hl].
Defined.

(** ** What the service functions leave alone *)

Lemma check_rate_limit_users identifier limit window now w :
  test_users (snd (check_rate_limit identifier limit window now w)) = test_users w.
Proof.
  unfold check_rate_limit, bind, redis_get, rate_limit_decide. simpl.
  destruct (live_entry now _ (redis w)) as [e|]; simpl.
  - destruct (py_int (value e)) as [n|]; [|reflexivity].
    destruct (n <? limit); [|reflexivity].
    unfold bind, redis_incr.
    destruct (live_entry now _ (redis w)) as [e'|]; simpl; [|reflexivity].
    destruct (redis_int (value e')); reflexivity.
  - unfold bind, redis_setex. destruct (window <=? 0); reflexivity.
Qed.

(** [generate_captcha] always stores its challenge. *)
Lemma generate_captcha_runs num1 num2 uuid now w :
  generate_captcha num1 num2 uuid now w
  = (Ok {| ch_captcha_id := uuid;
           ch_question := py_str num1 +:+ " + " +:+ py_str num2 +:+ " = ?";
           ch_expires_in := 300 |},
     set_redis (insert ("captcha:" +:+ uuid)
                  (Entry (py_str (num1 + num2)) (Some (now + 300 * us_per_second)))) w).
Proof. reflexivity. Qed.

Lemma verify_captcha_users captcha_id answer now w :
  exists b, fst (verify_captcha captcha_id answer now w) = Ok b
  /\ test_users (snd (verify_captcha captcha_id answer now w)) = test_users w.
Proof.
  destruct (verify_captcha_cases captcha_id answer now w) as [H|H]; rewrite H;
    eexists; split; reflexivity.
Qed.

(** The CAPTCHA block either lets the flow through or returns one of its
    two rejections, and never touches the account table. *)
Lemma captcha_gate_cases u captcha_id captcha_answer env w :
  exists early w',
    captcha_gate u captcha_id captcha_answer env w = (Ok early, w')
    /\ test_users w' = test_users w
    /\ match early with
       | None => True
       | Some r =>
           rs_success r = false
           /\ password_failed r = false
           /\ rs_status r = 400
           /\ (rs_error_code r = Some "CAPTCHA_REQUIRED"
               \/ rs_error_code r = Some "INVALID_CAPTCHA")
           /\ CAPTCHA_THRESHOLD <= failed_login_attempts u
       end.
Proof.
  unfold captcha_gate.
  destruct (failed_login_attempts u >=? CAPTCHA_THRESHOLD) eqn:Hth.
  - assert (Hge : CAPTCHA_THRESHOLD <= failed_login_attempts u).
    { apply Z.geb_le in Hth. lia. }
    destruct (negb (truthy captcha_id) || negb (truthy captcha_answer)).
    + unfold bind. rewrite generate_captcha_runs.
      eexists _, _. split; [reflexivity|]. split; [reflexivity|].
      repeat split; auto.
    + unfold bind at 1.
      destruct (verify_captcha_cases (default EmptyString captcha_id)
                  (default EmptyString captcha_answer) (e_now env) w) as [H|H];
        rewrite H; cbn [negb].
      * eexists _, _. split; [reflexivity|]. split; [reflexivity|exact I].
      * unfold bind, log_auth_event. rewrite generate_captcha_runs.
        eexists _, _. split; [reflexivity|]. split; [reflexivity|].
        repeat split; auto.
  - eexists _, _. split; [reflexivity|]. split; [reflexivity|exact I].
Qed.

(** ** The account table under updates *)

Lemma find_user_update name uid (f : user_row -> user_row) rows :
  (forall v, username (f v) = username v /\ email (f v) = email v) ->
  find_user name (update_rows uid f rows)
  = (fun v => if id v =? uid then f v else v) <$> find_user name rows.
Proof.
  intros Hf. unfold find_user, update_rows.
  induction rows as [|v rows IH]; [reflexivity|].
  cbn [List.map List.find].
  assert (Hsame : (String.eqb (username (if id v =? uid then f v else v)) name
                   || String.eqb (email (if id v =? uid then f v else v)) name)
                  = (String.eqb (username v) name || String.eqb (email v) name)).
  { destruct (id v =? uid); [|reflexivity]. destruct (Hf v) as [-> ->]. reflexivity. }
  rewrite Hsame.
  destruct (String.eqb (username v) name || String.eqb (email v) name);
    [reflexivity|exact IH].
Qed.

Lemma failed_row_keeps_names max_attempts now v :
  username (failed_row max_attempts now v) = username v
  /\ email (failed_row max_attempts now v) = email v.
Proof. split; reflexivity. Qed.

Lemma reset_row_keeps_names now v :
  username (reset_row now v) = username v /\ email (reset_row now v) = email v.
Proof. split; reflexivity. Qed.

(** ** Login flow *)

Section LoginProperties.

Variable hs256 : string -> jwt_payload -> string.
Variable JWT_SECRET : string.
Variable check_password_hash : string -> string -> bool.

(** The password block: a wrong password counts one more failure, a
    right one resets the account. *)
Lemma credential_check_cases u password env w :
  exists r w',
    credential_check hs256 JWT_SECRET check_password_hash u password env w = (Ok r, w')
    /\ if check_password_hash (password_hash u) password
       then rs_success r = true
            /\ password_failed r = false
            /\ rs_status r = 200
            /\ rs_error_code r = None
            /\ test_users w' = update_rows (id u) (reset_row (e_now env)) (test_users w)
       else rs_success r = false
            /\ password_failed r = true
            /\ rs_status r = 401
            /\ rs_error_code r
               = Some (if failed_login_attempts u + 1 >=? MAX_LOGIN_ATTEMPTS
                       then "ACCOUNT_LOCKED" else "INVALID_CREDENTIALS")
            /\ rs_remaining_attempts r
               = (if failed_login_attempts u + 1 >=? MAX_LOGIN_ATTEMPTS then None
                  else Some (MAX_LOGIN_ATTEMPTS - (failed_login_attempts u + 1)))
            /\ (failed_login_attempts u + 1 < MAX_LOGIN_ATTEMPTS ->
                rs_message r = "Invalid credentials")
            /\ test_users w'
               = update_rows (id u) (failed_row MAX_LOGIN_ATTEMPTS (e_now env))
                   (test_users w).
Proof.
  unfold credential_check.
  destruct (check_password_hash (password_hash u) password); cbn [negb].
  - eexists _, _. split; [reflexivity|]. repeat split.
    unfold password_failed. cbn [rs_remaining_attempts rs_message].
    destruct (two_factor_enabled u); reflexivity.
  - unfold bind, update_where_id, log_auth_event.
    destruct (failed_login_attempts u + 1 >=? MAX_LOGIN_ATTEMPTS) eqn:E;
      (eexists _, _; split; [reflexivity|]); repeat split.
    apply Z.geb_le in E. lia.
Qed.

(** The three ways a served login leaves the account table: untouched
    with a rejection that is not about the password, one more failure
    on the account found, or that account reset. *)
Lemma login_cases body env w :
  exists r w',
    login hs256 JWT_SECRET check_password_hash body env w = (Ok r, w')
    /\ ((rs_success r = false /\ password_failed r = false
         /\ test_users w' = test_users w)
        \/ (exists data u,
              body = Some data
              /\ find_user (login_name data) (test_users w) = Some u
              /\ is_active u = true /\ is_locked u = false
              /\ check_password_hash (password_hash u)
                   (default EmptyString (rq_password data)) = false
              /\ rs_success r = false /\ password_failed r = true
              /\ rs_error_code r
                 = Some (if failed_login_attempts u + 1 >=? MAX_LOGIN_ATTEMPTS
                         then "ACCOUNT_LOCKED" else "INVALID_CREDENTIALS")
              /\ test_users w'
                 = update_rows (id u) (failed_row MAX_LOGIN_ATTEMPTS (e_now env))
                     (test_users w))
        \/ (exists data u,
              body = Some data
              /\ find_user (login_name data) (test_users w) = Some u
              /\ is_active u = true /\ is_locked u = false
              /\ check_password_hash (password_hash u)
                   (default EmptyString (rq_password data)) = true
              /\ rs_success r = true /\ password_failed r = false
              /\ rs_error_code r = None
              /\ test_users w'
                 = update_rows (id u) (reset_row (e_now env)) (test_users w))).
Proof.
  unfold login, try_except, login_body.
  destruct body as [data|];
    [|eexists _, _; split; [reflexivity|left; repeat split]].
  destruct (negb (truthy (rq_username data)) || negb (truthy (rq_password data)));
    [eexists _, _; split; [reflexivity|left; repeat split]|].
  fold (login_name data). unfold bind at 1.
  pose proof (check_rate_limit_users
                (ip_address (e_client env) +:+ ":" +:+ login_name data)
                10 300 (e_now env) w) as Hrl.
  destruct (check_rate_limit _ 10 300 (e_now env) w) as [[admitted|e] w1];
    cbn [snd] in Hrl;
    [|eexists _, _; split; [reflexivity|left; repeat split; exact Hrl]].
  destruct admitted; cbn [negb];
    [|eexists _, _; split; [reflexivity|left; repeat split; exact Hrl]].
  unfold bind at 1, select_user. rewrite Hrl.
  destruct (find_user (login_name data) (test_users w)) as [u|] eqn:Hfind;
    [|eexists _, _; split; [reflexivity|left; repeat split; exact Hrl]].
  destruct (is_active u) eqn:Hactive; cbn [negb];
    [|eexists _, _; split; [reflexivity|left; repeat split; exact Hrl]].
  destruct (is_locked u) eqn:Hlocked;
    [eexists _, _; split; [reflexivity|left; repeat split; exact Hrl]|].
  unfold bind at 1.
  destruct (captcha_gate_cases u (rq_captcha_id data) (rq_captcha_answer data) env w1)
    as (early & w2 & Hgate & Hus2 & Hearly).
  rewrite Hgate.
  destruct early as [r|].
  - destruct Hearly as (Hs & Hp & _ & _ & _).
    exists r, w2. split; [reflexivity|]. left. repeat split; congruence.
  - destruct (credential_check_cases u (default EmptyString (rq_password data)) env w2)
      as (r & w3 & Hcred & Hcases).
    rewrite Hcred. exists r, w3. split; [reflexivity|].
    rewrite Hus2, Hrl in Hcases.
    destruct (check_password_hash (password_hash u)
                (default EmptyString (rq_password data))) eqn:Hpw.
    + right. right. exists data, u.
      destruct Hcases as (? & ? & ? & ? & ?). repeat split; auto.
    + right. left. exists data, u.
      destruct Hcases as (? & ? & ? & ? & ? & ? & ?). repeat split; auto.
Qed.

End LoginProperties.

Lemma update_rows_hit uid (f : user_row -> user_row) rows v :
  In v (update_rows uid f rows) -> id v = uid ->
  exists v0, In v0 rows /\ v = f v0.
Proof.
  unfold update_rows. intros Hin Hid.
  apply in_map_iff in Hin as (v0 & Hv & Hin0).
  destruct (id v0 =? uid) eqn:E.
  - exists v0. now split.
  - subst v. apply Z.eqb_neq in E. contradiction.
Qed.

Section LoginClaims.

Variable hs256 : string -> jwt_payload -> string.
Variable JWT_SECRET : string.
Variable check_password_hash : string -> string -> bool.

(** C10: a login that ends in CAPTCHA_REQUIRED or INVALID_CAPTCHA
    leaves the whole account table as it was, so neither the failure
    counter nor the lock flag of the account moves; and a rejected
    login that did change the table went through a failed password
    check, which counted one more failure on the account it found. *)
Theorem captcha_rejection_keeps_account
    (body : option login_request) (env : request_env) (w : world) (r : response) :
  fst (login hs256 JWT_SECRET check_password_hash body env w) = Ok r ->
  let w' := snd (login hs256 JWT_SECRET check_password_hash body env w) in
  ((rs_error_code r = Some "CAPTCHA_REQUIRED"
    \/ rs_error_code r = Some "INVALID_CAPTCHA") ->
   test_users w' = test_users w)
  /\ (rs_success r = false ->
      test_users w' <> test_users w ->
      password_failed r = true
      /\ exists data u,
           body = Some data
           /\ find_user (login_name data) (test_users w) = Some u
           /\ check_password_hash (password_hash u)
                (default EmptyString (rq_password data)) = false
           /\ test_users w'
              = update_rows (id u) (failed_row MAX_LOGIN_ATTEMPTS (e_now env))
                  (test_users w)).
Proof.
  intros Hr w'. subst w'.
  destruct (login_cases hs256 JWT_SECRET check_password_hash body env w)
    as (r0 & w0 & Hlogin & Hcases).
  rewrite Hlogin in *. cbn [fst snd] in *. injection Hr as ->.
  destruct Hcases as [(Hs & Hp & Hus)
                     |[(data & u & Hb & Hf & Ha & Hl & Hpw & Hs & Hp & Hcode & Hus)
                      |(data & u & Hb & Hf & Ha & Hl & Hpw & Hs & Hp & Hcode & Hus)]].
  - split; [intros _; exact Hus|]. intros _ Hne. contradiction.
  - split.
    + intros [Hc|Hc]; rewrite Hcode in Hc;
        destruct (failed_login_attempts u + 1 >=? MAX_LOGIN_ATTEMPTS);
        discriminate Hc.
    + intros _ _. split; [exact Hp|]. exists data, u. repeat split; assumption.
  - split.
    + intros [Hc|Hc]; rewrite Hcode in Hc; discriminate Hc.
    + intros Hs'. rewrite Hs in Hs'. discriminate Hs'.
Qed.

(** C8: whatever the account table held before, a login that succeeds
    has reset the account it found: the table afterwards is the old one
    with that account's rows reset, the account is found again with
    [failed_login_attempts = 0] and [is_locked = false], and so is every
    row that carries its id. *)
Theorem successful_login_resets_account
    (body : option login_request) (env : request_env) (w : world) (r : response) :
  fst (login hs256 JWT_SECRET check_password_hash body env w) = Ok r ->
  rs_success r = true ->
  let w' := snd (login hs256 JWT_SECRET check_password_hash body env w) in
  exists data u u',
    body = Some data
    /\ find_user (login_name data) (test_users w) = Some u
    /\ test_users w' = update_rows (id u) (reset_row (e_now env)) (test_users w)
    /\ find_user (login_name data) (test_users w') = Some u'
    /\ id u' = id u
    /\ failed_login_attempts u' = 0
    /\ is_locked u' = false
    /\ (forall v, In v (test_users w') -> id v = id u ->
                  failed_login_attempts v = 0 /\ is_locked v = false).
Proof.
  intros Hr Hsucc w'. subst w'.
  destruct (login_cases hs256 JWT_SECRET check_password_hash body env w)
    as (r0 & w0 & Hlogin & Hcases).
  rewrite Hlogin in *. cbn [fst snd] in *. injection Hr as ->.
  destruct Hcases as [(Hs & _)
                     |[(data & u & _ & _ & _ & _ & _ & Hs & _)
                      |(data & u & Hb & Hf & Ha & Hl & Hpw & Hs & Hp & Hcode & Hus)]];
    try (rewrite Hs in Hsucc; discriminate Hsucc).
  exists data, u, (reset_row (e_now env) u).
  repeat split; try assumption.
  - rewrite Hus, find_user_update by apply reset_row_keeps_names.
    rewrite Hf. cbn [fmap option_fmap option_map]. now rewrite Z.eqb_refl.
  - rewrite Hus in H. destruct (update_rows_hit _ _ _ _ H H0) as (v0 & _ & ->).
    reflexivity.
  - rewrite Hus in H. destruct (update_rows_hit _ _ _ _ H H0) as (v0 & _ & ->).
    reflexivity.
Qed.

End LoginClaims.

(** ** The row found when one account answers to the name *)

(** The row found is the same in whatever order the table is scanned. *)
Lemma find_user_any_order name rows rows' :
  one_account name rows -> Permutation rows rows' ->
  find_user name rows' = find_user name rows.
Proof.
  intros Hone Hperm. unfold find_user.
  fold (answers_to name).
  destruct (List.find (answers_to name) rows) as [v|] eqn:Hv.
  - apply List.find_some in Hv as [Hin Hans].
    destruct (List.find (answers_to name) rows') as [v'|] eqn:Hv'.
    + apply List.find_some in Hv' as [Hin' Hans']. f_equal.
      apply Hone; auto. eapply Permutation_in; [symmetry; exact Hperm|exact Hin'].
    + eapply List.find_none in Hv'; [|eapply Permutation_in; eauto]. congruence.
  - destruct (List.find (answers_to name) rows') as [v'|] eqn:Hv'; [|reflexivity].
    apply List.find_some in Hv' as [Hin' Hans'].
    eapply List.find_none in Hv; [|eapply Permutation_in; [symmetry; eauto|eauto]].
    congruence.
Qed.

(** An UPDATE that keeps the names keeps the account alone. *)
Lemma one_account_update_rows name uid (f : user_row -> user_row) rows :
  (forall v, username (f v) = username v /\ email (f v) = email v) ->
  one_account name rows -> one_account name (update_rows uid f rows).
Proof.
  intros Hf Hone v v' Hin Hin' Hans Hans'.
  unfold update_rows in Hin, Hin'.
  apply in_map_iff in Hin as (v0 & <- & Hin0).
  apply in_map_iff in Hin' as (v0' & <- & Hin0').
  assert (Hsame : forall x,
             answers_to name (if id x =? uid then f x else x) = answers_to name x).
  { intros x. destruct (id x =? uid); [|reflexivity].
    unfold answers_to. destruct (Hf x) as [-> ->]. reflexivity. }
  rewrite Hsame in Hans, Hans'.
  now rewrite (Hone v0 v0' Hin0 Hin0' Hans Hans').
Qed.

Section LockoutClaims.

Variable hs256 : string -> jwt_payload -> string.
Variable JWT_SECRET : string.
Variable check_password_hash : string -> string -> bool.

(** Failed password logins against one account, counted from any state
    in which the lock flag agrees with the counter. *)
Lemma failed_logins_counted name calls :
  forall (w : world) (u : user_row),
    one_account name (test_users w) ->
    find_user name (test_users w) = Some u ->
    is_locked u = (failed_login_attempts u >=? MAX_LOGIN_ATTEMPTS) ->
    Forall (targets name) calls ->
    Forall failed_password_login
      (fst (logins hs256 JWT_SECRET check_password_hash calls w)) ->
    exists u',
      find_user name
        (test_users (snd (logins hs256 JWT_SECRET check_password_hash calls w)))
      = Some u'
      /\ id u' = id u
      /\ failed_login_attempts u'
         = failed_login_attempts u + Z.of_nat (length calls)
      /\ is_locked u' = (failed_login_attempts u' >=? MAX_LOGIN_ATTEMPTS)
      /\ (calls <> [] -> failed_login_attempts u' <= MAX_LOGIN_ATTEMPTS)
      /\ one_account name
           (test_users (snd (logins hs256 JWT_SECRET check_password_hash calls w))).
Proof.
  induction calls as [|[body env] rest IH];
    intros w u Hone Hfind Hinv Htargets Hfailed.
  - exists u. cbn [logins snd length]. repeat split; auto; try lia.
    intros H. contradiction.
  - cbn [logins] in *.
    destruct (login_cases hs256 JWT_SECRET check_password_hash body env w)
      as (r & w1 & Hlogin & Hcases).
    rewrite Hlogin in *.
    destruct (logins hs256 JWT_SECRET check_password_hash rest w1) as [rs w2] eqn:Hrest.
    cbn [fst snd] in *.
    inversion Htargets as [|? ? (data0 & Hbody0 & Hname0) Htargets']; subst.
    inversion Hfailed as [|? ? (resp & Hresp & Hpf) Hfailed']; subst.
    injection Hresp as <-.
    destruct Hcases as [(_ & Hp & _)
                       |[(data & u0 & Hb & Hf & Ha & Hl & Hpw & Hs & Hp & Hcode & Hus)
                        |(data & u0 & _ & _ & _ & _ & _ & _ & Hp & _)]];
      try (rewrite Hp in Hpf; discriminate Hpf).
    cbn [fst] in Hbody0. rewrite Hb in Hbody0. injection Hbody0 as <-.
    rewrite Hf in Hfind. injection Hfind as ->.
    set (u1 := failed_row MAX_LOGIN_ATTEMPTS (e_now env) u).
    assert (Hfind1 : find_user (login_name data) (test_users w1) = Some u1).
    { rewrite Hus, find_user_update by apply failed_row_keeps_names.
      rewrite Hf. cbn [fmap option_fmap option_map]. now rewrite Z.eqb_refl. }
    assert (Hbelow : failed_login_attempts u < MAX_LOGIN_ATTEMPTS).
    { rewrite Hl in Hinv. symmetry in Hinv.
      destruct (failed_login_attempts u >=? MAX_LOGIN_ATTEMPTS) eqn:E;
        [discriminate Hinv|].
      rewrite Z.geb_leb in E. apply Z.leb_gt in E. exact E. }
    assert (Hone1 : one_account (login_name data) (test_users w1)).
    { rewrite Hus. apply one_account_update_rows; [|exact Hone].
      intros v. apply failed_row_keeps_names. }
    destruct (IH w1 u1 Hone1 Hfind1 eq_refl Htargets')
      as (u' & Hf' & Hid & Hcount & Hinv' & Hmax & Hone').
    { rewrite Hrest. exact Hfailed'. }
    rewrite Hrest in Hf', Hone'. cbn [snd] in Hf', Hone'.
    exists u'. repeat split; auto.
    + rewrite Hcount. unfold u1. cbn [failed_login_attempts failed_row length].
      rewrite Nat2Z.inj_succ. lia.
    + intros _. destruct rest as [|c rest'].
      * rewrite Hcount. unfold u1. cbn [failed_login_attempts failed_row length]. lia.
      * apply Hmax. discriminate.
Qed.

(** C1: from an account with no failed attempt and no lock, the only
    one that answers to its name, N requests for that name served one
    after the other, each ending in a failed password check, leave the
    account with [failed_login_attempts = N]; it is unlocked while N < 5
    and locked at N = 5, and no sixth such request exists.  The account
    is still the only one of its name, so it is the row found in
    whatever order the table is scanned. *)
Theorem consecutive_failures_lock_at_five
    (name : string) (calls : list (option login_request * request_env))
    (w : world) (u : user_row) :
  one_account name (test_users w) ->
  find_user name (test_users w) = Some u ->
  failed_login_attempts u = 0 ->
  is_locked u = false ->
  Forall (targets name) calls ->
  Forall failed_password_login
    (fst (logins hs256 JWT_SECRET check_password_hash calls w)) ->
  let N := Z.of_nat (length calls) in
  exists u',
    find_user name
      (test_users (snd (logins hs256 JWT_SECRET check_password_hash calls w)))
    = Some u'
    /\ id u' = id u
    /\ failed_login_attempts u' = N
    /\ (N < MAX_LOGIN_ATTEMPTS -> is_locked u' = false)
    /\ (N = MAX_LOGIN_ATTEMPTS -> is_locked u' = true)
    /\ N <= MAX_LOGIN_ATTEMPTS
    /\ forall rows',
         Permutation
           (test_users (snd (logins hs256 JWT_SECRET check_password_hash calls w)))
           rows' ->
         find_user name rows' = Some u'.
Proof.
  intros Hone Hfind Hzero Hunlocked Htargets Hfailed N.
  destruct (failed_logins_counted name calls w u)
    as (u' & Hf' & Hid & Hcount & Hinv & Hmax & Hone'); auto.
  { rewrite Hzero, Hunlocked. reflexivity. }
  rewrite Hzero, Z.add_0_l in Hcount. fold N in Hcount.
  exists u'. repeat split; auto.
  - intros HN. rewrite Hinv, Hcount, Z.geb_leb. apply Z.leb_gt. exact HN.
  - intros HN. rewrite Hinv, Hcount, HN. reflexivity.
  - destruct calls as [|c rest].
    + subst N. cbn [length]. unfold MAX_LOGIN_ATTEMPTS. lia.
    + rewrite <- Hcount. apply Hmax. discriminate.
  - intros rows' Hperm. rewrite <- Hf'. now apply find_user_any_order.
Qed.

End LockoutClaims.

(** Below the CAPTCHA threshold the gate lets every request through. *)
Lemma captcha_gate_below_threshold u captcha_id captcha_answer env w :
  failed_login_attempts u < CAPTCHA_THRESHOLD ->
  captcha_gate u captcha_id captcha_answer env w = (Ok None, w).
Proof.
  intros H. unfold captcha_gate.
  destruct (failed_login_attempts u >=? CAPTCHA_THRESHOLD) eqn:E; [|reflexivity].
  apply Z.geb_le in E. lia.
Qed.

Section CredentialClaims.

Variable hs256 : string -> jwt_payload -> string.
Variable JWT_SECRET : string.
Variable check_password_hash : string -> string -> bool.

Lemma login_unknown_user data env w w1 :
  has_credentials data = true ->
  check_rate_limit (login_client_id data env) 10 300 (e_now env) w = (Ok true, w1) ->
  find_user (login_name data) (test_users w) = None ->
  fst (login hs256 JWT_SECRET check_password_hash (Some data) env w)
  = Ok (rejection 401 "Invalid credentials" "INVALID_CREDENTIALS").
Proof.
  unfold has_credentials, login_client_id. intros Hcred Hrl Hfind.
  pose proof (check_rate_limit_users (login_client_id data env) 10 300 (e_now env) w) as Hus.
  unfold login_client_id in Hus. rewrite Hrl in Hus. cbn [snd] in Hus.
  unfold login, try_except, login_body. fold (login_name data).
  apply andb_true_iff in Hcred as [-> ->]. cbn [negb orb].
  unfold bind at 1. rewrite Hrl. cbn [negb].
  unfold bind at 1, select_user. rewrite Hus, Hfind. reflexivity.
Qed.

Lemma login_wrong_password data env w w1 w2 u :
  has_credentials data = true ->
  check_rate_limit (login_client_id data env) 10 300 (e_now env) w = (Ok true, w1) ->
  find_user (login_name data) (test_users w) = Some u ->
  is_active u = true ->
  is_locked u = false ->
  captcha_gate u (rq_captcha_id data) (rq_captcha_answer data) env w1 = (Ok None, w2) ->
  check_password_hash (password_hash u) (default EmptyString (rq_password data)) = false ->
  fst (login hs256 JWT_SECRET check_password_hash (Some data) env w)
  = Ok (if failed_login_attempts u + 1 >=? MAX_LOGIN_ATTEMPTS
        then rejection 401 "Account locked due to too many failed attempts"
               "ACCOUNT_LOCKED"
        else {| rs_status := 401; rs_success := false;
                rs_message := "Invalid credentials";
                rs_error_code := Some "INVALID_CREDENTIALS";
                rs_unlock_time := None; rs_captcha := None;
                rs_remaining_attempts :=
                  Some (MAX_LOGIN_ATTEMPTS - (failed_login_attempts u + 1));
                rs_token := None; rs_session_id := None; rs_user := None;
                rs_expires_in := None; rs_requires_2fa := None |}).
Proof.
  unfold has_credentials, login_client_id.
  intros Hcred Hrl Hfind Hactive Hlocked Hgate Hpw.
  pose proof (check_rate_limit_users (login_client_id data env) 10 300 (e_now env) w) as Hus.
  unfold login_client_id in Hus. rewrite Hrl in Hus. cbn [snd] in Hus.
  unfold login, try_except, login_body. fold (login_name data).
  apply andb_true_iff in Hcred as [-> ->]. cbn [negb orb].
  unfold bind at 1. rewrite Hrl. cbn [negb].
  unfold bind at 1, select_user. rewrite Hus, Hfind, Hactive, Hlocked. cbn [negb].
  unfold bind at 1. rewrite Hgate.
  unfold credential_check. rewrite Hpw. cbn [negb].
  unfold bind, update_where_id, log_auth_event.
  destruct (failed_login_attempts u + 1 >=? MAX_LOGIN_ATTEMPTS); reflexivity.
Qed.

(** C7 (amended): when the rate limiter admits both requests, a login
    for a name no account has and a login with a wrong password for an
    existing, active, unlocked account that the CAPTCHA gate lets
    through and whose failure is not the fifth are both answered with
    status 401, the message "Invalid credentials" and the error code
    INVALID_CREDENTIALS; the wrong-password answer also carries
    [remaining_attempts], which the other one does not. *)
Theorem unknown_user_and_wrong_password_collapse
    (data_a data_b : login_request) (env_a env_b : request_env)
    (w_a w_a1 w_b w_b1 w_b2 : world) (u : user_row) :
  has_credentials data_a = true ->
  check_rate_limit (login_client_id data_a env_a) 10 300 (e_now env_a) w_a
  = (Ok true, w_a1) ->
  find_user (login_name data_a) (test_users w_a) = None ->
  has_credentials data_b = true ->
  check_rate_limit (login_client_id data_b env_b) 10 300 (e_now env_b) w_b
  = (Ok true, w_b1) ->
  find_user (login_name data_b) (test_users w_b) = Some u ->
  is_active u = true ->
  is_locked u = false ->
  captcha_gate u (rq_captcha_id data_b) (rq_captcha_answer data_b) env_b w_b1
  = (Ok None, w_b2) ->
  check_password_hash (password_hash u) (default EmptyString (rq_password data_b))
  = false ->
  failed_login_attempts u + 1 < MAX_LOGIN_ATTEMPTS ->
  let unknown := fst (login hs256 JWT_SECRET check_password_hash (Some data_a) env_a w_a) in
  let wrong := fst (login hs256 JWT_SECRET check_password_hash (Some data_b) env_b w_b) in
  collapse_to_invalid_credentials unknown wrong
  /\ exists a b,
       unknown = Ok a /\ wrong = Ok b
       /\ rs_status a = 401 /\ rs_status b = 401
       /\ rs_message a = "Invalid credentials"
       /\ rs_message b = "Invalid credentials"
       /\ rs_remaining_attempts a = None
       /\ rs_remaining_attempts b
          = Some (MAX_LOGIN_ATTEMPTS - (failed_login_attempts u + 1)).
Proof.
  intros Ha Hrla Hfa Hb Hrlb Hfb Hact Hlock Hgate Hpw Hbelow unknown wrong.
  subst unknown wrong.
  rewrite (login_unknown_user data_a env_a w_a w_a1 Ha Hrla Hfa).
  rewrite (login_wrong_password data_b env_b w_b w_b1 w_b2 u Hb Hrlb Hfb Hact Hlock Hgate Hpw).
  destruct (failed_login_attempts u + 1 >=? MAX_LOGIN_ATTEMPTS) eqn:E;
    [apply Z.geb_le in E; lia|].
  split.
  - eexists _, _. repeat split.
  - eexists _, _. repeat split.
Qed.

End CredentialClaims.

(** ** The claims on the sample account *)

(** C1 on five wrong passwords for alice. *)
Lemma consecutive_failures_lock_at_five_witness :
  let N := Z.of_nat (length five_failures) in
  exists u',
    find_user "alice"
      (test_users
         (snd (logins sample_hs256 sample_secret sample_check_password_hash
                 five_failures (alice_world 0 false))))
    = Some u'
    /\ id u' = id (alice 0 false)
    /\ failed_login_attempts u' = N
    /\ (N < MAX_LOGIN_ATTEMPTS -> is_locked u' = false)
    /\ (N = MAX_LOGIN_ATTEMPTS -> is_locked u' = true)
    /\ N <= MAX_LOGIN_ATTEMPTS
    /\ forall rows',
         Permutation
           (test_users
              (snd (logins sample_hs256 sample_secret sample_check_password_hash
                      five_failures (alice_world 0 false))))
           rows' ->
         find_user "alice" rows' = Some u'.
Proof.
  apply (consecutive_failures_lock_at_five sample_hs256 sample_secret
           sample_check_password_hash "alice" five_failures
           (alice_world 0 false) (alice 0 false)).
  - intros v v' [<-|[]] [<-|[]] _ _. reflexivity.
  - reflexivity.
  - reflexivity.
  - reflexivity.
  - repeat (constructor; [eexists; split; reflexivity|]). constructor.
  - vm_compute. repeat (constructor; [eexists; split; reflexivity|]). constructor.
Defined.

(** After three failures the account is still unlocked. *)
Example three_failures_leave_unlocked :
  test_users
    (snd (logins sample_hs256 sample_secret sample_check_password_hash
            (take 3 five_failures) (alice_world 0 false)))
  = [failed_row 5 3 (failed_row 5 2 (failed_row 5 1 (alice 0 false)))]
  /\ is_locked (failed_row 5 3 (failed_row 5 2 (failed_row 5 1 (alice 0 false)))) = false
  /\ failed_login_attempts (failed_row 5 3 (failed_row 5 2 (failed_row 5 1 (alice 0 false)))) = 3.
Proof. vm_compute. repeat split. Qed.

(** C8 on a right password after two failures. *)
Lemma successful_login_resets_account_witness :
  let w' := snd (login sample_hs256 sample_secret sample_check_password_hash
                   (sample_request "correct horse" None) (sample_env 4)
                   (alice_world 2 false)) in
  exists data u u',
    sample_request "correct horse" None = Some data
    /\ find_user (login_name data) (test_users (alice_world 2 false)) = Some u
    /\ test_users w'
       = update_rows (id u) (reset_row (e_now (sample_env 4)))
           (test_users (alice_world 2 false))
    /\ find_user (login_name data) (test_users w') = Some u'
    /\ id u' = id u
    /\ failed_login_attempts u' = 0
    /\ is_locked u' = false
    /\ (forall v, In v (test_users w') -> id v = id u ->
                  failed_login_attempts v = 0 /\ is_locked v = false).
Proof.
  eapply (successful_login_resets_account sample_hs256 sample_secret
            sample_check_password_hash (sample_request "correct horse" None)
            (sample_env 4) (alice_world 2 false)).
  - vm_compute. reflexivity.
  - reflexivity.
Defined.

(** C10 on a request without a CAPTCHA answer at three failures. *)
Lemma captcha_rejection_keeps_account_witness :
  test_users
    (snd (login sample_hs256 sample_secret sample_check_password_hash
            (sample_request "wrong" None) (sample_env 4) (alice_world 3 false)))
  = test_users (alice_world 3 false).
Proof.
  refine (proj1 (captcha_rejection_keeps_account sample_hs256 sample_secret
                   sample_check_password_hash (sample_request "wrong" None)
                   (sample_env 4) (alice_world 3 false) _ _) _).
  - vm_compute. reflexivity.
  - left. reflexivity.
Defined.

(** A wrong CAPTCHA answer is rejected the same way. *)
Example wrong_captcha_keeps_account :
  let '(r, w') := login sample_hs256 sample_secret sample_check_password_hash
                    (sample_request "wrong" (Some ("c1", "8"))) (sample_env 4)
                    (alice_world 3 false) in
  rs_error_code <$> (match r with Ok a => Some a | Raise _ => None end)
  = Some (Some "INVALID_CAPTCHA")
  /\ test_users w' = test_users (alice_world 3 false).
Proof. vm_compute. split; reflexivity. Qed.

(** C7 on a login for bob and a wrong password for alice. *)
Lemma unknown_user_and_wrong_password_collapse_witness :
  let unknown := fst (login sample_hs256 sample_secret sample_check_password_hash
                        unknown_request (sample_env 4) (alice_world 0 false)) in
  let wrong := fst (login sample_hs256 sample_secret sample_check_password_hash
                      (sample_request "wrong" None) (sample_env 4)
                      (alice_world 0 false)) in
  collapse_to_invalid_credentials unknown wrong
  /\ exists a b,
       unknown = Ok a /\ wrong = Ok b
       /\ rs_status a = 401 /\ rs_status b = 401
       /\ rs_message a = "Invalid credentials"
       /\ rs_message b = "Invalid credentials"
       /\ rs_remaining_attempts a = None
       /\ rs_remaining_attempts b
          = Some (MAX_LOGIN_ATTEMPTS - (failed_login_attempts (alice 0 false) + 1)).
Proof.
  eapply (unknown_user_and_wrong_password_collapse sample_hs256 sample_secret
            sample_check_password_hash _ _ (sample_env 4) (sample_env 4)
            (alice_world 0 false) _ (alice_world 0 false) _ _ (alice 0 false)).
  - reflexivity.
  - vm_compute. reflexivity.
  - reflexivity.
  - reflexivity.
  - vm_compute. reflexivity.
  - reflexivity.
  - reflexivity.
  - reflexivity.
  - apply captcha_gate_below_threshold. vm_compute. reflexivity.
  - reflexivity.
  - vm_compute. reflexivity.
Defined.

(** C7 as worded fails at the fifth failure: alice exists, is active and
    unlocked, the CAPTCHA is answered and the password is wrong, yet the
    answer is ACCOUNT_LOCKED while the unknown name gets
    INVALID_CREDENTIALS. *)
Lemma fifth_failure_is_not_invalid_credentials :
  find_user "alice" (test_users (alice_world 4 false)) = Some (alice 4 false)
  /\ is_active (alice 4 false) = true
  /\ is_locked (alice 4 false) = false
  /\ sample_check_password_hash (password_hash (alice 4 false)) "wrong" = false
  /\ ~ collapse_to_invalid_credentials
         (fst (login sample_hs256 sample_secret sample_check_password_hash
                 unknown_request (sample_env 4) (alice_world 4 false)))
         (fst (login sample_hs256 sample_secret sample_check_password_hash
                 (sample_request "wrong" (Some ("c1", "7"))) (sample_env 4)
                 (alice_world 4 false))).
Proof.
  repeat split.
  intros (a & b & _ & Hb & _ & Hcode).
  vm_compute in Hb. injection Hb as <-. discriminate Hcode.
Qed.

(** Below the threshold the two answers share the error code but not
    the body. *)
Example wrong_password_reveals_remaining_attempts :
  fst (login sample_hs256 sample_secret sample_check_password_hash
         unknown_request (sample_env 4) (alice_world 0 false))
  <> fst (login sample_hs256 sample_secret sample_check_password_hash
            (sample_request "wrong" None) (sample_env 4) (alice_world 0 false)).
Proof. vm_compute. discriminate. Qed.

(** * Further properties of the service *)

(** The statements below are about the view functions and the methods of
    [AuthenticationService] as app.py writes them.  The per-route limits
    that Flask-Limiter enforces in front of [login], [biometric_auth] and
    [password_reset], with counters of its own, are library code and not
    part of the model: the answer of a view function is the answer it
    gives once it is called. *)

(** ** Keys of the ephemeral store *)

Lemma key_inj (prefix a b : string) : prefix +:+ a = prefix +:+ b -> a = b.
Proof.
  induction prefix as [|c prefix IH]; simpl; intros H; [exact H|].
  injection H as H. now apply IH.
Qed.

Lemma check_rate_limit_redis identifier limit window now w :
  redis (snd (check_rate_limit identifier limit window now w)) = redis w
  \/ exists e,
       redis (snd (check_rate_limit identifier limit window now w))
       = <["rate_limit:" +:+ identifier := e]> (redis w).
Proof.
  unfold check_rate_limit, bind, redis_get, rate_limit_decide. simpl.
  destruct (live_entry now _ (redis w)) as [e|]; simpl.
  - destruct (py_int (value e)) as [n|]; [|now left].
    destruct (n <? limit); [|now left].
    unfold bind, redis_incr.
    destruct (live_entry now _ (redis w)) as [e'|]; simpl.
    + destruct (redis_int (value e')); [right; eexists; reflexivity|now left].
    + right. eexists. reflexivity.
  - unfold bind, redis_setex. destruct (window <=? 0); [now left|].
    right. eexists. reflexivity.
Qed.

Lemma check_rate_limit_events identifier limit window now w :
  auth_events_log (snd (check_rate_limit identifier limit window now w))
  = auth_events_log w.
Proof.
  unfold check_rate_limit, bind, redis_get, rate_limit_decide. simpl.
  destruct (live_entry now _ (redis w)) as [e|]; simpl.
  - destruct (py_int (value e)) as [n|]; [|reflexivity].
    destruct (n <? limit); [|reflexivity].
    unfold bind, redis_incr.
    destruct (live_entry now _ (redis w)) as [e'|]; simpl; [|reflexivity].
    destruct (redis_int (value e')); reflexivity.
  - unfold bind, redis_setex. destruct (window <=? 0); reflexivity.
Qed.

(** The answer of [check_rate_limit] depends on the store only through
    the identifier's own key. *)
Lemma check_rate_limit_reads_own_key identifier limit window now w1 w2 :
  redis w1 !! ("rate_limit:" +:+ identifier) = redis w2 !! ("rate_limit:" +:+ identifier) ->
  fst (check_rate_limit identifier limit window now w1)
  = fst (check_rate_limit identifier limit window now w2).
Proof.
  intros H.
  assert (Hlive : live_entry now ("rate_limit:" +:+ identifier) (redis w1)
                  = live_entry now ("rate_limit:" +:+ identifier) (redis w2)).
  { unfold live_entry. now rewrite H. }
  unfold check_rate_limit, bind, redis_get, rate_limit_decide. rewrite Hlive.
  destruct (live_entry now _ (redis w2)) as [e|] eqn:E; cbn [fmap option_fmap option_map].
  - destruct (py_int (value e)) as [n|]; [|reflexivity].
    destruct (n <? limit); [|reflexivity].
    unfold bind, redis_incr. rewrite Hlive, E.
    destruct (redis_int (value e)); reflexivity.
  - unfold bind, redis_setex. destruct (window <=? 0); reflexivity.
Qed.

(** X1: the counters of two different identifiers do not interact: a
    call for [a] leaves the key of [b] as it was, and the answer to a
    following call for [b] is the one [b] would have got without it. *)
Theorem rate_limit_identifiers_independent
    (a b : string) (limit_a window_a now_a limit_b window_b now_b : Z) (w : world) :
  a <> b ->
  let w' := snd (check_rate_limit a limit_a window_a now_a w) in
  redis w' !! ("rate_limit:" +:+ b) = redis w !! ("rate_limit:" +:+ b)
  /\ fst (check_rate_limit b limit_b window_b now_b w')
     = fst (check_rate_limit b limit_b window_b now_b w).
Proof.
  intros Hab w'.
  assert (Hkey : redis w' !! ("rate_limit:" +:+ b) = redis w !! ("rate_limit:" +:+ b)).
  { subst w'.
    destruct (check_rate_limit_redis a limit_a window_a now_a w) as [->|[e ->]];
      [reflexivity|].
    apply lookup_insert_ne. intros H. apply key_inj in H. contradiction. }
  split; [exact Hkey|].
  now apply check_rate_limit_reads_own_key.
Qed.

(** The theorem for two clients of the same account. *)
Lemma rate_limit_identifiers_independent_witness :
  let w' := snd (check_rate_limit "10.0.0.9:alice" 1 300 0 empty_world) in
  redis w' !! ("rate_limit:" +:+ "10.0.0.8:alice")
  = redis empty_world !! ("rate_limit:" +:+ "10.0.0.8:alice")
  /\ fst (check_rate_limit "10.0.0.8:alice" 1 300 1 w')
     = fst (check_rate_limit "10.0.0.8:alice" 1 300 1 empty_world).
Proof.
  apply (rate_limit_identifiers_independent "10.0.0.9:alice" "10.0.0.8:alice"
           1 300 0 1 300 1 empty_world).
  discriminate.
Defined.

Lemma check_rate_limit_calls_app identifier limit window times1 :
  forall times2 w,
    check_rate_limit_calls identifier limit window ((times1 ++ times2)%list) w
    = let '(rs1, w1) := check_rate_limit_calls identifier limit window times1 w in
      let '(rs2, w2) := check_rate_limit_calls identifier limit window times2 w1 in
      ((rs1 ++ rs2)%list, w2).
Proof.
  induction times1 as [|t times1 IH]; intros times2 w.
  - cbn [app check_rate_limit_calls].
    now destruct (check_rate_limit_calls identifier limit window times2 w).
  - cbn [app check_rate_limit_calls].
    destruct (check_rate_limit identifier limit window t w) as [r w0].
    rewrite IH.
    destruct (check_rate_limit_calls identifier limit window times1 w0) as [rs1 w1].
    now destruct (check_rate_limit_calls identifier limit window times2 w1).
Qed.

(** X2: when the window has elapsed the admissions start again from
    zero: the first call at or after the expiry of the counter is
    admitted however many calls the old window saw, it creates a new
    counter with a new expiry, and the new window again admits exactly
    its first [limit] calls. *)
Theorem rate_limit_resumes_after_window
    (identifier : string) (limit window t0 t1 : Z) (later0 later1 : list Z) (w : world) :
  1 <= limit ->
  0 < window ->
  live_entry t0 ("rate_limit:" +:+ identifier) (redis w) = None ->
  Forall (fun t => t < t0 + window * us_per_second) later0 ->
  t0 + window * us_per_second <= t1 ->
  Forall (fun t => t < t1 + window * us_per_second) later1 ->
  exists rs0 rs1 w',
    check_rate_limit_calls identifier limit window
      ((t0 :: later0) ++ t1 :: later1)%list w
    = ((rs0 ++ rs1)%list, w')
    /\ length rs0 = S (length later0)
    /\ length rs1 = S (length later1)
    /\ admits_first limit rs0
    /\ admits_first limit rs1
    /\ redis w' !! ("rate_limit:" +:+ identifier)
       = Some (Entry (py_str (Z.min (Z.of_nat (S (length later1))) limit))
                 (Some (t1 + window * us_per_second))).
Proof.
  intros Hlimit Hwindow Hfresh Hlater0 Ht1 Hlater1.
  destruct (check_rate_limit_calls_window identifier limit window t0 later0 w)
    as (rs0 & w0 & Hrun0 & Hlen0 & Hadm0 & Hred0 & _); auto.
  destruct (check_rate_limit_calls_window identifier limit window t1 later1 w0)
    as (rs1 & w1 & Hrun1 & Hlen1 & Hadm1 & Hred1 & _); auto.
  { rewrite Hred0, live_entry_insert_eq. unfold live. cbn [expire_at].
    destruct (t1 <? t0 + window * us_per_second) eqn:E; [|reflexivity].
    apply Z.ltb_lt in E. lia. }
  exists rs0, rs1, w1.
  rewrite check_rate_limit_calls_app, Hrun0, Hrun1.
  repeat split; auto.
  rewrite Hred1. apply lookup_insert_eq.
Qed.

(** The theorem for limit 2: three calls in the first five minutes, two
    in the next. *)
Lemma rate_limit_resumes_after_window_witness :
  exists rs0 rs1 w',
    check_rate_limit_calls "10.0.0.9:alice" 2 300
      (([0; 1; 2] ++ [300000000; 300000001])%list) empty_world
    = ((rs0 ++ rs1)%list, w')
    /\ length rs0 = 3%nat
    /\ length rs1 = 2%nat
    /\ admits_first 2 rs0
    /\ admits_first 2 rs1
    /\ redis w' !! ("rate_limit:" +:+ "10.0.0.9:alice")
       = Some (Entry (py_str (Z.min (Z.of_nat 2) 2))
                 (Some (300000000 + 300 * us_per_second))).
Proof.
  apply (rate_limit_resumes_after_window "10.0.0.9:alice" 2 300 0 300000000
           [1; 2] [300000001] empty_world).
  - lia.
  - lia.
  - reflexivity.
  - repeat constructor.
  - vm_compute. discriminate.
  - repeat constructor.
Defined.

Ltac settle_raise :=
  intros;
  repeat match goal with
         | H : _ /\ _ |- _ => destruct H
         | H : exists _, _ |- _ => destruct H
         end;
  simplify_eq; try reflexivity; try lia; try congruence; eauto.

(** X3: when [check_rate_limit] raises.  Whenever it raises it has
    written nothing.  It raises a [ValueError] exactly when the live
    counter is a text that [int()] does not read.  It raises the store's
    error when there is no live counter and the window is not positive
    (SETEX refuses the expiry), and when the counter is a text that
    [int()] reads as a number below the limit but that the store does not
    take for an integer, such as ['05'], ['+5'] or [' 5']: the INCR
    refuses it.  A counter that [int()] reads as the limit or more is
    answered [False], whatever its spelling. *)
Theorem check_rate_limit_raises
    (identifier : string) (limit window now : Z) (w : world) :
  let current := live_entry now ("rate_limit:" +:+ identifier) (redis w) in
  let call := check_rate_limit identifier limit window now w in
  (forall e w', call = (Raise e, w') -> w' = w)
  /\ (forall w',
        call = (Raise ValueError, w')
        <-> w' = w /\ exists en, current = Some en /\ py_int (value en) = None)
  /\ (current = None -> window <= 0 -> call = (Raise ResponseError, w))
  /\ (forall en n,
        current = Some en -> py_int (value en) = Some n -> n < limit ->
        redis_int (value en) = None -> call = (Raise ResponseError, w))
  /\ (forall en n,
        current = Some en -> py_int (value en) = Some n -> limit <= n ->
        call = (Ok false, w)).
Proof.
  intros current call. subst current call.
  unfold check_rate_limit, bind, redis_get, rate_limit_decide.
  destruct (live_entry now _ (redis w)) as [en|] eqn:Hlive;
    cbn [fmap option_fmap option_map].
  - destruct (py_int (value en)) as [n|] eqn:Hint.
    + destruct (n <? limit) eqn:Hn.
      * apply Z.ltb_lt in Hn. unfold bind, redis_incr. rewrite Hlive.
        destruct (redis_int (value en)) as [m|] eqn:Hred; unfold ret;
          repeat split; settle_raise.
      * apply Z.ltb_ge in Hn. unfold ret. repeat split; settle_raise.
    + unfold raise. repeat split; settle_raise.
  - unfold bind, redis_setex. destruct (window <=? 0) eqn:E.
    + repeat split; settle_raise.
    + apply Z.leb_gt in E. unfold ret. repeat split; settle_raise.
Qed.

(** A counter that holds no number, a window of zero seconds, a counter
    that only [int()] reads, and the same counter at its limit. *)
Example check_rate_limit_raises_examples :
  let holding v := set_redis (insert "rate_limit:c" (Entry v None)) empty_world in
  check_rate_limit "c" 10 300 0 (holding "many") = (Raise ValueError, holding "many")
  /\ check_rate_limit "c" 10 0 0 empty_world = (Raise ResponseError, empty_world)
  /\ check_rate_limit "c" 10 300 0 (holding "05") = (Raise ResponseError, holding "05")
  /\ check_rate_limit "c" 10 300 0 (holding " +0_5 ")
     = (Raise ResponseError, holding " +0_5 ")
  /\ check_rate_limit "c" 5 300 0 (holding "05") = (Ok false, holding "05").
Proof. repeat split; reflexivity. Qed.

(** X4: the expiry of the counter can fall between the GET and the INCR
    of one call.  The call is then admitted on the count it read, but the
    INCR finds no key and creates the counter anew at 1 without any
    expiry; and a counter without expiry that has reached the limit
    refuses every call at every later instant. *)
Theorem rate_limit_counter_without_expiry
    (identifier : string) (limit window c expiry t_read t_write : Z) (w : world) :
  redis w !! ("rate_limit:" +:+ identifier) = Some (Entry (py_str c) (Some expiry)) ->
  c < limit ->
  t_read < expiry ->
  expiry <= t_write ->
  (let '(th1, w1) := limiter_step identifier limit window t_read Fresh w in
   let '(th2, w2) := limiter_step identifier limit window t_write th1 w1 in
   th2 = Returned (Ok true)
   /\ redis w2 !! ("rate_limit:" +:+ identifier) = Some (Entry (py_str 1) None))
  /\ (forall (w3 : world) (c3 now : Z),
         redis w3 !! ("rate_limit:" +:+ identifier) = Some (Entry (py_str c3) None) ->
         limit <= c3 ->
         check_rate_limit identifier limit window now w3 = (Ok false, w3)).
Proof.
  intros Hk Hc Hread Hwrite. split.
  - unfold limiter_step, redis_get, rate_limit_decide.
    assert (Hlive : live_entry t_read ("rate_limit:" +:+ identifier) (redis w)
                    = Some (Entry (py_str c) (Some expiry))).
    { unfold live_entry, live. rewrite Hk. cbn [expire_at].
      destruct (t_read <? expiry) eqn:E; [reflexivity|apply Z.ltb_ge in E; lia]. }
    assert (Hdead : live_entry t_write ("rate_limit:" +:+ identifier) (redis w) = None).
    { unfold live_entry, live. rewrite Hk. cbn [expire_at].
      destruct (t_write <? expiry) eqn:E; [apply Z.ltb_lt in E; lia|reflexivity]. }
    rewrite Hlive. cbn [fmap option_fmap option_map value]. rewrite py_int_str.
    destruct (c <? limit) eqn:E; [|apply Z.ltb_ge in E; lia].
    unfold bind, redis_incr. rewrite Hdead. cbn [ret].
    split; [reflexivity|]. simpl. apply lookup_insert_eq.
  - intros w3 c3 now Hk3 Hc3.
    unfold check_rate_limit, bind, redis_get, rate_limit_decide, live_entry, live.
    rewrite Hk3. cbn [expire_at fmap option_fmap option_map value].
    rewrite py_int_str.
    destruct (c3 <? limit) eqn:E; [apply Z.ltb_lt in E; lia|reflexivity].
Qed.

(** The theorem for a counter at 1 under limit 2 that expires while a
    call is under way. *)
Lemma rate_limit_counter_without_expiry_witness :
  let w := set_redis (insert "rate_limit:c" (Entry (py_str 1) (Some 300))) empty_world in
  (let '(th1, w1) := limiter_step "c" 2 300 299 Fresh w in
   let '(th2, w2) := limiter_step "c" 2 300 300 th1 w1 in
   th2 = Returned (Ok true)
   /\ redis w2 !! ("rate_limit:" +:+ "c") = Some (Entry (py_str 1) None))
  /\ (forall (w3 : world) (c3 now : Z),
         redis w3 !! ("rate_limit:" +:+ "c") = Some (Entry (py_str c3) None) ->
         2 <= c3 ->
         check_rate_limit "c" 2 300 now w3 = (Ok false, w3)).
Proof.
  intros w.
  apply (rate_limit_counter_without_expiry "c" 2 300 1 300 299 300 w).
  - reflexivity.
  - lia.
  - lia.
  - lia.
Defined.

(** ** Issued challenges *)

(** X5: a challenge stored by [generate_captcha] is accepted exactly
    when it is answered before its 300 seconds are over with text that,
    the white space of [str.strip()] removed from both ends, is the
    decimal sum of the two operands; the sum itself is such text.  Any
    other verification returns false and keeps the challenge. *)
Theorem issued_captcha_accepted_exactly
    (num1 num2 : Z) (uuid answer : string) (t0 t : Z) (w : world) :
  let w1 := snd (generate_captcha num1 num2 uuid t0 w) in
  verify_captcha uuid answer t w1
  = (if (t <? t0 + 300 * us_per_second)
        && String.eqb (strip answer) (py_str (num1 + num2))
     then (Ok true, set_redis (delete ("captcha:" +:+ uuid)) w1)
     else (Ok false, w1))
  /\ strip (py_str (num1 + num2)) = py_str (num1 + num2).
Proof.
  intros w1. split; [|apply strip_py_str].
  subst w1. rewrite generate_captcha_runs. cbn [snd].
  unfold verify_captcha, bind, redis_get. cbn [redis set_redis].
  rewrite live_entry_insert_eq. unfold live. cbn [expire_at].
  destruct (t <? t0 + 300 * us_per_second); cbn [andb fmap option_fmap option_map value];
    [|reflexivity].
  destruct (String.eqb_spec (py_str (num1 + num2)) EmptyString) as [H|_];
    [now apply py_str_nonempty in H|].
  cbn [negb andb].
  destruct (String.eqb (strip answer) (py_str (num1 + num2))); reflexivity.
Qed.

(** ** More on tokens *)

Section TokenChecks.

Variable hs256 : string -> jwt_payload -> string.
Variable JWT_SECRET : string.



(** X7: a revocation lasts 86400 seconds and no longer.  A signed token
    that is still unexpired 24 hours after [blacklist_token] ran -- one
    whose expiry lies further ahead than the tokens of
    [generate_jwt_token] -- is accepted again.  (The token's ['iat']
    is not after the clock of the revocation, so that the revocation is
    written at all.) *)
Theorem revocation_lapses_after_one_day
    (tk : token) (t_revoke t_verify : Z) (w : world) :
  signed hs256 JWT_SECRET tk = true ->
  p_iat (tk_payload tk) <= timegm t_revoke ->
  t_revoke + 86400 * us_per_second <= t_verify ->
  timegm t_verify < p_exp (tk_payload tk) ->
  let w' := snd (blacklist_token hs256 JWT_SECRET tk t_revoke w) in
  verify_jwt_token hs256 JWT_SECRET tk t_verify w' = (Ok (Some (tk_payload tk)), w').
Proof.
  intros Hs Hiat Hlate Hexp w'. subst w'.
  rewrite blacklist_token_cases, Hs. cbn [snd andb].
  assert (Hiat' : p_iat (tk_payload tk) <= timegm t_verify).
  { etransitivity; [exact Hiat|]. apply timegm_mono. unfold us_per_second in *. lia. }
  apply Z.leb_le in Hiat. rewrite Hiat.
  apply verify_jwt_token_accepts; [exact Hs|exact Hiat'|exact Hexp|].
  cbn [redis set_redis]. rewrite live_entry_insert_eq. unfold live. cbn [expire_at].
  destruct (t_verify <? t_revoke + 86400 * us_per_second) eqn:E;
    [apply Z.ltb_lt in E; lia|reflexivity].
Qed.

(** X8: only a token that carries the server's signature can be put on
    the revocation list: for any other token [blacklist_token] returns
    normally and leaves the stores as they were, so nobody can revoke a
    jti by presenting claims he signed himself. *)
Theorem unsigned_token_cannot_revoke (tk : token) (now : Z) (w : world) :
  signed hs256 JWT_SECRET tk = false ->
  blacklist_token hs256 JWT_SECRET tk now w = (Ok tt, w)
  /\ forall tk' now',
       verify_jwt_token hs256 JWT_SECRET tk' now'
         (snd (blacklist_token hs256 JWT_SECRET tk now w))
       = verify_jwt_token hs256 JWT_SECRET tk' now' w.
Proof.
  intros Hs. rewrite blacklist_token_cases, Hs. split; reflexivity.
Qed.

End TokenChecks.

(** A token signed with the server's secret but valid for 48 hours,
    revoked at once and presented again after 24 hours. *)
Lemma revocation_lapses_after_one_day_witness :
  let p := {| p_user_id := "7"; p_username := "alice";
              p_email := "alice@example.com"; p_role := "user";
              p_exp := 172800; p_iat := 0; p_jti := "jti-9" |} in
  let tk := jwt_encode sample_hs256 p sample_secret in
  let w' := snd (blacklist_token sample_hs256 sample_secret tk 0 empty_world) in
  verify_jwt_token sample_hs256 sample_secret tk (86400 * us_per_second) w'
  = (Ok (Some (tk_payload tk)), w').
Proof.
  intros p tk.
  apply (revocation_lapses_after_one_day sample_hs256 sample_secret tk 0
           (86400 * us_per_second) empty_world).
  - reflexivity.
  - vm_compute. discriminate.
  - vm_compute. discriminate.
  - reflexivity.
Defined.

(** A token whose signature was made with another secret. *)
Lemma unsigned_token_cannot_revoke_witness :
  let tk := generate_jwt_token sample_hs256 "guessed"
              (user_data_of_row (alice 0 false)) 0 0 "jti-1" in
  blacklist_token sample_hs256 sample_secret tk 5 empty_world = (Ok tt, empty_world)
  /\ forall tk' now',
       verify_jwt_token sample_hs256 sample_secret tk' now'
         (snd (blacklist_token sample_hs256 sample_secret tk 5 empty_world))
       = verify_jwt_token sample_hs256 sample_secret tk' now' empty_world.
Proof.
  intros tk.
  apply (unsigned_token_cannot_revoke sample_hs256 sample_secret tk 5 empty_world).
  reflexivity.
Defined.

(** [token_round_trip] for alice's token, presented an hour after its
    issue. *)
Lemma token_round_trip_witness :
  exists p,
    verify_jwt_token sample_hs256 sample_secret
      (generate_jwt_token sample_hs256 sample_secret
         (user_data_of_row (alice 0 false)) 0 0 "jti-1")
      (3600 * us_per_second) empty_world
    = (Ok (Some p), empty_world)
    /\ p_user_id p = py_str (id (alice 0 false))
    /\ p_username p = username (alice 0 false)
    /\ p_email p = email (alice 0 false)
    /\ p_role p = user_role (alice 0 false)
    /\ p_exp p - p_iat p
       = JWT_EXPIRATION_HOURS * 3600 + (timegm 0 - timegm 0).
Proof.
  apply (token_round_trip sample_hs256 sample_secret (alice 0 false) 0 0 "jti-1"
           (3600 * us_per_second) empty_world).
  - vm_compute. discriminate.
  - reflexivity.
  - reflexivity.
Defined.

(** ** The login flow, branch by branch *)

Lemma captcha_gate_branch u captcha_id captcha_answer env w :
  exists early w',
    captcha_gate u captcha_id captcha_answer env w = (Ok early, w')
    /\ gate_branch u captcha_id captcha_answer env w early w'.
Proof.
  unfold captcha_gate.
  destruct (failed_login_attempts u >=? CAPTCHA_THRESHOLD) eqn:Hth.
  - assert (Hge : CAPTCHA_THRESHOLD <= failed_login_attempts u).
    { apply Z.geb_le in Hth. lia. }
    destruct (truthy captcha_id) eqn:Hid; cbn [negb orb].
    + destruct (truthy captcha_answer) eqn:Hans; cbn [negb].
      * unfold bind at 1.
        destruct (verify_captcha_cases (default EmptyString captcha_id)
                    (default EmptyString captcha_answer) (e_now env) w) as [H|H];
          rewrite H; cbn [negb].
        -- eexists _, _. split; [reflexivity|]. now apply GatePassed.
        -- eexists _, _. split; [reflexivity|]. now apply GateInvalid.
      * eexists _, _. split; [reflexivity|]. apply GateRequired; [exact Hge|].
        now rewrite Hid, Hans.
    + eexists _, _. split; [reflexivity|]. apply GateRequired; [exact Hge|].
      now rewrite Hid.
  - eexists _, _. split; [reflexivity|]. apply GateBelow.
    rewrite Z.geb_leb in Hth. apply Z.leb_gt in Hth. exact Hth.
Qed.

Lemma gate_branch_users u captcha_id captcha_answer env w early w' :
  gate_branch u captcha_id captcha_answer env w early w' ->
  test_users w' = test_users w.
Proof. intros H. destruct H; reflexivity. Qed.

Section LoginBranchProperties.

Variable hs256 : string -> jwt_payload -> string.
Variable JWT_SECRET : string.
Variable check_password_hash : string -> string -> bool.

(** Every served login goes one of the ways of [login_branch]. *)
Lemma login_branch_total body env w :
  exists r w',
    login hs256 JWT_SECRET check_password_hash body env w = (Ok r, w')
    /\ login_branch hs256 JWT_SECRET check_password_hash body env w r w'.
Proof.
  unfold login, try_except, login_body.
  destruct body as [data|];
    [|eexists _, _; split; [reflexivity|apply LoginMissing; now left]].
  destruct (has_credentials data) eqn:Hcred.
  2:{ unfold has_credentials in Hcred.
      assert (Hc : negb (truthy (rq_username data)) || negb (truthy (rq_password data))
                   = true).
      { destruct (truthy (rq_username data)), (truthy (rq_password data));
          try reflexivity; discriminate Hcred. }
      rewrite Hc. eexists _, _. split; [reflexivity|].
      apply LoginMissing. right. exists data. now split. }
  assert (Hc : negb (truthy (rq_username data)) || negb (truthy (rq_password data))
               = false).
  { unfold has_credentials in Hcred. apply andb_true_iff in Hcred as [-> ->].
    reflexivity. }
  rewrite Hc. fold (login_name data). fold (login_client_id data env).
  unfold bind at 1.
  pose proof (check_rate_limit_users (login_client_id data env) 10 300 (e_now env) w)
    as Hus.
  destruct (check_rate_limit (login_client_id data env) 10 300 (e_now env) w)
    as [[admitted|e] w1] eqn:Hrl; cbn [snd] in Hus.
  2:{ eexists _, _. split; [reflexivity|]. eapply LoginError; eauto. }
  destruct admitted; cbn [negb].
  2:{ eexists _, _. split; [reflexivity|]. eapply LoginLimited; eauto. }
  unfold bind at 1, select_user. rewrite Hus.
  destruct (find_user (login_name data) (test_users w)) as [u|] eqn:Hfind.
  2:{ eexists _, _. split; [reflexivity|]. eapply LoginUnknown; eauto. }
  destruct (is_active u) eqn:Hactive; cbn [negb].
  2:{ eexists _, _. split; [reflexivity|]. eapply LoginInactive; eauto. }
  destruct (is_locked u) eqn:Hlocked.
  { eexists _, _. split; [reflexivity|]. eapply LoginLocked; eauto. }
  unfold bind at 1.
  destruct (captcha_gate_branch u (rq_captcha_id data) (rq_captcha_answer data) env w1)
    as (early & w2 & Hgate & Hbranch).
  rewrite Hgate.
  destruct early as [r|].
  { exists r, w2. split; [reflexivity|]. eapply LoginGate; eauto. }
  unfold credential_check.
  destruct (check_password_hash (password_hash u)
              (default EmptyString (rq_password data))) eqn:Hpw; cbn [negb].
  - eexists _, _. split; [reflexivity|].
    eapply (LoginSuccess hs256 JWT_SECRET check_password_hash); eauto.
  - unfold bind, update_where_id, log_auth_event.
    fold MAX_LOGIN_ATTEMPTS.
    pose proof (LoginWrongPassword hs256 JWT_SECRET check_password_hash
                  (Some data) env w data w1 u w2 eq_refl Hcred Hrl Hfind Hactive
                  Hlocked Hbranch Hpw) as Hb.
    unfold wrong_password_response in Hb.
    destruct (failed_login_attempts u + 1 >=? MAX_LOGIN_ATTEMPTS);
      (eexists _, _; split; [reflexivity|exact Hb]).
Qed.

End LoginBranchProperties.

Lemma update_rows_lock_consistent uid f rows :
  (forall v, is_locked (f v) = true -> MAX_LOGIN_ATTEMPTS <= failed_login_attempts (f v)) ->
  lock_consistent rows -> lock_consistent (update_rows uid f rows).
Proof.
  intros Hf H. unfold lock_consistent, update_rows in *.
  apply Forall_forall. intros v Hin.
  apply list_elem_of_In, in_map_iff in Hin as (v0 & <- & Hin0).
  destruct (id v0 =? uid); [apply Hf|].
  rewrite Forall_forall in H. apply H. now apply list_elem_of_In.
Qed.

Section LoginInvariants.

Variable hs256 : string -> jwt_payload -> string.
Variable JWT_SECRET : string.
Variable check_password_hash : string -> string -> bool.

(** X9: [login] catches every exception and always answers; the status
    is one of 200, 400, 401, 429 and 500; the answer is a success exactly
    when the status is 200, and exactly then it carries a token, a
    session id, the account summary and no error code, while every other
    answer carries an error code and none of the three. *)
Theorem login_answers_in_its_taxonomy
    (body : option login_request) (env : request_env) (w : world) :
  exists r w',
    login hs256 JWT_SECRET check_password_hash body env w = (Ok r, w')
    /\ In (rs_status r) [200; 400; 401; 429; 500]
    /\ rs_success r = (rs_status r =? 200)
    /\ (if rs_success r
        then is_Some (rs_token r) /\ is_Some (rs_session_id r)
             /\ is_Some (rs_user r) /\ rs_error_code r = None
             /\ rs_expires_in r = Some 86400
        else rs_token r = None /\ rs_session_id r = None
             /\ rs_user r = None /\ is_Some (rs_error_code r)).
Proof.
  destruct (login_branch_total hs256 JWT_SECRET check_password_hash body env w)
    as (r & w' & Hlogin & Hb).
  exists r, w'. split; [exact Hlogin|].
  assert (Hfacts : forall r0 : response,
             (rs_success r0 = false /\ In (rs_status r0) [400; 401; 429; 500]
              /\ rs_token r0 = None /\ rs_session_id r0 = None /\ rs_user r0 = None
              /\ is_Some (rs_error_code r0))
             \/ (rs_success r0 = true /\ rs_status r0 = 200
                 /\ is_Some (rs_token r0) /\ is_Some (rs_session_id r0)
                 /\ is_Some (rs_user r0) /\ rs_error_code r0 = None
                 /\ rs_expires_in r0 = Some 86400) ->
             In (rs_status r0) [200; 400; 401; 429; 500]
             /\ rs_success r0 = (rs_status r0 =? 200)
             /\ (if rs_success r0
                 then is_Some (rs_token r0) /\ is_Some (rs_session_id r0)
                      /\ is_Some (rs_user r0) /\ rs_error_code r0 = None
                      /\ rs_expires_in r0 = Some 86400
                 else rs_token r0 = None /\ rs_session_id r0 = None
                      /\ rs_user r0 = None /\ is_Some (rs_error_code r0))).
  { intros r0 [(Hs & Hst & Hrest)|(Hs & Hst & Hrest)]; rewrite Hs.
    - split; [now right|]. split; [|exact Hrest].
      destruct Hst as [<-|[<-|[<-|[<-|[]]]]]; reflexivity.
    - rewrite Hst. split; [now left|]. split; [reflexivity|exact Hrest]. }
  apply Hfacts.
  assert (Hrej : forall status message code,
             In status [400; 401; 429; 500] ->
             rs_success (rejection status message code) = false
             /\ In (rs_status (rejection status message code)) [400; 401; 429; 500]
             /\ rs_token (rejection status message code) = None
             /\ rs_session_id (rejection status message code) = None
             /\ rs_user (rejection status message code) = None
             /\ is_Some (rs_error_code (rejection status message code))).
  { intros status message code Hin. repeat split; auto; try (now exists code). }
  assert (Hcap : forall message code ch,
             rs_success (captcha_rejection message code ch) = false
             /\ In (rs_status (captcha_rejection message code ch)) [400; 401; 429; 500]
             /\ rs_token (captcha_rejection message code ch) = None
             /\ rs_session_id (captcha_rejection message code ch) = None
             /\ rs_user (captcha_rejection message code ch) = None
             /\ is_Some (rs_error_code (captcha_rejection message code ch))).
  { intros message code ch. repeat split; try (now left); try (now exists code). }
  destruct Hb as [ | | | | | |data w1 u r w2 _ _ _ _ _ _ Hg| | ].
  - left. apply Hrej. now left.
  - left. apply Hrej. do 3 right. now left.
  - left. apply Hrej. do 2 right. now left.
  - left. apply Hrej. right. now left.
  - left. apply Hrej. right. now left.
  - left. unfold locked_response. cbn [rs_success rs_status rs_token rs_session_id
                                         rs_user rs_error_code].
    repeat split; try (right; now left); try (eexists; reflexivity).
  - left. inversion Hg; subst; apply Hcap.
  - left. unfold wrong_password_response.
    destruct (failed_login_attempts u + 1 >=? MAX_LOGIN_ATTEMPTS).
    + apply Hrej. right. now left.
    + cbn [rs_success rs_status rs_token rs_session_id rs_user rs_error_code].
      repeat split; try (right; now left); try (eexists; reflexivity).
  - right. unfold success_response.
    cbn [rs_success rs_status rs_token rs_session_id rs_user rs_error_code
         rs_expires_in].
    repeat split; try (eexists; reflexivity).
Qed.

(** X10: a request for an account that is locked or inactive is never a
    success, whatever password it carries: the password is not looked
    at, no token is issued and the account table stays as it is.  So a
    locked account stays locked however many logins follow; this flow
    has no way back from the lock. *)
Theorem blocked_account_stays_blocked
    (name : string) (calls : list (option login_request * request_env))
    (w : world) (u : user_row) :
  find_user name (test_users w) = Some u ->
  is_locked u = true \/ is_active u = false ->
  Forall (targets name) calls ->
  test_users (snd (logins hs256 JWT_SECRET check_password_hash calls w)) = test_users w
  /\ Forall (fun res => exists r, res = Ok r /\ rs_success r = false
                                   /\ rs_token r = None
                                   /\ password_failed r = false)
       (fst (logins hs256 JWT_SECRET check_password_hash calls w)).
Proof.
  intros Hfind Hblocked.
  revert w Hfind.
  induction calls as [|[body env] rest IH]; intros w Hfind Htargets.
  - cbn. split; [reflexivity|constructor].
  - inversion Htargets as [|? ? (data0 & Hbody0 & Hname0) Htargets']; subst.
    cbn [fst] in Hbody0. subst body.
    cbn [logins].
    destruct (login_branch_total hs256 JWT_SECRET check_password_hash
                (Some data0) env w) as (r & w1 & Hlogin & Hb).
    rewrite Hlogin.
    assert (Hstep : test_users w1 = test_users w
                    /\ rs_success r = false /\ rs_token r = None
                    /\ password_failed r = false).
    { destruct Hb as [ |d e w0 Hd _ Hrl|d w0 Hd _ Hrl|d w0 Hd _ Hrl Hf
                      |d w0 u0 Hd _ Hrl Hf Ha|d w0 u0 Hd _ Hrl Hf Ha Hl
                      |d w0 u0 r w2 Hd _ Hrl Hf Ha Hl Hg
                      |d w0 u0 w2 Hd _ Hrl Hf Ha Hl Hg Hpw
                      |d w0 u0 w2 Hd _ Hrl Hf Ha Hl Hg Hpw];
        try (injection Hd as <-);
        try (pose proof (check_rate_limit_users (login_client_id data0 env) 10 300
                           (e_now env) w) as Hus; rewrite Hrl in Hus; cbn [snd] in Hus);
        try (rewrite Hf in Hfind; injection Hfind as ->);
        try (destruct Hblocked as [Hx|Hx]; congruence);
        try (cbn; repeat split; auto; fail). }
    destruct Hstep as (Hus1 & Hs & Htk & Hpf).
    destruct (IH w1) as (Hus & Hall); auto.
    { now rewrite Hus1. }
    destruct (logins hs256 JWT_SECRET check_password_hash rest w1) as [rs w2].
    cbn [fst snd] in *. split; [congruence|].
    constructor; [|exact Hall]. exists r. repeat split; auto.
Qed.

(** X11: the lock flag and the failure counter stay consistent: if in
    every row the flag is set only from five failures on, the same holds
    after any sequence of served logins. *)
Theorem logins_keep_lock_consistent
    (calls : list (option login_request * request_env)) (w : world) :
  lock_consistent (test_users w) ->
  lock_consistent (test_users (snd (logins hs256 JWT_SECRET check_password_hash calls w))).
Proof.
  revert w. induction calls as [|[body env] rest IH]; intros w Hinv; [exact Hinv|].
  cbn [logins].
  destruct (login_cases hs256 JWT_SECRET check_password_hash body env w)
    as (r & w1 & Hlogin & Hcases).
  rewrite Hlogin.
  assert (Hinv1 : lock_consistent (test_users w1)).
  { destruct Hcases as [(_ & _ & ->)
                       |[(data & u & _ & _ & _ & _ & _ & _ & _ & _ & ->)
                        |(data & u & _ & _ & _ & _ & _ & _ & _ & _ & ->)]].
    - exact Hinv.
    - apply update_rows_lock_consistent; [|exact Hinv].
      intros v. cbn [failed_row is_locked failed_login_attempts].
      intros H. apply Z.geb_le in H. lia.
    - apply update_rows_lock_consistent; [|exact Hinv].
      intros v. cbn [reset_row is_locked]. discriminate. }
  specialize (IH w1 Hinv1).
  destruct (logins hs256 JWT_SECRET check_password_hash rest w1) as [rs w2].
  exact IH.
Qed.

End LoginInvariants.

(** ** Keys of different purposes never meet *)

Lemma captcha_key_ne_rate x y : "captcha:" +:+ x <> "rate_limit:" +:+ y.
Proof. cbn. discriminate. Qed.

Lemma session_key_ne_rate x y : "session:" +:+ x <> "rate_limit:" +:+ y.
Proof. cbn. discriminate. Qed.

Lemma rate_key_ne_blacklist x y : "rate_limit:" +:+ x <> "blacklist:" +:+ y.
Proof. cbn. discriminate. Qed.

Lemma captcha_key_ne_blacklist x y : "captcha:" +:+ x <> "blacklist:" +:+ y.
Proof. cbn. discriminate. Qed.

Lemma session_key_ne_blacklist x y : "session:" +:+ x <> "blacklist:" +:+ y.
Proof. cbn. discriminate. Qed.

Lemma live_entry_same_lookup now key (r1 r2 : gmap string entry) :
  r1 !! key = r2 !! key -> live_entry now key r1 = live_entry now key r2.
Proof. intros H. unfold live_entry. now rewrite H. Qed.

(** The CAPTCHA block writes only under [captcha:]. *)
Lemma gate_branch_redis u captcha_id captcha_answer env w early w' key :
  gate_branch u captcha_id captcha_answer env w early w' ->
  (forall x, "captcha:" +:+ x <> key) ->
  redis w' !! key = redis w !! key.
Proof.
  intros H Hkey. destruct H; cbn [redis set_redis snd generate_captcha bind
                                  redis_setex log_auth_event add_event].
  - reflexivity.
  - cbn. now rewrite lookup_insert_ne by apply Hkey.
  - cbn. now rewrite lookup_insert_ne by apply Hkey.
  - now rewrite lookup_delete_ne by apply Hkey.
Qed.

Lemma gate_branch_events u captcha_id captcha_answer env w early w' :
  gate_branch u captcha_id captcha_answer env w early w' ->
  auth_events_log w' = auth_events_log w
  \/ (exists ev,
        auth_events_log w' = (auth_events_log w ++ [ev])%list
        /\ ev_risk_score ev = calculate_risk_score (e_client env) false (e_hour env)
        /\ ev_ip_address ev = ip_address (e_client env)
        /\ exists r, early = Some r /\ rs_error_code r = Some "INVALID_CAPTCHA").
Proof.
  intros H. destruct H; try (left; reflexivity).
  right. eexists. split; [reflexivity|]. repeat split. eexists. split; reflexivity.
Qed.

Section LoginEffects.

Variable hs256 : string -> jwt_payload -> string.
Variable JWT_SECRET : string.
Variable check_password_hash : string -> string -> bool.

(** X12: the audit log is append-only under [login], and a served login
    appends at most one row.  The answers MISSING_CREDENTIALS,
    CAPTCHA_REQUIRED and INTERNAL_ERROR append none; every other answer
    appends exactly one, which carries the caller's address and the risk
    score of the request computed with the outcome. *)
Theorem login_appends_one_event
    (body : option login_request) (env : request_env) (w : world) :
  exists r w',
    login hs256 JWT_SECRET check_password_hash body env w = (Ok r, w')
    /\ if match rs_error_code r with
          | Some code =>
              String.eqb code "MISSING_CREDENTIALS"
              || String.eqb code "CAPTCHA_REQUIRED"
              || String.eqb code "INTERNAL_ERROR"
          | None => false
          end
       then auth_events_log w' = auth_events_log w
       else exists ev,
              auth_events_log w' = (auth_events_log w ++ [ev])%list
              /\ ev_ip_address ev = ip_address (e_client env)
              /\ ev_risk_score ev
                 = calculate_risk_score (e_client env) (rs_success r) (e_hour env).
Proof.
  destruct (login_branch_total hs256 JWT_SECRET check_password_hash body env w)
    as (r & w' & Hlogin & Hb).
  exists r, w'. split; [exact Hlogin|].
  destruct Hb as [ |d e w1 Hd _ Hrl|d w1 Hd _ Hrl|d w1 Hd _ Hrl Hf
                  |d w1 u0 Hd _ Hrl Hf Ha|d w1 u0 Hd _ Hrl Hf Ha Hl
                  |d w1 u0 r w2 Hd _ Hrl Hf Ha Hl Hg
                  |d w1 u0 w2 Hd _ Hrl Hf Ha Hl Hg Hpw
                  |d w1 u0 w2 Hd _ Hrl Hf Ha Hl Hg Hpw];
    try (pose proof (check_rate_limit_events (login_client_id d env) 10 300
                       (e_now env) w) as Hev; rewrite Hrl in Hev; cbn [snd] in Hev).
  - reflexivity.
  - exact Hev.
  - cbn. rewrite Hev. eexists. repeat split.
  - cbn. rewrite Hev. eexists. repeat split.
  - cbn. rewrite Hev. eexists. repeat split.
  - cbn. rewrite Hev. eexists. repeat split.
  - inversion Hg; subst.
    + cbn. exact Hev.
    + cbn. rewrite Hev. eexists. repeat split.
  - pose proof (gate_branch_events _ _ _ _ _ _ _ Hg) as [Hev2|(ev & _ & _ & _ & r0 & Hr0 & _)];
      [|discriminate Hr0].
    unfold wrong_password_response.
    destruct (failed_login_attempts u0 + 1 >=? MAX_LOGIN_ATTEMPTS);
      cbn; rewrite Hev2, Hev; eexists; repeat split.
  - pose proof (gate_branch_events _ _ _ _ _ _ _ Hg) as [Hev2|(ev & _ & _ & _ & r0 & Hr0 & _)];
      [|discriminate Hr0].
    cbn. rewrite Hev2, Hev. eexists. repeat split.
Qed.

(** X13: a request whose client already has ten counted requests in the
    running window is answered 429 RATE_LIMITED before the account table
    is looked at: the password is not checked even if it is right, the
    accounts and the ephemeral store stay as they are, and one
    [login_rate_limited] row is logged. *)
Theorem login_rate_limited_before_credentials
    (data : login_request) (env : request_env) (w : world) (c expiry : Z) :
  has_credentials data = true ->
  redis w !! ("rate_limit:" +:+ login_client_id data env)
  = Some (Entry (py_str c) (Some expiry)) ->
  10 <= c ->
  e_now env < expiry ->
  login hs256 JWT_SECRET check_password_hash (Some data) env w
  = (Ok (rejection 429 "Too many login attempts. Please try again later."
           "RATE_LIMITED"),
     snd (log_auth_event (login_name data) "login_rate_limited" false
            (Some (e_client env)) env w)).
Proof.
  intros Hcred Hk Hc Hlive.
  pose proof (check_rate_limit_counted (login_client_id data env) 10 300 (e_now env)
                w c expiry Hk Hlive) as Hrl.
  destruct (c <? 10) eqn:E; [apply Z.ltb_lt in E; lia|].
  unfold login, try_except, login_body.
  unfold has_credentials in Hcred. apply andb_true_iff in Hcred as [-> ->].
  cbn [negb orb]. fold (login_name data). fold (login_client_id data env).
  unfold bind at 1. rewrite Hrl. reflexivity.
Qed.

End LoginEffects.

Section LoginWindow.

Variable hs256 : string -> jwt_payload -> string.
Variable JWT_SECRET : string.
Variable check_password_hash : string -> string -> bool.

(** A served login leaves the client's counter as its call of
    [check_rate_limit] left it, and answers 429 exactly when that call
    refused. *)
Lemma login_counts_request data env w :
  has_credentials data = true ->
  let res := login hs256 JWT_SECRET check_password_hash (Some data) env w in
  let rl := check_rate_limit (login_client_id data env) 10 300 (e_now env) w in
  redis (snd res) !! ("rate_limit:" +:+ login_client_id data env)
  = redis (snd rl) !! ("rate_limit:" +:+ login_client_id data env)
  /\ rate_limited_answer (fst res)
     = match fst rl with Ok false => true | _ => false end.
Proof.
  intros Hcred res rl. subst res rl.
  destruct (login_branch_total hs256 JWT_SECRET check_password_hash (Some data) env w)
    as (r & w' & Hlogin & Hb).
  rewrite Hlogin. cbn [fst snd rate_limited_answer].
  destruct Hb as [[Hn|(d & Hd & Hc)]|d e w1 Hd _ Hrl|d w1 Hd _ Hrl|d w1 Hd _ Hrl Hf
                  |d w1 u0 Hd _ Hrl Hf Ha|d w1 u0 Hd _ Hrl Hf Ha Hl
                  |d w1 u0 r w2 Hd _ Hrl Hf Ha Hl Hg
                  |d w1 u0 w2 Hd _ Hrl Hf Ha Hl Hg Hpw
                  |d w1 u0 w2 Hd _ Hrl Hf Ha Hl Hg Hpw];
    try discriminate Hn;
    try (injection Hd as <-);
    try congruence;
    rewrite Hrl; cbn [fst snd]; try (split; reflexivity).
  - split; [apply (gate_branch_redis _ _ _ _ _ _ _ _ Hg); intros x; apply captcha_key_ne_rate|].
    inversion Hg; reflexivity.
  - split.
    + cbn. apply (gate_branch_redis _ _ _ _ _ _ _ _ Hg); intros x; apply captcha_key_ne_rate.
    + unfold wrong_password_response.
      destruct (failed_login_attempts u0 + 1 >=? MAX_LOGIN_ATTEMPTS); reflexivity.
  - split; [|reflexivity].
    cbn. rewrite lookup_insert_ne by apply session_key_ne_rate.
    apply (gate_branch_redis _ _ _ _ _ _ _ _ Hg); intros x; apply captcha_key_ne_rate.
Qed.

(** Served logins of one client while its counter stands at [c]. *)
Lemma logins_counted cid calls :
  forall (w : world) (c expiry : Z),
    redis w !! ("rate_limit:" +:+ cid) = Some (Entry (py_str c) (Some expiry)) ->
    Forall (fun call => same_client cid call /\ e_now (snd call) < expiry) calls ->
    forall (j : nat) (res : result response),
      fst (logins hs256 JWT_SECRET check_password_hash calls w) !! j = Some res ->
      rate_limited_answer res = (10 <=? c + Z.of_nat j).
Proof.
  induction calls as [|[body env] rest IH]; intros w c expiry Hk Hall j res Hj.
  - discriminate Hj.
  - inversion Hall as [|? ? [(data & Hbody & Hcred & Hcid) Hnow] Hrest]; subst.
    cbn [fst snd] in *. subst body.
    cbn [logins] in Hj.
    pose proof (login_counts_request data env w Hcred) as [Hkey Hans].
    rewrite (check_rate_limit_counted (login_client_id data env) 10 300 (e_now env)
               w c expiry Hk Hnow) in Hkey, Hans.
    destruct (login hs256 JWT_SECRET check_password_hash (Some data) env w)
      as [res0 w1].
    destruct (logins hs256 JWT_SECRET check_password_hash rest w1) as [rs w2] eqn:Hrun.
    cbn [fst snd] in *.
    destruct (c <? 10) eqn:E; cbn [fst snd] in Hkey, Hans.
    + apply Z.ltb_lt in E. cbn [redis set_redis] in Hkey.
      rewrite lookup_insert_eq in Hkey.
      destruct j as [|j]; cbn in Hj.
      * injection Hj as <-. rewrite Hans. symmetry. apply Z.leb_gt. lia.
      * specialize (IH w1 (c + 1) expiry Hkey Hrest j res).
        rewrite Hrun in IH. rewrite (IH Hj). f_equal. lia.
    + apply Z.ltb_ge in E. rewrite Hk in Hkey.
      destruct j as [|j]; cbn in Hj.
      * injection Hj as <-. rewrite Hans. symmetry. apply Z.leb_le. lia.
      * specialize (IH w1 c expiry Hkey Hrest j res).
        rewrite Hrun in IH. rewrite (IH Hj).
        transitivity true; [apply Z.leb_le; lia|symmetry; apply Z.leb_le; lia].
Qed.

(** X14: every request with credentials counts against its client, also
    the successful and the CAPTCHA-rejected ones.  When a client's first
    request starts a window, its first ten requests of the window are
    not answered 429 and every further one in the window is, whatever
    the requests carry. *)
Theorem login_window_admits_ten
    (cid : string) (first : option login_request * request_env)
    (rest : list (option login_request * request_env)) (w : world) :
  same_client cid first ->
  live_entry (e_now (snd first)) ("rate_limit:" +:+ cid) (redis w) = None ->
  Forall (fun call => same_client cid call
                      /\ e_now (snd call) < e_now (snd first) + 300 * us_per_second)
    rest ->
  forall (j : nat) (res : result response),
    fst (logins hs256 JWT_SECRET check_password_hash (first :: rest) w) !! j = Some res ->
    rate_limited_answer res = (10 <=? Z.of_nat j).
Proof.
  intros (data & Hbody & Hcred & Hcid) Hfresh Hrest j res Hj.
  destruct first as [body env]. cbn [fst snd] in *. subst body cid.
  cbn [logins] in Hj.
  pose proof (login_counts_request data env w Hcred) as [Hkey Hans].
  rewrite (check_rate_limit_first (login_client_id data env) 10 300 (e_now env) w)
    in Hkey, Hans by (auto; lia).
  cbn [fst snd redis set_redis] in Hkey, Hans.
  rewrite lookup_insert_eq in Hkey.
  destruct (login hs256 JWT_SECRET check_password_hash (Some data) env w) as [res0 w1].
  pose proof (logins_counted (login_client_id data env) rest w1 1
                (e_now env + 300 * us_per_second) Hkey Hrest) as Hcount.
  destruct (logins hs256 JWT_SECRET check_password_hash rest w1) as [rs w2].
  cbn [fst snd] in *.
  destruct j as [|j]; cbn in Hj.
  - injection Hj as <-. rewrite Hans. reflexivity.
  - rewrite (Hcount j res Hj). f_equal. lia.
Qed.

End LoginWindow.

(** ** Names *)

Lemma lower_char_idem a : lower_char (lower_char a) = lower_char a.
Proof. destruct a as [[] [] [] [] [] [] [] []]; reflexivity. Qed.

Lemma lower_idem s : lower (lower s) = lower s.
Proof.
  induction s as [|a s IH]; [reflexivity|].
  cbn [lower]. now rewrite lower_char_idem, IH.
Qed.

Lemma find_user_some name rows u :
  find_user name rows = Some u ->
  In u rows /\ (username u = name \/ email u = name).
Proof.
  unfold find_user. intros H. apply List.find_some in H as [Hin Hm].
  split; [exact Hin|].
  apply orb_true_iff in Hm as [Hm|Hm]; apply String.eqb_eq in Hm; auto.
Qed.

Lemma verify_stored_captcha cid answer t expiry w :
  redis w !! ("captcha:" +:+ cid) = Some (Entry answer (Some expiry)) ->
  answer <> EmptyString ->
  strip answer = answer ->
  t < expiry ->
  verify_captcha cid answer t w
  = (Ok true, set_redis (delete ("captcha:" +:+ cid)) w).
Proof.
  intros Hk Hne Hstrip Ht.
  unfold verify_captcha, bind, redis_get, live_entry, live.
  rewrite Hk. cbn [expire_at].
  destruct (t <? expiry) eqn:E; [|apply Z.ltb_ge in E; lia].
  cbn [fmap option_fmap option_map value]. rewrite Hstrip, String.eqb_refl.
  destruct (String.eqb_spec answer EmptyString); [contradiction|reflexivity].
Qed.

Section LoginResults.

Variable hs256 : string -> jwt_payload -> string.
Variable JWT_SECRET : string.
Variable check_password_hash : string -> string -> bool.

(** X15: [login] lower-cases and strips the name it is given but
    compares it with the stored columns as they are.  So whenever a login
    gets as far as the password -- it succeeds or counts a failure --
    the account it found is a row of the table whose stored username or
    email is exactly the normalised name, and that name is in lower
    case as [str.lower()] has it; a row whose username and email both
    hold a capital letter is never found. *)
Theorem login_finds_lower_case_names
    (body : option login_request) (env : request_env) (w : world) (r : response) :
  fst (login hs256 JWT_SECRET check_password_hash body env w) = Ok r ->
  rs_success r = true \/ password_failed r = true ->
  exists data u,
    body = Some data
    /\ In u (test_users w)
    /\ (username u = login_name data \/ email u = login_name data)
    /\ lower (login_name data) = login_name data
    /\ (lower (username u) = username u \/ lower (email u) = email u).
Proof.
  intros Hr Hreached.
  destruct (login_cases hs256 JWT_SECRET check_password_hash body env w)
    as (r0 & w' & Hlogin & Hcases).
  rewrite Hlogin in Hr. cbn [fst] in Hr. injection Hr as ->.
  assert (Hlow : forall data, lower (login_name data) = login_name data).
  { intros data. unfold login_name. apply lower_idem. }
  destruct Hcases as [(Hs & Hp & _)
                     |[(data & u & Hb & Hf & _)|(data & u & Hb & Hf & _)]].
  - destruct Hreached; congruence.
  - apply find_user_some in Hf as [Hin Hname].
    exists data, u. repeat split; auto.
    destruct Hname as [H|H]; rewrite H; auto.
  - apply find_user_some in Hf as [Hin Hname].
    exists data, u. repeat split; auto.
    destruct Hname as [H|H]; rewrite H; auto.
Qed.

(** The stores after a successful login accept its token and hold its
    session. *)
Lemma login_success_token
    (body : option login_request) (env : request_env) (w : world)
    (r : response) (t : Z) :
  fst (login hs256 JWT_SECRET check_password_hash body env w) = Ok r ->
  rs_success r = true ->
  redis w !! ("blacklist:" +:+ e_jti env) = None ->
  timegm (e_utc_iat env) <= timegm t ->
  timegm t < timegm (e_utc_exp env) + JWT_EXPIRATION_HOURS * 3600 ->
  let w' := snd (login hs256 JWT_SECRET check_password_hash body env w) in
  exists tk us sid,
    rs_token r = Some tk /\ rs_user r = Some us /\ rs_session_id r = Some sid
    /\ verify_jwt_token hs256 JWT_SECRET tk t w' = (Ok (Some (tk_payload tk)), w')
    /\ p_user_id (tk_payload tk) = us_id us
    /\ p_username (tk_payload tk) = us_username us
    /\ p_email (tk_payload tk) = us_email us
    /\ p_role (tk_payload tk) = us_role us
    /\ exists session,
         redis w' !! ("session:" +:+ sid)
         = Some (Entry session (Some (e_now env + SESSION_TIMEOUT * 60 * us_per_second))).
Proof.
  intros Hr Hsucc Hfree Hiat Hexp w'. subst w'.
  destruct (login_branch_total hs256 JWT_SECRET check_password_hash body env w)
    as (r0 & w' & Hlogin & Hb).
  rewrite Hlogin in *. cbn [fst snd] in *. injection Hr as ->.
  destruct Hb as [ |d e w1 Hd _ Hrl|d w1 Hd _ Hrl|d w1 Hd _ Hrl Hf
                  |d w1 u0 Hd _ Hrl Hf Ha|d w1 u0 Hd _ Hrl Hf Ha Hl
                  |d w1 u0 r w2 Hd _ Hrl Hf Ha Hl Hg
                  |d w1 u0 w2 Hd _ Hrl Hf Ha Hl Hg Hpw
                  |d w1 u0 w2 Hd _ Hrl Hf Ha Hl Hg Hpw];
    try discriminate Hsucc.
  - inversion Hg; subst; discriminate Hsucc.
  - unfold wrong_password_response in Hsucc.
    destruct (failed_login_attempts u0 + 1 >=? MAX_LOGIN_ATTEMPTS); discriminate Hsucc.
  - eexists _, _, _. split; [reflexivity|]. split; [reflexivity|].
    split; [reflexivity|]. split.
    + apply verify_jwt_token_accepts.
      * apply generated_signed.
      * exact Hiat.
      * cbn [tk_payload generate_jwt_token jwt_encode p_exp].
        rewrite timegm_plus_hours. exact Hexp.
      * cbn [tk_payload generate_jwt_token jwt_encode p_jti].
        assert (Hk : redis (snd (log_auth_event (py_str (id u0)) "login_success" true
                                   (Some (e_client env)) env
                                   (set_redis
                                      (insert ("session:" +:+ e_session_uuid env)
                                         (Entry (session_json u0 env)
                                            (Some (e_now env
                                                   + SESSION_TIMEOUT * 60 * us_per_second))))
                                      (set_users (update_rows (id u0) (reset_row (e_now env)))
                                         w2))))
                     !! ("blacklist:" +:+ e_jti env) = None).
        { cbn. rewrite lookup_insert_ne by apply session_key_ne_blacklist.
          rewrite (gate_branch_redis _ _ _ _ _ _ _ _ Hg)
            by (intros x; apply captcha_key_ne_blacklist).
          pose proof (check_rate_limit_redis (login_client_id d env) 10 300
                        (e_now env) w) as Hred.
          rewrite Hrl in Hred. cbn [snd] in Hred.
          destruct Hred as [->|[e ->]]; [exact Hfree|].
          now rewrite lookup_insert_ne by apply rate_key_ne_blacklist. }
        unfold live_entry. now rewrite Hk.
    + repeat split. eexists. cbn. apply lookup_insert_eq.
Qed.

(** X16: the token of a successful login is good at once: against the
    stores the login left behind, [verify_jwt_token] returns its claims
    -- the id, username, email and role of the account summary in the
    same answer -- at every instant from the second of its ['iat'] on
    and before its expiry, provided the jti drawn for it was not on the
    revocation list already; and the session named in the answer is
    stored with a time to live of 30 minutes. *)
Theorem login_token_verifies
    (body : option login_request) (env : request_env) (w : world)
    (r : response) (t : Z) :
  fst (login hs256 JWT_SECRET check_password_hash body env w) = Ok r ->
  rs_success r = true ->
  redis w !! ("blacklist:" +:+ e_jti env) = None ->
  timegm (e_utc_iat env) <= timegm t ->
  timegm t < timegm (e_utc_exp env) + JWT_EXPIRATION_HOURS * 3600 ->
  let w' := snd (login hs256 JWT_SECRET check_password_hash body env w) in
  exists tk us sid,
    rs_token r = Some tk /\ rs_user r = Some us /\ rs_session_id r = Some sid
    /\ verify_jwt_token hs256 JWT_SECRET tk t w' = (Ok (Some (tk_payload tk)), w')
    /\ p_user_id (tk_payload tk) = us_id us
    /\ p_username (tk_payload tk) = us_username us
    /\ p_email (tk_payload tk) = us_email us
    /\ p_role (tk_payload tk) = us_role us
    /\ exists session,
         redis w' !! ("session:" +:+ sid)
         = Some (Entry session (Some (e_now env + SESSION_TIMEOUT * 60 * us_per_second))).
Proof. apply login_success_token. Qed.

(** X17: an answer carries a CAPTCHA challenge exactly when its error
    code is CAPTCHA_REQUIRED or INVALID_CAPTCHA; the challenge is then
    stored under its id for 300 seconds, and answering it with the sum of
    the operands drawn for the request passes [verify_captcha] within
    that time. *)
Theorem login_challenge_is_stored
    (body : option login_request) (env : request_env) (w : world) :
  exists r w',
    login hs256 JWT_SECRET check_password_hash body env w = (Ok r, w')
    /\ match rs_captcha r with
       | Some ch =>
           (rs_error_code r = Some "CAPTCHA_REQUIRED"
            \/ rs_error_code r = Some "INVALID_CAPTCHA")
           /\ ch = issued_challenge env
           /\ redis w' !! ("captcha:" +:+ ch_captcha_id ch)
              = Some (Entry (py_str (e_num1 env + e_num2 env))
                        (Some (e_now env + 300 * us_per_second)))
           /\ forall t,
                t < e_now env + 300 * us_per_second ->
                fst (verify_captcha (ch_captcha_id ch)
                       (py_str (e_num1 env + e_num2 env)) t w') = Ok true
       | None =>
           rs_error_code r <> Some "CAPTCHA_REQUIRED"
           /\ rs_error_code r <> Some "INVALID_CAPTCHA"
       end.
Proof.
  destruct (login_branch_total hs256 JWT_SECRET check_password_hash body env w)
    as (r & w' & Hlogin & Hb).
  exists r, w'. split; [exact Hlogin|].
  assert (Hstored : forall w0,
             let w1 := snd (generate_captcha (e_num1 env) (e_num2 env)
                              (e_captcha_uuid env) (e_now env) w0) in
             redis w1 !! ("captcha:" +:+ ch_captcha_id (issued_challenge env))
             = Some (Entry (py_str (e_num1 env + e_num2 env))
                       (Some (e_now env + 300 * us_per_second)))
             /\ forall t,
                  t < e_now env + 300 * us_per_second ->
                  fst (verify_captcha (ch_captcha_id (issued_challenge env))
                         (py_str (e_num1 env + e_num2 env)) t w1) = Ok true).
  { intros w0 w1. subst w1. rewrite generate_captcha_runs. cbn [snd].
    assert (Hk : redis (set_redis
                          (insert ("captcha:" +:+ e_captcha_uuid env)
                             (Entry (py_str (e_num1 env + e_num2 env))
                                (Some (e_now env + 300 * us_per_second)))) w0)
                 !! ("captcha:" +:+ ch_captcha_id (issued_challenge env))
                 = Some (Entry (py_str (e_num1 env + e_num2 env))
                           (Some (e_now env + 300 * us_per_second)))).
    { cbn. apply lookup_insert_eq. }
    split; [exact Hk|]. intros t Ht.
    rewrite (verify_stored_captcha _ _ t _ _ Hk); auto.
    - apply py_str_nonempty.
    - apply strip_py_str. }
  destruct Hb as [ | | | | | |d w1 u0 r w2 _ _ _ _ _ _ Hg| | ];
    try (cbn; split; discriminate).
  - inversion Hg; subst; cbn [rs_captcha captcha_rejection rs_error_code].
    + split; [now left|]. split; [reflexivity|]. apply Hstored.
    + split; [now right|]. split; [reflexivity|]. apply Hstored.
  - unfold wrong_password_response.
    destruct (failed_login_attempts u + 1 >=? MAX_LOGIN_ATTEMPTS);
      cbn; split; discriminate.
Qed.

End LoginResults.

(** ** Bearer headers *)

Lemma split_space_no_space t : no_space t = true -> split_space t = [t].
Proof.
  induction t as [|a t IH]; [reflexivity|].
  cbn [no_space split_space]. intros H. apply andb_true_iff in H as [Ha Ht].
  rewrite (IH Ht).
  destruct (Ascii.eqb_spec a " "%char) as [->|_]; [discriminate Ha|reflexivity].
Qed.

Lemma split_space_first p t :
  no_space p = true -> split_space (p +:+ String " "%char t) = p :: split_space t.
Proof.
  induction p as [|a p IH]; [reflexivity|].
  cbn [no_space]. intros H. apply andb_true_iff in H as [Ha Hp].
  change (String a p +:+ String " "%char t) with (String a (p +:+ String " "%char t)).
  cbn [split_space]. rewrite (IH Hp).
  destruct (Ascii.eqb_spec a " "%char) as [->|_]; [discriminate Ha|reflexivity].
Qed.

Lemma bearer_text_bearer t : no_space t = true -> bearer_text ("Bearer " +:+ t) = t.
Proof.
  intros H. unfold bearer_text.
  change ("Bearer " +:+ t) with ("Bearer" +:+ String " "%char t).
  rewrite split_space_first by reflexivity.
  now rewrite (split_space_no_space t H).
Qed.

Lemma no_bearer_bearer t : no_bearer (Some ("Bearer " +:+ t)) = false.
Proof. destruct t; vm_compute; reflexivity. Qed.

(** ** From [GET /api/captcha] to [login] *)

Section CaptchaFlow.

Variable hs256 : string -> jwt_payload -> string.
Variable JWT_SECRET : string.
Variable check_password_hash : string -> string -> bool.

(** X18: [get_captcha] always answers 200 with a challenge, and a login
    that presents the id of that challenge with the sum of its operands
    before the 300 seconds are over is never stopped at the CAPTCHA gate:
    its answer is neither CAPTCHA_REQUIRED nor INVALID_CAPTCHA, whatever
    the state of the account. *)
Theorem fetched_challenge_passes_gate
    (env0 env : request_env) (data : login_request) (w : world) :
  e_captcha_uuid env0 <> EmptyString ->
  rq_captcha_id data = Some (e_captcha_uuid env0) ->
  rq_captcha_answer data = Some (py_str (e_num1 env0 + e_num2 env0)) ->
  e_now env < e_now env0 + 300 * us_per_second ->
  fst (get_captcha env0 w)
  = Ok {| cr_status := 200; cr_success := true;
          cr_captcha := Some (issued_challenge env0); cr_message := None |}
  /\ exists r w',
       login hs256 JWT_SECRET check_password_hash (Some data) env
         (snd (get_captcha env0 w)) = (Ok r, w')
       /\ rs_error_code r <> Some "CAPTCHA_REQUIRED"
       /\ rs_error_code r <> Some "INVALID_CAPTCHA".
Proof.
  intros Huuid Hid Hans Hnow.
  split; [reflexivity|].
  set (w0 := snd (get_captcha env0 w)).
  assert (Hk0 : redis w0 !! ("captcha:" +:+ e_captcha_uuid env0)
                = Some (Entry (py_str (e_num1 env0 + e_num2 env0))
                          (Some (e_now env0 + 300 * us_per_second)))).
  { subst w0. cbn. apply lookup_insert_eq. }
  destruct (login_branch_total hs256 JWT_SECRET check_password_hash (Some data) env w0)
    as (r & w' & Hlogin & Hb).
  exists r, w'. split; [exact Hlogin|].
  destruct Hb as [ |d e w1 Hd _ Hrl|d w1 Hd _ Hrl|d w1 Hd _ Hrl Hf
                  |d w1 u0 Hd _ Hrl Hf Ha|d w1 u0 Hd _ Hrl Hf Ha Hl
                  |d w1 u0 r w2 Hd _ Hrl Hf Ha Hl Hg
                  |d w1 u0 w2 Hd _ Hrl Hf Ha Hl Hg Hpw
                  |d w1 u0 w2 Hd _ Hrl Hf Ha Hl Hg Hpw];
    try (cbn; split; discriminate).
  - injection Hd as <-.
    assert (Hk1 : redis w1 !! ("captcha:" +:+ e_captcha_uuid env0)
                  = Some (Entry (py_str (e_num1 env0 + e_num2 env0))
                            (Some (e_now env0 + 300 * us_per_second)))).
    { pose proof (check_rate_limit_redis (login_client_id data env) 10 300
                    (e_now env) w0) as Hred.
      rewrite Hrl in Hred. cbn [snd] in Hred.
      destruct Hred as [->|[e ->]]; [exact Hk0|].
      rewrite lookup_insert_ne; [exact Hk0|].
      intros H. symmetry in H. now apply captcha_key_ne_rate in H. }
    assert (Htid : truthy (Some (e_captcha_uuid env0)) = true).
    { cbn. destruct (String.eqb_spec (e_captcha_uuid env0) EmptyString);
        [contradiction|reflexivity]. }
    assert (Htans : truthy (Some (py_str (e_num1 env0 + e_num2 env0))) = true).
    { cbn. destruct (String.eqb_spec (py_str (e_num1 env0 + e_num2 env0)) EmptyString)
        as [H|_]; [now apply py_str_nonempty in H|reflexivity]. }
    rewrite Hid, Hans in Hg.
    inversion Hg as [ |Hge Hmiss|Hge Htc Hta Hv| ]; subst.
    + rewrite Htid, Htans in Hmiss. discriminate Hmiss.
    + cbv [from_option Datatypes.id] in Hv.
      rewrite (verify_stored_captcha _ _ (e_now env) _ w1 Hk1) in Hv;
        [discriminate Hv|apply py_str_nonempty|apply strip_py_str|exact Hnow].
  - unfold wrong_password_response.
    destruct (failed_login_attempts u0 + 1 >=? MAX_LOGIN_ATTEMPTS);
      cbn; split; discriminate.
Qed.

End CaptchaFlow.

(** ** The token endpoints *)

Section TokenEndpoints.

Variable hs256 : string -> jwt_payload -> string.
Variable JWT_SECRET : string.
Variable decode_compact : string -> option token.



End TokenEndpoints.

(** ** Login, verify-token and logout together *)

Section SessionFlow.

Variable hs256 : string -> jwt_payload -> string.
Variable JWT_SECRET : string.
Variable check_password_hash : string -> string -> bool.
Variable decode_compact : string -> option token.

(** X20: the token of a successful login, sent back as a bearer header,
    is reported valid by [verify_token] at every instant from the second
    of its ['iat'] on and before its expiry, with the id, username,
    email and role of the account summary of the login answer (the jti
    drawn for the token not being on the revocation list beforehand). *)
Theorem login_token_passes_verify_token
    (body : option login_request) (env env' : request_env) (w : world)
    (r : response) (text : string) :
  fst (login hs256 JWT_SECRET check_password_hash body env w) = Ok r ->
  rs_success r = true ->
  redis w !! ("blacklist:" +:+ e_jti env) = None ->
  timegm (e_utc_iat env) <= timegm (e_now env') ->
  timegm (e_now env') < timegm (e_utc_exp env) + JWT_EXPIRATION_HOURS * 3600 ->
  no_space text = true ->
  (forall tk, rs_token r = Some tk -> decode_compact text = Some tk) ->
  let w' := snd (login hs256 JWT_SECRET check_password_hash body env w) in
  exists tk us,
    rs_token r = Some tk /\ rs_user r = Some us
    /\ verify_token hs256 JWT_SECRET decode_compact (Some ("Bearer " +:+ text)) env' w'
       = (Ok {| vr_status := 200; vr_valid := true; vr_message := None;
                vr_user := Some {| tu_id := us_id us; tu_username := us_username us;
                                   tu_email := us_email us; tu_role := us_role us |};
                vr_expires_at := Some (p_exp (tk_payload tk)) |},
          w').
Proof.
  intros Hr Hsucc Hfree Hiat Hexp Htext Hdec w'.
  destruct (login_success_token hs256 JWT_SECRET check_password_hash body env w r
              (e_now env') Hr Hsucc Hfree Hiat Hexp)
    as (tk & us & sid & Htk & Hus & _ & Hver & Hid & Hname & Hmail & Hrole & _).
  fold w' in Hver.
  exists tk, us. split; [exact Htk|]. split; [exact Hus|].
  unfold verify_token, try_except.
  rewrite no_bearer_bearer. cbv [from_option Datatypes.id].
  rewrite (bearer_text_bearer text Htext).
  unfold bind, verify_jwt_text. rewrite (Hdec tk Htk), Hver.
  cbn [ret]. now rewrite Hid, Hname, Hmail, Hrole.
Qed.

(** X21: a logout with a bearer token that verifies -- and has no more
    than 24 hours left, as every issued token has -- and with a JSON
    object as its body is answered 200; it puts the token on the
    revocation list and deletes the session named in the body, whichever
    account that session belongs to.  From then on [verify_token]
    answers 401 for the token and a second logout with it is answered
    INVALID_TOKEN, at every instant and whatever its body. *)
Theorem logout_revokes_token_and_session
    (text : string) (tk : token) (session_id : option string)
    (env : request_env) (w : world) :
  no_space text = true ->
  decode_compact text = Some tk ->
  signed hs256 JWT_SECRET tk = true ->
  p_iat (tk_payload tk) <= timegm (e_now env) ->
  timegm (e_now env) < p_exp (tk_payload tk) ->
  p_exp (tk_payload tk) <= timegm (e_now env) + JWT_EXPIRATION_HOURS * 3600 ->
  truthy (value <$> live_entry (e_now env) ("blacklist:" +:+ p_jti (tk_payload tk))
                      (redis w)) = false ->
  let rq := {| lo_authorization := Some ("Bearer " +:+ text);
               lo_body := JsonObject session_id |} in
  let w' := snd (logout hs256 JWT_SECRET decode_compact rq env w) in
  fst (logout hs256 JWT_SECRET decode_compact rq env w)
  = Ok {| lr_status := 200; lr_success := true; lr_message := "Logout successful";
          lr_error_code := None |}
  /\ (truthy session_id = true ->
      redis w' !! ("session:" +:+ default EmptyString session_id) = None)
  /\ test_users w' = test_users w
  /\ (forall env',
        verify_token hs256 JWT_SECRET decode_compact (Some ("Bearer " +:+ text)) env' w'
        = (Ok {| vr_status := 401; vr_valid := false;
                 vr_message := Some "Invalid or expired token";
                 vr_user := None; vr_expires_at := None |}, w'))
  /\ (forall env' body',
        logout hs256 JWT_SECRET decode_compact
          {| lo_authorization := Some ("Bearer " +:+ text);
             lo_body := body' |} env' w'
        = (Ok {| lr_status := 401; lr_success := false;
                 lr_message := "Invalid or expired token";
                 lr_error_code := Some "INVALID_TOKEN" |}, w')).
Proof.
  intros Htext Hdec Hs Hiat Hexp Hlife Hfree rq w'.
  assert (Hrun : logout hs256 JWT_SECRET decode_compact rq env w
                 = (Ok {| lr_status := 200; lr_success := true;
                          lr_message := "Logout successful"; lr_error_code := None |},
                    snd (log_auth_event (p_user_id (tk_payload tk)) "logout" true
                           (Some (e_client env)) env
                           (snd ((if truthy session_id
                                  then redis_delete
                                         ("session:" +:+ default EmptyString session_id)
                                  else ret tt)
                                   (set_redis
                                      (insert ("blacklist:" +:+ p_jti (tk_payload tk))
                                         (Entry "blacklisted"
                                            (Some (e_now env + 86400 * us_per_second))))
                                      w)))))).
  { unfold logout, try_except. subst rq. cbn [lo_authorization lo_body].
    rewrite no_bearer_bearer. cbv [from_option Datatypes.id].
    rewrite (bearer_text_bearer text Htext).
    unfold bind at 1. unfold verify_jwt_text. rewrite Hdec.
    rewrite (verify_jwt_token_accepts hs256 JWT_SECRET tk (e_now env) w
               Hs Hiat Hexp Hfree).
    unfold bind at 1. unfold blacklist_text. rewrite Hdec.
    rewrite blacklist_token_cases, Hs.
    apply Z.leb_le in Hiat. rewrite Hiat. cbn [andb].
    unfold bind at 1. cbn [logout_session_id ret].
    unfold bind at 1.
    destruct (truthy session_id); reflexivity. }
  assert (Hlisted : redis w' !! ("blacklist:" +:+ p_jti (tk_payload tk))
                    = Some (Entry "blacklisted"
                              (Some (e_now env + 86400 * us_per_second)))).
  { subst w'. rewrite Hrun. cbn [snd log_auth_event add_event redis].
    destruct (truthy session_id); cbn [snd redis_delete ret set_redis redis].
    - rewrite lookup_delete_ne by apply session_key_ne_blacklist.
      apply lookup_insert_eq.
    - apply lookup_insert_eq. }
  assert (Hrefused : forall t, verify_jwt_token hs256 JWT_SECRET tk t w' = (Ok None, w')).
  { intros t. apply (verify_jwt_token_listed hs256 JWT_SECRET tk t w' _ Hlisted).
    - discriminate.
    - intros Ht. unfold live. cbn [expire_at]. apply Z.ltb_lt.
      apply (timegm_lt_seconds t (e_now env) 86400).
      unfold JWT_EXPIRATION_HOURS in Hlife. lia. }
  split; [now rewrite Hrun|].
  split.
  { intros Hsid. subst w'. rewrite Hrun, Hsid.
    cbn [snd log_auth_event add_event redis redis_delete set_redis].
    apply lookup_delete_eq. }
  split.
  { subst w'. rewrite Hrun. destruct (truthy session_id); reflexivity. }
  split.
  - intros env'. unfold verify_token, try_except.
    rewrite no_bearer_bearer. cbv [from_option Datatypes.id].
    rewrite (bearer_text_bearer text Htext).
    unfold bind, verify_jwt_text. rewrite Hdec, Hrefused. reflexivity.
  - intros env' body'. unfold logout, try_except.
    cbn [lo_authorization lo_body].
    rewrite no_bearer_bearer. cbv [from_option Datatypes.id].
    rewrite (bearer_text_bearer text Htext).
    unfold bind, verify_jwt_text. rewrite Hdec, Hrefused. reflexivity.
Qed.


End SessionFlow.

(** ** Password reset *)

(** X23: [password_reset] answers 500 to a request without a body and
    400 MISSING_EMAIL when the address, stripped, is empty, writing
    nothing.  Otherwise it answers 200 with one and the same message
    whether the address belongs to an account or not, and never touches
    the account table; but only for a known address does it store the
    reset record (for 3600 seconds, under the drawn token), log one
    event and put the token in the answer -- for an unknown address the
    stores are unchanged and [reset_token] is null, so the answer tells
    the two apart. *)
Theorem password_reset_outcomes
    (body : option reset_request) (env : request_env) (reset_token : string)
    (w : world) :
  exists r w',
    password_reset body env reset_token w = (Ok r, w')
    /\ test_users w' = test_users w
    /\ match body with
       | None => pw_status r = 500 /\ w' = w
       | Some data =>
           let address := lower (strip (default EmptyString (pr_email data))) in
           if String.eqb address EmptyString then
             pw_status r = 400 /\ pw_error_code r = Some "MISSING_EMAIL"
             /\ pw_reset_token r = None /\ w' = w
           else
             pw_status r = 200 /\ pw_success r = true
             /\ pw_message r
                = "If the email address exists in our system, a password reset link has been sent."
             /\ match find_user_by_email address (test_users w) with
                | None => pw_reset_token r = None /\ w' = w
                | Some u =>
                    pw_reset_token r = Some reset_token
                    /\ redis w'
                       = <["password_reset:" +:+ reset_token :=
                             Entry (reset_json u (plus_hours (e_now env) 1))
                               (Some (e_now env + 3600 * us_per_second))]> (redis w)
                    /\ exists ev,
                         auth_events_log w' = (auth_events_log w ++ [ev])%list
                         /\ ev_event_type ev = "password_reset_requested"
                         /\ ev_user_id ev = py_str (id u)
                end
       end.
Proof.
  unfold password_reset, try_except.
  destruct body as [data|].
  - destruct (String.eqb (lower (strip (default EmptyString (pr_email data))))
                EmptyString) eqn:Hblank.
    + eexists _, _. split; [reflexivity|]. repeat split.
    + unfold bind at 1.
      destruct (find_user_by_email _ (test_users w)) as [u|] eqn:Hfind.
      * eexists _, _. split; [reflexivity|]. repeat split.
        eexists. repeat split.
      * eexists _, _. split; [reflexivity|]. repeat split.
  - eexists _, _. split; [reflexivity|]. repeat split.
Qed.

(** A known and an unknown address, side by side. *)
Example password_reset_tells_accounts_apart :
  pw_reset_token <$>
    (match fst (password_reset (Some {| pr_email := Some " Alice@Example.com " |})
                  (sample_env 5) "reset-1" (alice_world 0 false)) with
     | Ok r => Some r | Raise _ => None end)
  = Some (Some "reset-1")
  /\ pw_reset_token <$>
       (match fst (password_reset (Some {| pr_email := Some "bob@example.com" |})
                     (sample_env 5) "reset-1" (alice_world 0 false)) with
        | Ok r => Some r | Raise _ => None end)
     = Some None.
Proof. vm_compute. split; reflexivity. Qed.

(** ** Biometric login *)

Lemma find_same_template (f : biometric_row -> bool) rows rows' :
  (forall b b', same_template b b' -> f b' = f b) ->
  Forall2 same_template rows rows' ->
  match List.find f rows, List.find f rows' with
  | Some b, Some b' => same_template b b'
  | None, None => True
  | _, _ => False
  end.
Proof.
  intros Hf H. induction H as [|b b' rows rows' Hb _ IH]; [exact I|].
  cbn [List.find]. rewrite (Hf b b' Hb). destruct (f b); [exact Hb|exact IH].
Qed.

Lemma touch_same_template uid biometric_type now rows :
  Forall2 same_template rows (touch_biometric uid biometric_type now rows).
Proof.
  induction rows as [|b rows IH]; [constructor|].
  cbn [touch_biometric List.map]. constructor; [|exact IH].
  destruct ((b_user_id b =? uid) && String.eqb (b_biometric_type b) biometric_type);
    repeat split.
Qed.

Lemma same_template_refl rows : Forall2 same_template rows rows.
Proof. induction rows; constructor; auto. repeat split. Qed.

Lemma same_template_trans rows1 rows2 rows3 :
  Forall2 same_template rows1 rows2 -> Forall2 same_template rows2 rows3 ->
  Forall2 same_template rows1 rows3.
Proof.
  intros H12. revert rows3.
  induction H12 as [|b1 b2 rows1 rows2 Hb _ IH]; intros rows3 H23.
  - inversion H23. constructor.
  - inversion H23 as [|? b3 ? rows3' Hb' Hrest]; subst.
    constructor; [|now apply IH].
    destruct Hb as (? & ? & ? & ? & ?), Hb' as (? & ? & ? & ? & ?).
    repeat split; congruence.
Qed.

(** The session of a biometric login is always stored: the time to live
    is a positive constant. *)
Lemma biometric_session_stored key v uid event_type ok ci env bw :
  in_world (run redis_setex (e_now env) key (SESSION_TIMEOUT * 60) v;
            log_auth_event uid event_type ok ci env) bw
  = (Ok tt,
     {| bw_world :=
          snd (log_auth_event uid event_type ok ci env
                 (set_redis
                    (insert key
                       (Entry v (Some (e_now env
                                       + SESSION_TIMEOUT * 60 * us_per_second))))
                    (bw_world bw)));
        biometric_test_data := biometric_test_data bw |}).
Proof. reflexivity. Qed.

Section BiometricProperties.

Variable hs256 : string -> jwt_payload -> string.
Variable JWT_SECRET : string.

(** What one biometric request leaves alone. *)
Lemma biometric_auth_frame body env bw :
  let bw' := snd (biometric_auth hs256 JWT_SECRET body env bw) in
  (exists r, fst (biometric_auth hs256 JWT_SECRET body env bw) = Ok r)
  /\ test_users (bw_world bw') = test_users (bw_world bw)
  /\ (forall key, (forall x, "session:" +:+ x <> key) ->
                  redis (bw_world bw') !! key = redis (bw_world bw) !! key)
  /\ Forall2 same_template (biometric_test_data bw) (biometric_test_data bw').
Proof.
  unfold biometric_auth.
  destruct body as [data|];
    [|cbn; repeat split; eauto using same_template_refl].
  destruct (negb (truthy (bq_username data) && truthy (bq_biometric_type data)
                  && truthy (bq_biometric_data data)));
    [cbn; repeat split; eauto using same_template_refl|].
  destruct (biometric_join _ _ (test_users (bw_world bw)) (biometric_test_data bw))
    as [[u joined]|];
    [|cbn; repeat split; eauto using same_template_refl].
  destruct (id u =? 0); [cbn; repeat split; eauto using same_template_refl|].
  destruct (negb (is_active u)); [cbn; repeat split; eauto using same_template_refl|].
  destruct (is_locked u); [cbn; repeat split; eauto using same_template_refl|].
  destruct (negb (match joined with Some b => b_is_enrolled b | None => false end)
            || negb (truthy (match joined with
                             | Some b => b_template_data b
                             | None => None
                             end)));
    [cbn; repeat split; eauto using same_template_refl|].
  destruct (String.eqb _ _);
    [|cbn; repeat split; eauto using same_template_refl].
  cbv zeta. rewrite biometric_session_stored.
  cbn [fst snd bw_world biometric_test_data log_auth_event add_event set_redis
       test_users redis].
  repeat split; eauto using touch_same_template.
  intros key Hkey. now rewrite lookup_insert_ne by apply Hkey.
Qed.

(** The answer depends on the account table and on the templates only. *)
Lemma biometric_auth_answer body env bw1 bw2 :
  test_users (bw_world bw1) = test_users (bw_world bw2) ->
  Forall2 same_template (biometric_test_data bw1) (biometric_test_data bw2) ->
  fst (biometric_auth hs256 JWT_SECRET body env bw1)
  = fst (biometric_auth hs256 JWT_SECRET body env bw2).
Proof.
  intros Hus Hrows. unfold biometric_auth.
  destruct body as [data|]; [|reflexivity].
  destruct (negb (truthy (bq_username data) && truthy (bq_biometric_type data)
                  && truthy (bq_biometric_data data))); [reflexivity|].
  unfold biometric_join. rewrite <- Hus.
  destruct (find_user _ (test_users (bw_world bw1))) as [u|]; [|reflexivity].
  set (f := fun b => (b_user_id b =? id u)
                      && String.eqb (b_biometric_type b)
                           (default EmptyString (bq_biometric_type data))
                      && b_is_active b).
  assert (Hf : forall b b', same_template b b' -> f b' = f b).
  { intros b b' (Hu & Ht & _ & _ & Ha). unfold f. now rewrite Hu, Ht, Ha. }
  pose proof (find_same_template f _ _ Hf Hrows) as Hjoin.
  destruct (List.find f (biometric_test_data bw1)) as [b1|],
           (List.find f (biometric_test_data bw2)) as [b2|];
    try contradiction.
  - destruct Hjoin as (_ & _ & Ht & He & _). rewrite Ht, He.
    destruct (id u =? 0); [reflexivity|].
    destruct (negb (is_active u)); [reflexivity|].
    destruct (is_locked u); [reflexivity|].
    destruct (negb (b_is_enrolled b1) || negb (truthy (b_template_data b1)));
      [reflexivity|].
    destruct (String.eqb _ _); reflexivity.
  - destruct (id u =? 0); [reflexivity|].
    destruct (negb (is_active u)); [reflexivity|].
    destruct (is_locked u); reflexivity.
Qed.

(** X24: the biometric flow keeps no count.  Whatever biometric requests
    are served, the account table -- failure counters and lock flags
    included -- is unchanged, no key of the ephemeral store outside
    [session:] is written, so no rate-limit counter moves, the biometric
    rows change at most in [last_used]; and the answer to a biometric
    request is the same after any number of earlier ones: the function
    itself never locks an account out and never calls
    [check_rate_limit], however often a wrong template is tried. *)
Theorem biometric_flow_keeps_no_count
    (calls : list (option biometric_request * request_env)) (bw : bio_world) :
  let bw' := snd (biometric_logins hs256 JWT_SECRET calls bw) in
  test_users (bw_world bw') = test_users (bw_world bw)
  /\ (forall key, (forall x, "session:" +:+ x <> key) ->
                  redis (bw_world bw') !! key = redis (bw_world bw) !! key)
  /\ Forall2 same_template (biometric_test_data bw) (biometric_test_data bw')
  /\ forall body env,
       fst (biometric_auth hs256 JWT_SECRET body env bw')
       = fst (biometric_auth hs256 JWT_SECRET body env bw).
Proof.
  assert (Hframe : test_users (bw_world (snd (biometric_logins hs256 JWT_SECRET calls bw)))
                   = test_users (bw_world bw)
                   /\ (forall key, (forall x, "session:" +:+ x <> key) ->
                         redis (bw_world (snd (biometric_logins hs256 JWT_SECRET calls bw)))
                         !! key = redis (bw_world bw) !! key)
                   /\ Forall2 same_template (biometric_test_data bw)
                        (biometric_test_data
                           (snd (biometric_logins hs256 JWT_SECRET calls bw)))).
  { revert bw. induction calls as [|[body env] rest IH]; intros bw.
    - cbn. repeat split. apply same_template_refl.
    - cbn [biometric_logins].
      pose proof (biometric_auth_frame body env bw) as (_ & Hus & Hred & Hrows).
      destruct (biometric_auth hs256 JWT_SECRET body env bw) as [r bw1].
      cbn [snd] in *.
      specialize (IH bw1) as (Hus' & Hred' & Hrows').
      destruct (biometric_logins hs256 JWT_SECRET rest bw1) as [rs bw2].
      cbn [snd] in *. repeat split.
      + congruence.
      + intros key Hkey. rewrite Hred' by exact Hkey. now apply Hred.
      + eapply same_template_trans; eauto. }
  intros bw'. subst bw'. destruct Hframe as (Hus & Hred & Hrows).
  repeat split; auto.
  intros body env. symmetry. now apply biometric_auth_answer.
Qed.

Lemma lookup_map {A B} (f : A -> B) (l : list A) (i : nat) :
  List.map f l !! i = f <$> l !! i.
Proof.
  revert i. induction l as [|a l IH]; intros [|i]; cbn; auto.
Qed.

Lemma truthy_some (o : option string) :
  truthy o = true <-> exists s, o = Some s /\ s <> EmptyString.
Proof.
  destruct o as [s|]; cbn.
  - rewrite negb_true_iff, String.eqb_neq. split.
    + intros H. now exists s.
    + now intros (s' & [= <-] & H).
  - split; [discriminate|]. now intros (s' & H & _).
Qed.

Lemma b64encode_nonempty (s : string) :
  s <> EmptyString -> b64encode s <> EmptyString.
Proof.
  destruct s as [|a [|b [|c s]]]; [congruence| | |]; intros _; discriminate.
Qed.

(** The answer and the stores after a biometric request that the
    conditions of [biometric_match] let in. *)
Lemma biometric_auth_match data env bw u b :
  biometric_match data bw u b ->
  biometric_auth hs256 JWT_SECRET (Some data) env bw
  = (Ok {| br_status := 200; br_success := true;
           br_message := "Biometric authentication successful";
           br_error_code := None;
           br_token :=
             Some (generate_jwt_token hs256 JWT_SECRET (user_data_of_row u)
                     (e_utc_exp env) (e_utc_iat env) (e_jti env));
           br_session_id := Some (e_session_uuid env);
           br_user := Some {| tu_id := py_str (id u); tu_username := username u;
                              tu_email := email u; tu_role := user_role u |};
           br_auth_method := Some "biometric";
           br_biometric_type := bq_biometric_type data;
           br_expires_in := Some (JWT_EXPIRATION_HOURS * 3600) |},
     {| bw_world :=
          snd (log_auth_event (py_str (id u))
                 ("biometric_success_" +:+ default EmptyString (bq_biometric_type data))
                 true (Some (e_client env)) env
                 (set_redis
                    (insert ("session:" +:+ e_session_uuid env)
                       (Entry (biometric_session_json u
                                 (default EmptyString (bq_biometric_type data)) env)
                          (Some (e_now env + SESSION_TIMEOUT * 60 * us_per_second))))
                    (bw_world bw)));
        biometric_test_data :=
          touch_biometric (id u) (default EmptyString (bq_biometric_type data))
            (e_now env) (biometric_test_data bw) |}).
Proof.
  intros (name & ty & template & Hname & Hname' & Hty & Hty' & Hu & Hid & Hact
          & Hlock & Hb & Henr & Htpl & Htpl' & Hdata).
  unfold biometric_auth, biometric_join.
  assert (Hfields : truthy (bq_username data) && truthy (bq_biometric_type data)
                    && truthy (bq_biometric_data data) = true).
  { rewrite !andb_true_iff. repeat split; apply truthy_some; eauto.
    eexists. split; [exact Hdata|]. now apply b64encode_nonempty. }
  rewrite Hfields. cbn [negb]. rewrite Hname, Hty, Hdata.
  cbv [from_option Datatypes.id]. rewrite Hu.
  fold (id u). rewrite Hb.
  apply Z.eqb_neq in Hid. rewrite Hid, Hact, Hlock, Henr, Htpl. cbn [negb orb].
  assert (Ht : truthy (Some template) = true)
    by (apply truthy_some; eauto).
  rewrite Ht. cbn [negb]. rewrite String.eqb_refl.
  cbv zeta. rewrite biometric_session_stored. reflexivity.
Qed.

(** A biometric request answered with success met the conditions. *)
Lemma biometric_auth_success data env bw r :
  fst (biometric_auth hs256 JWT_SECRET (Some data) env bw) = Ok r ->
  br_success r = true ->
  exists u b, biometric_match data bw u b.
Proof.
  unfold biometric_auth, biometric_join. intros Hr Hsucc.
  destruct (truthy (bq_username data) && truthy (bq_biometric_type data)
            && truthy (bq_biometric_data data)) eqn:Hfields;
    cbn [negb] in Hr; [|injection Hr as <-; discriminate Hsucc].
  rewrite !andb_true_iff in Hfields. destruct Hfields as [[Hname Hty] Hdata].
  apply truthy_some in Hname as (name & Hname & Hname').
  apply truthy_some in Hty as (ty & Hty & Hty').
  apply truthy_some in Hdata as (bd & Hdata & _).
  rewrite Hname, Hty, Hdata in Hr. cbv [from_option Datatypes.id] in Hr.
  destruct (find_user name (test_users (bw_world bw))) as [u|] eqn:Hu;
    [|cbn in Hr; injection Hr as <-; discriminate Hsucc].
  fold (id u) in Hr.
  destruct (id u =? 0) eqn:Hid;
    [cbn in Hr; injection Hr as <-; discriminate Hsucc|].
  destruct (is_active u) eqn:Hact; cbn [negb] in Hr;
    [|injection Hr as <-; discriminate Hsucc].
  destruct (is_locked u) eqn:Hlock; [injection Hr as <-; discriminate Hsucc|].
  destruct (List.find _ (biometric_test_data bw)) as [b|] eqn:Hb;
    [|cbn in Hr; injection Hr as <-; discriminate Hsucc].
  destruct (b_is_enrolled b) eqn:Henr; cbn [negb orb] in Hr;
    [|injection Hr as <-; discriminate Hsucc].
  destruct (truthy (b_template_data b)) eqn:Htpl; cbn [negb] in Hr;
    [|injection Hr as <-; discriminate Hsucc].
  apply truthy_some in Htpl as (template & Htpl & Htpl').
  rewrite Htpl in Hr.
  destruct (String.eqb bd (b64encode template)) eqn:Heq;
    [|cbn in Hr; injection Hr as <-; discriminate Hsucc].
  apply String.eqb_eq in Heq. subst bd. apply Z.eqb_neq in Hid.
  exists u, b, name, ty, template. repeat split; auto.
Qed.

(** X25: a biometric request is answered with success exactly when the
    account found by the name as given has a non-zero id, is active and
    not locked, its first active row of the wanted type is enrolled with
    a non-empty template, and [biometric_data] is the base64 text of that
    stored template.  Neither the failure counter of the account nor a
    CAPTCHA or [check_rate_limit] enters: what the request must present
    is the stored template itself. *)
Theorem biometric_success_exactly
    (data : biometric_request) (env : request_env) (bw : bio_world) :
  (exists r, fst (biometric_auth hs256 JWT_SECRET (Some data) env bw) = Ok r
             /\ br_success r = true)
  <-> exists u b, biometric_match data bw u b.
Proof.
  split.
  - intros (r & Hr & Hsucc). eapply biometric_auth_success; eauto.
  - intros (u & b & Hm). rewrite (biometric_auth_match data env bw u b Hm).
    eexists. split; reflexivity.
Qed.

(** X26: what a successful biometric login leaves behind.  The token in
    the answer carries the id, username, email and role of the account
    and is accepted by [verify_jwt_token] against the new stores at
    every instant from the second of its ['iat'] on and before its
    expiry (its jti not being on the revocation list beforehand); the
    session is stored for 30 minutes; and
    [last_used] is set on every row of the account and type -- also on
    rows that are not active, which the join had left out -- while all
    other rows are as they were. *)
Theorem biometric_login_effects
    (data : biometric_request) (env : request_env) (bw : bio_world)
    (r : biometric_response) (t : Z) :
  fst (biometric_auth hs256 JWT_SECRET (Some data) env bw) = Ok r ->
  br_success r = true ->
  redis (bw_world bw) !! ("blacklist:" +:+ e_jti env) = None ->
  timegm (e_utc_iat env) <= timegm t ->
  timegm t < timegm (e_utc_exp env) + JWT_EXPIRATION_HOURS * 3600 ->
  let bw' := snd (biometric_auth hs256 JWT_SECRET (Some data) env bw) in
  exists u tk sid biometric_type,
    find_user (default EmptyString (bq_username data)) (test_users (bw_world bw))
    = Some u
    /\ bq_biometric_type data = Some biometric_type
    /\ br_token r = Some tk /\ br_session_id r = Some sid
    /\ br_user r = Some {| tu_id := p_user_id (tk_payload tk);
                           tu_username := p_username (tk_payload tk);
                           tu_email := p_email (tk_payload tk);
                           tu_role := p_role (tk_payload tk) |}
    /\ p_user_id (tk_payload tk) = py_str (id u)
    /\ verify_jwt_token hs256 JWT_SECRET tk t (bw_world bw')
       = (Ok (Some (tk_payload tk)), bw_world bw')
    /\ (exists session,
          redis (bw_world bw') !! ("session:" +:+ sid)
          = Some (Entry session
                    (Some (e_now env + SESSION_TIMEOUT * 60 * us_per_second))))
    /\ length (biometric_test_data bw') = length (biometric_test_data bw)
    /\ forall i b,
         biometric_test_data bw !! i = Some b ->
         biometric_test_data bw' !! i
         = Some (if (b_user_id b =? id u)
                    && String.eqb (b_biometric_type b) biometric_type
                 then {| b_user_id := b_user_id b;
                         b_biometric_type := b_biometric_type b;
                         b_template_data := b_template_data b;
                         b_is_enrolled := b_is_enrolled b;
                         b_is_active := b_is_active b;
                         b_last_used := Some (e_now env) |}
                 else b).
Proof.
  intros Hr Hsucc Hfree Hiat Hexp bw'.
  destruct (biometric_auth_success data env bw r Hr Hsucc) as (u & b & Hm).
  pose proof (biometric_auth_match data env bw u b Hm) as Hrun.
  destruct Hm as (name & ty & template & Hname & _ & Hty & _ & Hu & _).
  subst bw'. rewrite Hrun in Hr |- *. cbn [fst snd] in *. injection Hr as <-.
  rewrite Hname, Hty. cbv [from_option Datatypes.id].
  eexists u, _, _, ty. cbn [br_token br_session_id br_user bw_world
                            biometric_test_data].
  split; [exact Hu|]. split; [reflexivity|]. split; [reflexivity|].
  split; [reflexivity|]. split; [reflexivity|]. split; [reflexivity|].
  split; [|split; [|split]].
  - apply verify_jwt_token_accepts.
    + apply generated_signed.
    + exact Hiat.
    + cbn [tk_payload generate_jwt_token jwt_encode p_exp].
      rewrite timegm_plus_hours. exact Hexp.
    + cbn [tk_payload generate_jwt_token jwt_encode p_jti].
      unfold live_entry. cbn [log_auth_event add_event set_redis snd redis].
      rewrite lookup_insert_ne by apply session_key_ne_blacklist.
      now rewrite Hfree.
  - eexists. cbn [log_auth_event add_event set_redis snd redis].
    apply lookup_insert_eq.
  - unfold touch_biometric. now rewrite length_map.
  - intros i b0 Hi. unfold touch_biometric.
    now rewrite lookup_map, Hi.
Qed.

End BiometricProperties.

(** ** The risk score *)

(** X28: the cap of [calculate_risk_score] is never reached.  The score
    is the plain sum of its four increments, at most 75, so
    [min(risk_score, 100)] changes nothing; and a failed attempt scores
    exactly 30 more than a successful one from the same client at the
    same hour, hence never less than 30. *)
Theorem risk_score_cap_is_never_reached
    (ci : client_info) (success : bool) (hour : Z) :
  0 <= calculate_risk_score ci success hour <= 75
  /\ calculate_risk_score ci success hour
     = (if startswith (ip_address ci) "127." || startswith (ip_address ci) "192.168."
        then 10 else 0)
       + (if truthy (device_fingerprint ci) then 0 else 20)
       + (if success then 0 else 30)
       + (if (hour <? 6) || (hour >? 22) then 15 else 0)
  /\ calculate_risk_score ci false hour = calculate_risk_score ci true hour + 30.
Proof.
  unfold calculate_risk_score.
  destruct (startswith (ip_address ci) "127." || startswith (ip_address ci) "192.168."),
           (truthy (device_fingerprint ci)), ((hour <? 6) || (hour >? 22)), success;
    cbn [negb]; repeat split; lia.
Qed.

(** ** Instances on the sample data *)

(** X10 on five requests for alice while her account is locked. *)
Lemma blocked_account_stays_blocked_witness :
  test_users (snd (logins sample_hs256 sample_secret sample_check_password_hash
                     five_failures (alice_world 5 true)))
  = test_users (alice_world 5 true)
  /\ Forall (fun res => exists r, res = Ok r /\ rs_success r = false
                                   /\ rs_token r = None
                                   /\ password_failed r = false)
       (fst (logins sample_hs256 sample_secret sample_check_password_hash
               five_failures (alice_world 5 true))).
Proof.
  apply (blocked_account_stays_blocked sample_hs256 sample_secret
           sample_check_password_hash "alice" five_failures (alice_world 5 true)
           (alice 5 true)).
  - reflexivity.
  - left. reflexivity.
  - repeat constructor; eexists; (split; [reflexivity|vm_compute; reflexivity]).
Defined.

(** X11 on the five failures that lock alice. *)
Lemma logins_keep_lock_consistent_witness :
  lock_consistent
    (test_users (snd (logins sample_hs256 sample_secret sample_check_password_hash
                        five_failures (alice_world 0 false)))).
Proof.
  apply (logins_keep_lock_consistent sample_hs256 sample_secret
           sample_check_password_hash five_failures (alice_world 0 false)).
  constructor; [|constructor]. intros H. discriminate H.
Defined.

(** X13 on a client that has used up its window: the correct password
    is answered 429 as well. *)
Lemma login_rate_limited_before_credentials_witness :
  login sample_hs256 sample_secret sample_check_password_hash
    (Some {| rq_username := Some "alice"; rq_password := Some "correct horse";
             rq_captcha_id := None; rq_captcha_answer := None |})
    (sample_env 4) exhausted_world
  = (Ok (rejection 429 "Too many login attempts. Please try again later."
           "RATE_LIMITED"),
     snd (log_auth_event "alice" "login_rate_limited" false
            (Some sample_client) (sample_env 4) exhausted_world)).
Proof.
  apply (login_rate_limited_before_credentials sample_hs256 sample_secret
           sample_check_password_hash
           {| rq_username := Some "alice"; rq_password := Some "correct horse";
              rq_captcha_id := None; rq_captcha_answer := None |}
           (sample_env 4) exhausted_world 10 (300 * us_per_second)).
  - reflexivity.
  - vm_compute. reflexivity.
  - lia.
  - vm_compute. reflexivity.
Defined.

(** X14 on eleven requests of one client: the eleventh is answered
    429. *)
Lemma login_window_admits_ten_witness :
  exists res,
    fst (logins sample_hs256 sample_secret sample_check_password_hash
           ((sample_request "wrong" None, sample_env 1) :: ten_more_requests)
           (alice_world 0 false)) !! 10%nat = Some res
    /\ rate_limited_answer res = true.
Proof.
  eexists. split; [vm_compute; reflexivity|].
  refine (login_window_admits_ten sample_hs256 sample_secret
            sample_check_password_hash "8.8.8.8:alice"
            (sample_request "wrong" None, sample_env 1) ten_more_requests
            (alice_world 0 false) (ex_intro _ _ (conj eq_refl (conj eq_refl eq_refl)))
            eq_refl _ 10%nat _ _).
  - repeat constructor;
      try (eexists; split; [reflexivity|]; split; vm_compute; reflexivity).
  - vm_compute. reflexivity.
Defined.

(** X15 on a login that spells the name [" Alice "]. *)
Lemma login_finds_lower_case_names_witness :
  exists r,
    fst (login sample_hs256 sample_secret sample_check_password_hash
           (sample_request "correct horse" None) (sample_env 4) (alice_world 0 false))
    = Ok r
    /\ exists data u,
         sample_request "correct horse" None = Some data
         /\ In u (test_users (alice_world 0 false))
         /\ (username u = login_name data \/ email u = login_name data)
         /\ lower (login_name data) = login_name data
         /\ (lower (username u) = username u \/ lower (email u) = email u).
Proof.
  eexists. split; [vm_compute; reflexivity|].
  eapply (login_finds_lower_case_names sample_hs256 sample_secret
            sample_check_password_hash (sample_request "correct horse" None)
            (sample_env 4) (alice_world 0 false)).
  - vm_compute. reflexivity.
  - left. reflexivity.
Defined.

(** X16 on alice's login at instant 4, her token verified at instant 5. *)
Lemma login_token_verifies_witness :
  let w' := snd (login sample_hs256 sample_secret sample_check_password_hash
                   (sample_request "correct horse" None) (sample_env 4)
                   (alice_world 0 false)) in
  exists r,
    fst (login sample_hs256 sample_secret sample_check_password_hash
           (sample_request "correct horse" None) (sample_env 4) (alice_world 0 false))
    = Ok r
    /\ exists tk us sid,
         rs_token r = Some tk /\ rs_user r = Some us /\ rs_session_id r = Some sid
         /\ verify_jwt_token sample_hs256 sample_secret tk 5 w'
            = (Ok (Some (tk_payload tk)), w')
         /\ p_user_id (tk_payload tk) = us_id us
         /\ p_username (tk_payload tk) = us_username us
         /\ p_email (tk_payload tk) = us_email us
         /\ p_role (tk_payload tk) = us_role us
         /\ exists session,
              redis w' !! ("session:" +:+ sid)
              = Some (Entry session
                        (Some (e_now (sample_env 4)
                               + SESSION_TIMEOUT * 60 * us_per_second))).
Proof.
  intros w'. eexists. split; [vm_compute; reflexivity|].
  apply (login_token_verifies sample_hs256 sample_secret sample_check_password_hash
           (sample_request "correct horse" None) (sample_env 4) (alice_world 0 false)
           _ 5).
  - vm_compute. reflexivity.
  - reflexivity.
  - vm_compute. reflexivity.
  - vm_compute. discriminate.
  - vm_compute. reflexivity.
Defined.

(** X18 on alice at three failures: the challenge fetched at instant 1
    and answered at instant 2 passes the gate. *)
Lemma fetched_challenge_passes_gate_witness :
  fst (get_captcha (sample_env 1) (alice_world 3 false))
  = Ok {| cr_status := 200; cr_success := true;
          cr_captcha := Some (issued_challenge (sample_env 1)); cr_message := None |}
  /\ exists r w',
       login sample_hs256 sample_secret sample_check_password_hash
         (Some answering_request) (sample_env 2)
         (snd (get_captcha (sample_env 1) (alice_world 3 false))) = (Ok r, w')
       /\ rs_error_code r <> Some "CAPTCHA_REQUIRED"
       /\ rs_error_code r <> Some "INVALID_CAPTCHA".
Proof.
  apply (fetched_challenge_passes_gate sample_hs256 sample_secret
           sample_check_password_hash (sample_env 1) (sample_env 2)
           answering_request (alice_world 3 false)).
  - discriminate.
  - reflexivity.
  - vm_compute. reflexivity.
  - vm_compute. reflexivity.
Defined.

(** X20 on alice's login at instant 0, whose token has the text
    [alice_token_text]. *)
Lemma login_token_passes_verify_token_witness :
  let w' := snd (login sample_hs256 sample_secret sample_check_password_hash
                   (sample_request "correct horse" None) (sample_env 0)
                   (alice_world 0 false)) in
  exists r,
    fst (login sample_hs256 sample_secret sample_check_password_hash
           (sample_request "correct horse" None) (sample_env 0) (alice_world 0 false))
    = Ok r
    /\ exists tk us,
         rs_token r = Some tk /\ rs_user r = Some us
         /\ verify_token sample_hs256 sample_secret sample_decode
              (Some ("Bearer " +:+ alice_token_text)) (sample_env 5) w'
            = (Ok {| vr_status := 200; vr_valid := true; vr_message := None;
                     vr_user := Some {| tu_id := us_id us;
                                        tu_username := us_username us;
                                        tu_email := us_email us;
                                        tu_role := us_role us |};
                     vr_expires_at := Some (p_exp (tk_payload tk)) |},
               w').
Proof.
  intros w'. eexists. split; [vm_compute; reflexivity|].
  apply (login_token_passes_verify_token sample_hs256 sample_secret
           sample_check_password_hash sample_decode
           (sample_request "correct horse" None) (sample_env 0) (sample_env 5)
           (alice_world 0 false) _ alice_token_text).
  - vm_compute. reflexivity.
  - reflexivity.
  - vm_compute. reflexivity.
  - vm_compute. discriminate.
  - vm_compute. reflexivity.
  - reflexivity.
  - intros tk [= <-]. vm_compute. reflexivity.
Defined.

(** X21 on alice's token, revoked at instant 5 together with the session
    [session-1]. *)
Lemma logout_revokes_token_and_session_witness :
  let rq := {| lo_authorization := Some ("Bearer " +:+ alice_token_text);
               lo_body := JsonObject (Some "session-1") |} in
  let w' := snd (logout sample_hs256 sample_secret sample_decode rq (sample_env 5)
                   (alice_world 0 false)) in
  fst (logout sample_hs256 sample_secret sample_decode rq (sample_env 5)
         (alice_world 0 false))
  = Ok {| lr_status := 200; lr_success := true; lr_message := "Logout successful";
          lr_error_code := None |}
  /\ (truthy (Some "session-1") = true ->
      redis w' !! ("session:" +:+ default EmptyString (Some "session-1")) = None)
  /\ test_users w' = test_users (alice_world 0 false)
  /\ (forall env',
        verify_token sample_hs256 sample_secret sample_decode
          (Some ("Bearer " +:+ alice_token_text)) env' w'
        = (Ok {| vr_status := 401; vr_valid := false;
                 vr_message := Some "Invalid or expired token";
                 vr_user := None; vr_expires_at := None |}, w'))
  /\ (forall env' body',
        logout sample_hs256 sample_secret sample_decode
          {| lo_authorization := Some ("Bearer " +:+ alice_token_text);
             lo_body := body' |} env' w'
        = (Ok {| lr_status := 401; lr_success := false;
                 lr_message := "Invalid or expired token";
                 lr_error_code := Some "INVALID_TOKEN" |}, w')).
Proof.
  apply (logout_revokes_token_and_session sample_hs256 sample_secret sample_decode
           alice_token_text alice_token (Some "session-1") (sample_env 5)
           (alice_world 0 false)).
  - reflexivity.
  - reflexivity.
  - reflexivity.
  - vm_compute. discriminate.
  - vm_compute. reflexivity.
  - vm_compute. discriminate.
  - vm_compute. reflexivity.
Defined.

(** A logout with alice's token and no JSON body: answered 500, and the
    token is on the revocation list. *)
Example logout_without_body_revokes :
  let rq := {| lo_authorization := Some ("Bearer " +:+ alice_token_text);
               lo_body := NoJson |} in
  let out := logout sample_hs256 sample_secret sample_decode rq (sample_env 5)
               (alice_world 0 false) in
  fst out = Ok {| lr_status := 500; lr_success := false;
                  lr_message := "Internal server error";
                  lr_error_code := Some "INTERNAL_ERROR" |}
  /\ redis (snd out) !! "blacklist:jti-1"
     = Some (Entry "blacklisted" (Some (5 + 86400 * us_per_second)))
  /\ auth_events_log (snd out) = [].
Proof. vm_compute. repeat split; reflexivity. Qed.

(** X26 on alice's fingerprint, presented as the base64 text of the
    stored template. *)
Lemma biometric_login_effects_witness :
  let bw' := snd (biometric_auth sample_hs256 sample_secret
                    (Some matching_fingerprint) (sample_env 5)
                    (alice_bio_world 0 false)) in
  exists r,
    fst (biometric_auth sample_hs256 sample_secret (Some matching_fingerprint)
           (sample_env 5) (alice_bio_world 0 false)) = Ok r
    /\ exists u tk sid biometric_type,
         find_user (default EmptyString (bq_username matching_fingerprint))
           (test_users (bw_world (alice_bio_world 0 false))) = Some u
         /\ bq_biometric_type matching_fingerprint = Some biometric_type
         /\ br_token r = Some tk /\ br_session_id r = Some sid
         /\ br_user r = Some {| tu_id := p_user_id (tk_payload tk);
                                tu_username := p_username (tk_payload tk);
                                tu_email := p_email (tk_payload tk);
                                tu_role := p_role (tk_payload tk) |}
         /\ p_user_id (tk_payload tk) = py_str (id u)
         /\ verify_jwt_token sample_hs256 sample_secret tk 6 (bw_world bw')
            = (Ok (Some (tk_payload tk)), bw_world bw')
         /\ (exists session,
               redis (bw_world bw') !! ("session:" +:+ sid)
               = Some (Entry session
                         (Some (e_now (sample_env 5)
                                + SESSION_TIMEOUT * 60 * us_per_second))))
         /\ length (biometric_test_data bw')
            = length (biometric_test_data (alice_bio_world 0 false))
         /\ forall i b,
              biometric_test_data (alice_bio_world 0 false) !! i = Some b ->
              biometric_test_data bw' !! i
              = Some (if (b_user_id b =? id u)
                         && String.eqb (b_biometric_type b) biometric_type
                      then {| b_user_id := b_user_id b;
                              b_biometric_type := b_biometric_type b;
                              b_template_data := b_template_data b;
                              b_is_enrolled := b_is_enrolled b;
                              b_is_active := b_is_active b;
                              b_last_used := Some (e_now (sample_env 5)) |}
                      else b).
Proof.
  intros bw'. eexists. split; [vm_compute; reflexivity|].
  apply (biometric_login_effects sample_hs256 sample_secret matching_fingerprint
           (sample_env 5) (alice_bio_world 0 false) _ 6).
  - vm_compute. reflexivity.
  - reflexivity.
  - vm_compute. reflexivity.
  - vm_compute. discriminate.
  - vm_compute. reflexivity.
Defined.
